(** * youtube-comment-downloader: the continuation crawl engine

    A shallow embedding of [youtube_comment_downloader/utils.py] and
    [youtube_comment_downloader/downloader.py].

    - Decoded JSON documents are values of the tagged union [json].  Python
      dictionaries are association lists in insertion order, Python lists are
      Rocq lists in the same orientation ([pop()] removes the LAST element,
      [append] adds at the end, [l[:0] = xs] prepends).
    - Python exceptions are the [Err] case of [result].
    - The network, [re], [json.loads] and [dateparser.parse] are collaborators
      outside the repository; they are Section variables.  Every network call,
      every [time.sleep] and every [yield] is recorded, in program order, in
      an event log that is threaded through the code as explicit state.
    - JSON numbers are integers in this model; the strings of a decoded
      document are sequences of 8-bit characters.  The text handled by
      [formatters.py] is a sequence of Unicode code points. *)

From Equations Require Import Equations.
From Equations.Prop Require Import Logic.
From Stdlib Require Import List String Ascii ZArith QArith Lia Bool Arith.
From Stdlib Require Import Permutation.
Import ListNotations.
Local Open Scope string_scope.
Local Open Scope Z_scope.
Local Open Scope list_scope.

Set Implicit Arguments.
Set Warnings "-register-all".

(* ===================================================================== *)
(** ** Decoded JSON values *)
(* ===================================================================== *)

Inductive json : Type :=
| JNull
| JBool (b : bool)
| JNum (n : Z)
| JStr (s : string)
| JList (l : list json)
| JDict (items : list (string * json)).

(** Number of nodes of a document; every node counts for one. *)
Fixpoint json_size (v : json) : nat :=
  match v with
  | JList l => S (fold_right (fun x acc => (json_size x + acc)%nat) 0%nat l)
  | JDict items =>
      S (fold_right (fun kv acc => (json_size (snd kv) + acc)%nat) 0%nat items)
  | _ => 1%nat
  end.

Definition stack_size (stack : list json) : nat :=
  fold_right (fun x acc => (json_size x + acc)%nat) 0%nat stack.

Definition items_size (items : list (string * json)) : nat :=
  fold_right (fun kv acc => (json_size (snd kv) + acc)%nat) 0%nat items.

(* ===================================================================== *)
(** ** Python exceptions and results *)
(* ===================================================================== *)

Inductive exn : Type :=
| KeyError
| TypeError
| AttributeError
| IndexError
| ValueError
| OverflowError
| RuntimeError            (* StopIteration escaping a generator body *)
| JSONDecodeError
| RequestException (name : string)   (* requests.exceptions.*, not Timeout *)
| CommentDownloadError
| CommentsDisabledError
| SortingError (sort_by : Z)
| YouTubeApiError (error : json).

Inductive result (A : Type) : Type :=
| Ok (a : A)
| Err (e : exn).
Arguments Ok {A} a.
Arguments Err {A} e.

Definition rbind {A B} (r : result A) (f : A -> result B) : result B :=
  match r with
  | Ok a => f a
  | Err e => Err e
  end.

Declare Scope res_scope.
Delimit Scope res_scope with res.
Notation "x <- c ;; k" := (rbind c (fun x => k))
  (at level 61, c at next level, right associativity) : res_scope.

(** [for x in xs: acc = f(acc, x)] where the body may raise. *)
Fixpoint rfold {A B} (f : A -> B -> result A) (xs : list B) (acc : A)
  : result A :=
  match xs with
  | [] => Ok acc
  | x :: xs' => rbind (f acc x) (rfold f xs')
  end.

(* ===================================================================== *)
(** ** Python list primitives *)
(* ===================================================================== *)

(** [l.pop()]: the last element and the list without it; [None] on []. *)
Fixpoint py_pop {A} (l : list A) : option (list A * A) :=
  match l with
  | [] => None
  | x :: l' =>
      match py_pop l' with
      | None => Some ([], x)
      | Some (rest, y) => Some (x :: rest, y)
      end
  end.

(** [next(iter(xs), default)]. *)
Definition py_next {A} (xs : list A) (default : A) : A :=
  match xs with
  | [] => default
  | x :: _ => x
  end.

(* ===================================================================== *)
(** ** utils.search_dict *)
(* ===================================================================== *)

(** One pass of [for key, value in current_item.items()]: the values
    yielded (in order) and the values appended to the stack (in order). *)
Fixpoint dict_yields (search_key : string) (items : list (string * json))
  : list json :=
  match items with
  | [] => []
  | (key, value) :: items' =>
      if String.eqb key search_key
      then value :: dict_yields search_key items'
      else dict_yields search_key items'
  end.

Fixpoint dict_pushes (search_key : string) (items : list (string * json))
  : list json :=
  match items with
  | [] => []
  | (key, value) :: items' =>
      if String.eqb key search_key
      then dict_pushes search_key items'
      else value :: dict_pushes search_key items'
  end.

Lemma py_pop_app {A} (l : list A) x : py_pop (l ++ [x]) = Some (l, x).
Proof.
  induction l as [|a l IH]; simpl; [reflexivity|].
  rewrite IH. reflexivity.
Qed.

Lemma py_pop_some {A} (l : list A) rest x :
  py_pop l = Some (rest, x) -> l = rest ++ [x].
Proof.
  revert rest x. induction l as [|a l IH]; simpl; intros rest x H.
  - discriminate.
  - destruct (py_pop l) as [[r y]|] eqn:E.
    + inversion H; subst. rewrite (IH r x eq_refl). reflexivity.
    + inversion H; subst. destruct l as [|b l]; [reflexivity|].
      simpl in E. destruct (py_pop l) as [[? ?]|]; discriminate.
Qed.

Lemma py_pop_none {A} (l : list A) : py_pop l = None -> l = [].
Proof.
  destruct l as [|x l]; [reflexivity|].
  simpl. destruct (py_pop l) as [[? ?]|]; discriminate.
Qed.

Lemma stack_size_app a b :
  stack_size (a ++ b) = (stack_size a + stack_size b)%nat.
Proof.
  unfold stack_size. induction a as [|x a IH]; simpl; [reflexivity|].
  rewrite IH. lia.
Qed.

Lemma dict_pushes_size search_key items :
  (stack_size (dict_pushes search_key items) <= items_size items)%nat.
Proof.
  induction items as [|[k v] items IH]; simpl; [lia|].
  destruct (String.eqb k search_key); simpl; lia.
Qed.

Lemma json_size_pos v : (0 < json_size v)%nat.
Proof. destruct v; simpl; lia. Qed.

(** The [while stack:] loop of [search_dict]; the result is the sequence of
    yielded values.  Each turn removes one node from the stack and adds at
    most its children, so the number of nodes on the stack decreases. *)
Equations? search_loop (search_key : string) (stack : list json)
  : list json by wf (stack_size stack) lt :=
  search_loop search_key stack with inspect (py_pop stack) => {
    | exist _ None _ := [];
    | exist _ (Some (rest, JDict items)) _ :=
        dict_yields search_key items
          ++ search_loop search_key (rest ++ dict_pushes search_key items);
    | exist _ (Some (rest, JList l)) _ :=
        search_loop search_key (rest ++ l);
    | exist _ (Some (rest, _)) _ := search_loop search_key rest }.
Proof.
  all: match goal with H : _ = Some _ |- _ =>
         apply py_pop_some in H; subst stack end.
  all: rewrite ?stack_size_app; simpl.
  all: try lia.
  - unfold stack_size. lia.
  - match goal with |- context [dict_pushes ?k ?its] =>
      pose proof (dict_pushes_size k its) end.
    unfold items_size in *. lia.
Qed.

Definition search_dict (partial : json) (search_key : string) : list json :=
  search_loop search_key [partial].

(* ===================================================================== *)
(** ** Python operations on decoded JSON *)
(* ===================================================================== *)

(** [bool(v)]. *)
Definition py_truthy (v : json) : bool :=
  match v with
  | JNull => false
  | JBool b => b
  | JNum n => negb (n =? 0)
  | JStr s => negb (String.eqb s "")
  | JList l => match l with [] => false | _ => true end
  | JDict items => match items with [] => false | _ => true end
  end.

(** Lookup in a dictionary's entries.  Decoded dictionaries have distinct
    keys ([json.loads] keeps the last value of a repeated key). *)
Fixpoint dict_get (items : list (string * json)) (key : string)
  : option json :=
  match items with
  | [] => None
  | (k, v) :: items' => if String.eqb k key then Some v else dict_get items' key
  end.

(** [d[key] = value]: overwrite in place, or append a new entry. *)
Fixpoint dict_set (items : list (string * json)) (key : string) (value : json)
  : list (string * json) :=
  match items with
  | [] => [(key, value)]
  | (k, v) :: items' =>
      if String.eqb k key then (k, value) :: items'
      else (k, v) :: dict_set items' key value
  end.

(** [v[key]] for a string [key]. *)
Definition py_getitem (v : json) (key : string) : result json :=
  match v with
  | JDict items =>
      match dict_get items key with
      | Some x => Ok x
      | None => Err KeyError
      end
  | _ => Err TypeError
  end.

(** [v.get(key, default)]. *)
Definition py_get (v : json) (key : string) (default : json) : result json :=
  match v with
  | JDict items =>
      match dict_get items key with
      | Some x => Ok x
      | None => Ok default
      end
  | _ => Err AttributeError
  end.

(** [len(v)]. *)
Definition py_len (v : json) : result Z :=
  match v with
  | JList l => Ok (Z.of_nat (List.length l))
  | JDict items => Ok (Z.of_nat (List.length items))
  | JStr s => Ok (Z.of_nat (String.length s))
  | _ => Err TypeError
  end.

(** [l[i]] on a Python list: negative indices count from the end. *)
Definition list_index {A} (l : list A) (i : Z) : option A :=
  let n := Z.of_nat (List.length l) in
  if (0 <=? i) && (i <? n) then nth_error l (Z.to_nat i)
  else if (- n <=? i) && (i <? 0) then nth_error l (Z.to_nat (n + i))
  else None.

(** [v[i]] for an integer [i]. *)
Definition py_index (v : json) (i : Z) : result json :=
  match v with
  | JList l =>
      match list_index l i with
      | Some x => Ok x
      | None => Err IndexError
      end
  | JStr s =>
      match list_index (list_ascii_of_string s) i with
      | Some c => Ok (JStr (String c EmptyString))
      | None => Err IndexError
      end
  | JDict _ => Err KeyError      (* the keys of a decoded object are strings *)
  | _ => Err TypeError
  end.

Definition is_substring (needle s : string) : bool :=
  match String.index 0 needle s with
  | Some _ => true
  | None => false
  end.

Definition json_is_str (s : string) (v : json) : bool :=
  match v with
  | JStr s' => String.eqb s' s
  | _ => false
  end.

(** [needle in v] for a string [needle]. *)
Definition py_in (needle : string) (v : json) : result bool :=
  match v with
  | JDict items => Ok (existsb (fun kv => String.eqb (fst kv) needle) items)
  | JList l => Ok (existsb (json_is_str needle) l)
  | JStr s => Ok (is_substring needle s)
  | _ => Err TypeError
  end.

(** The sequence [for x in v] runs over. *)
Definition py_iter (v : json) : result (list json) :=
  match v with
  | JList l => Ok l
  | JDict items => Ok (map (fun kv => JStr (fst kv)) items)
  | JStr s =>
      Ok (map (fun c => JStr (String c EmptyString)) (list_ascii_of_string s))
  | _ => Err TypeError
  end.

(** [str.isspace] on one character (Latin-1 range). *)
Definition is_space (c : ascii) : bool :=
  let n := nat_of_ascii c in
  ((9 <=? n) && (n <=? 13) || (28 <=? n) && (n <=? 32)
   || (n =? 133) || (n =? 160))%nat.

Fixpoint lstrip (s : string) : string :=
  match s with
  | String c s' => if is_space c then lstrip s' else s
  | EmptyString => EmptyString
  end.

Fixpoint rstrip (s : string) : string :=
  match s with
  | String c s' =>
      match rstrip s' with
      | EmptyString => if is_space c then EmptyString else String c EmptyString
      | t => String c t
      end
  | EmptyString => EmptyString
  end.

(** [s.strip()]. *)
Definition str_strip (s : string) : string := rstrip (lstrip s).

(** [s.split(sep)[0]] for a one-character separator. *)
Fixpoint str_split_head (sep : ascii) (s : string) : string :=
  match s with
  | String c s' =>
      if Ascii.eqb c sep then EmptyString else String c (str_split_head sep s')
  | EmptyString => EmptyString
  end.

(** [v.strip()]: only strings have the method. *)
Definition py_strip (v : json) : result string :=
  match v with
  | JStr s => Ok (str_strip s)
  | _ => Err AttributeError
  end.

(** [v.startswith(p)]. *)
Definition py_startswith (v : json) (p : string) : result bool :=
  match v with
  | JStr s => Ok (String.prefix p s)
  | _ => Err AttributeError
  end.

(** *** Dictionaries keyed by decoded values

    The tables of a batch are Python dictionaries whose keys are values
    taken from the response.  Only [None], booleans, numbers and strings
    are hashable; [True == 1] and [False == 0] as keys. *)

Definition py_hashable (v : json) : bool :=
  match v with
  | JList _ | JDict _ => false
  | _ => true
  end.

Definition key_eqb (a b : json) : bool :=
  match a, b with
  | JNull, JNull => true
  | JBool x, JBool y => Bool.eqb x y
  | JNum x, JNum y => x =? y
  | JBool x, JNum y | JNum y, JBool x => y =? (if x then 1 else 0)
  | JStr x, JStr y => String.eqb x y
  | _, _ => false
  end.

Definition table (V : Type) : Type := list (json * V).

Fixpoint table_get {V} (t : table V) (key : json) : option V :=
  match t with
  | [] => None
  | (k, v) :: t' => if key_eqb k key then Some v else table_get t' key
  end.

Fixpoint table_set {V} (t : table V) (key : json) (value : V) : table V :=
  match t with
  | [] => [(key, value)]
  | (k, v) :: t' =>
      if key_eqb k key then (k, value) :: t'
      else (k, v) :: table_set t' key value
  end.

(** [t[key] = value]; an unhashable key raises [TypeError]. *)
Definition table_store {V} (t : table V) (key : json) (value : V)
  : result (table V) :=
  if py_hashable key then Ok (table_set t key value) else Err TypeError.

(** [t[key]]. *)
Definition table_lookup {V} (t : table V) (key : json) : result V :=
  if py_hashable key then
    match table_get t key with
    | Some v => Ok v
    | None => Err KeyError
    end
  else Err TypeError.

(** [key in t]. *)
Definition table_mem {V} (t : table V) (key : json) : result bool :=
  if py_hashable key then
    Ok (match table_get t key with Some _ => true | None => false end)
  else Err TypeError.

(* ===================================================================== *)
(** ** Comment records, events and the effect monad *)
(* ===================================================================== *)

(** The dictionary [result] built for each comment.  [time_parsed] and
    [paid] are the two keys that may be missing. *)
Record comment_record : Type := mkRecord {
  cid : json;
  text : json;
  time : json;
  author : json;
  channel : json;
  votes : string;
  replies : json;
  photo : json;
  heart : bool;
  reply : bool;
  time_parsed : option Q;
  paid : option json
}.

(** What the generator does to the outside world, in program order. *)
Inductive event : Type :=
| EvGet (url : string)
| EvConsentPost (url : string) (params : list (string * json))
| EvAjaxPost (url : string) (key : json) (data : json)
| EvSleep (seconds : Q)
| EvYield (r : comment_record).

Definition log : Type := list event.

(** A computation reads and extends the log and either returns or raises;
    the log reached at a raise is kept. *)
Definition M (A : Type) : Type := log -> result A * log.

Definition ret {A} (a : A) : M A := fun st => (Ok a, st).
Definition raise {A} (e : exn) : M A := fun st => (Err e, st).
Definition lift {A} (r : result A) : M A := fun st => (r, st).
Definition bind {A B} (m : M A) (f : A -> M B) : M B :=
  fun st =>
    match m st with
    | (Ok a, st') => f a st'
    | (Err e, st') => (Err e, st')
    end.
Definition emit (ev : event) : M unit := fun st => (Ok tt, st ++ [ev]).

Declare Scope m_scope.
Delimit Scope m_scope with M.
Notation "x <- c ;; k" := (bind c (fun x => k))
  (at level 61, c at next level, right associativity) : m_scope.
Notation "c ;;; k" := (bind c (fun _ => k))
  (at level 61, right associativity) : m_scope.

(** What [dateparser.parse] returns: [None], or a datetime.  The code uses
    a datetime only through its [timestamp()] method, so a datetime is
    known here by what that call does: [Moment (Ok t)] for [t] seconds
    since the epoch, [Moment (Err e)] when the call raises [e]
    ([ValueError] or [OverflowError] for a date outside the platform's
    range). *)
Inductive parsed_date : Type :=
| NoDate
| Moment (timestamp : result Q).

(** A fetched page: [response.url] and [response.text]. *)
Record page : Type := mkPage { page_url : string; page_text : string }.

(** What one [session.post] to the comment endpoint does. *)
Inductive post_outcome : Type :=
| Responded (status_code : Z) (body : result json)
      (* [body] is what [response.json()] evaluates to *)
| TimedOut                       (* raises requests.exceptions.Timeout *)
| Failed (name : string).        (* raises another requests exception *)

(** How the [while continuations:] loop ended. *)
Inductive crawl_end : Type :=
| StackEmpty       (* the loop condition failed *)
| NoResponse       (* [break] on a falsy response *)
| OutOfFuel.       (* the model's iteration bound was reached *)

(** constants.py *)
Definition YOUTUBE_VIDEO_URL_PREFIX : string := "https://www.youtube.com/watch?v=".
Definition YOUTUBE_CONSENT_URL : string := "https://consent.youtube.com/save".
Definition SORT_BY_POPULAR : Z := 0.
Definition SORT_BY_RECENT : Z := 1.

(** The three patterns of constants.py are only passed to [re]; they are
    named, not interpreted. *)
Inductive pattern : Type := YT_CFG_RE | YT_INITIAL_DATA_RE | YT_HIDDEN_INPUT_RE.

(* ===================================================================== *)
(** ** downloader.YoutubeCommentDownloader *)
(* ===================================================================== *)

Section Downloader.

Local Open Scope m_scope.

(** *** Collaborators outside the repository

    Each network call is answered from the log of everything that
    happened before it, so a transport may answer the same request
    differently on different attempts. *)
Variable session_get : log -> string -> result page.
Variable session_post_consent :
  log -> string -> list (string * json) -> result page.
Variable session_post : log -> string -> json -> json -> Q -> post_outcome.
(** [re.search(pattern, text)]: group 1 of the first match, if any. *)
Variable re_search : pattern -> string -> option string.
(** [re.findall(pattern, text)] for a pattern with two groups. *)
Variable re_findall : pattern -> string -> list (string * string).
Variable json_loads : string -> result json.
(** [dateparser.parse(s)]: what it returns, or the exception it raises. *)
Variable dateparser_parse : string -> result parsed_date.

(** utils.regex_search with [group=1]. *)
Definition regex_search (text : string) (pat : pattern) (default : string)
  : string :=
  match re_search pat text with
  | Some g => g
  | None => default
  end.

(** **** ajax_request *)

Definition post (url : string) (key data : json) (timeout : Q)
  : M post_outcome :=
  fun st =>
    (Ok (session_post st url key data timeout),
     st ++ [EvAjaxPost url key data]).

(** The [for _ in range(retries):] loop with [n] turns left; Python's
    [None] is [JNull]. *)
Fixpoint ajax_attempts (n : nat) (url : string) (data ytcfg : json)
    (sleep timeout : Q) : M json :=
  match n with
  | O => ret JNull
  | S n' =>
      key <- lift (py_getitem ytcfg "INNERTUBE_API_KEY") ;;
      outcome <- post url key data timeout ;;
      match outcome with
      | Responded status_code body =>
          if status_code =? 200 then lift body
          else if (status_code =? 403) || (status_code =? 413)
          then ret (JDict [])
          else emit (EvSleep sleep) ;;;
               ajax_attempts n' url data ytcfg sleep timeout
      | TimedOut =>
          emit (EvSleep sleep) ;;;
          ajax_attempts n' url data ytcfg sleep timeout
      | Failed name => raise (RequestException name)
      end
  end.

Definition endpoint_url (endpoint : json) : result string :=
  (cm <- py_getitem endpoint "commandMetadata" ;;
   wcm <- py_getitem cm "webCommandMetadata" ;;
   api <- py_getitem wcm "apiUrl" ;;
   match api with
   | JStr s => Ok ("https://www.youtube.com" ++ s)%string
   | _ => Err TypeError
   end)%res.

Definition request_data (endpoint ytcfg : json) : result json :=
  (context <- py_getitem ytcfg "INNERTUBE_CONTEXT" ;;
   cc <- py_getitem endpoint "continuationCommand" ;;
   token <- py_getitem cc "token" ;;
   Ok (JDict [("context", context); ("continuation", token)]))%res.

Definition ajax_request (endpoint ytcfg : json) (retries : Z)
    (sleep timeout : Q) : M json :=
  url <- lift (endpoint_url endpoint) ;;
  data <- lift (request_data endpoint ytcfg) ;;
  ajax_attempts (Z.to_nat retries) url data ytcfg sleep timeout.

(** The call sites pass no keyword arguments. *)
Definition ajax_request_default (endpoint ytcfg : json) : M json :=
  ajax_request endpoint ytcfg 5 (20 # 1) (60 # 1).

(** **** get_comments_from_url: fetching the page *)

Definition consent_params (html youtube_url : string)
  : list (string * json) :=
  let hidden :=
    fold_left (fun d nv => dict_set d (fst nv) (JStr (snd nv)))
              (re_findall YT_HIDDEN_INPUT_RE html) [] in
  dict_set (dict_set (dict_set (dict_set hidden
    "continue" (JStr youtube_url))
    "set_eom" (JBool false))
    "set_ytc" (JBool true))
    "set_apyt" (JBool true).

Definition fetch_page (youtube_url : string) : M page :=
  response <- (fun st => (session_get st youtube_url,
                          st ++ [EvGet youtube_url])) ;;
  if is_substring "consent" (page_url response) then
    let params := consent_params (page_text response) youtube_url in
    (fun st => (session_post_consent st YOUTUBE_CONSENT_URL params,
                st ++ [EvConsentPost YOUTUBE_CONSENT_URL params]))
  else ret response.

(** **** get_comments_from_url: configuration and initial data *)

Definition json_update (v : json) (key : string) (new : json) : json :=
  match v with
  | JDict items => JDict (dict_set items key new)
  | _ => v
  end.

(** [v[key] = value]. *)
Definition py_setitem (v : json) (key : string) (value : json)
  : result json :=
  match v with
  | JDict items => Ok (JDict (dict_set items key value))
  | _ => Err TypeError
  end.

(** [if language: ytcfg['INNERTUBE_CONTEXT']['client']['hl'] = language] *)
Definition set_language (ytcfg : json) (language : option string)
  : result json :=
  match language with
  | None => Ok ytcfg
  | Some lang =>
      if String.eqb lang "" then Ok ytcfg
      else
        (context <- py_getitem ytcfg "INNERTUBE_CONTEXT" ;;
         client <- py_getitem context "client" ;;
         client' <- py_setitem client "hl" (JStr lang) ;;
         Ok (json_update ytcfg "INNERTUBE_CONTEXT"
               (json_update context "client" client')))%res
  end.

Definition extract_config (html : string) (language : option string)
  : result json :=
  (ytcfg <- json_loads (regex_search html YT_CFG_RE "{}") ;;
   if negb (py_truthy ytcfg) then Err CommentDownloadError
   else set_language ytcfg language)%res.

Definition extract_initial_data (html : string) : result json :=
  json_loads (regex_search html YT_INITIAL_DATA_RE "{}").

(** "Check if comments are available". *)
Definition check_comments (data : json) : result unit :=
  let item_section := py_next (search_dict data "itemSectionRenderer") JNull in
  let renderer :=
    if py_truthy item_section
    then py_next (search_dict item_section "continuationItemRenderer") JNull
    else JNull in
  if negb (py_truthy renderer) then Err CommentsDisabledError else Ok tt.

(** **** get_comments_from_url: the sort menu *)

Definition sub_menu_items (data : json) : result json :=
  py_get (py_next (search_dict data "sortFilterSubMenuRenderer") (JDict []))
         "subMenuItems" (JList []).

(** Lines 140-147: the menu of the page, or of the community-post
    fallback request. *)
Definition discover_sort_menu (data ytcfg : json) : M json :=
  sort_menu <- lift (sub_menu_items data) ;;
  if negb (py_truthy sort_menu) then
    let section_list :=
      py_next (search_dict data "sectionListRenderer") (JDict []) in
    match search_dict section_list "continuationEndpoint" with
    | [] => ret sort_menu
    | first :: _ =>
        response <- ajax_request_default first ytcfg ;;
        let data' := if py_truthy response then response else JDict [] in
        lift (sub_menu_items data')
    end
  else ret sort_menu.

(** Lines 149-152: the bounds check and the seed of the work stack. *)
Definition select_sort (sort_menu : json) (sort_by : Z)
  : result (list json) :=
  if negb (py_truthy sort_menu) then Err (SortingError sort_by)
  else
    (n <- py_len sort_menu ;;
     if n <=? sort_by then Err (SortingError sort_by)
     else
       item <- py_index sort_menu sort_by ;;
       endpoint <- py_getitem item "serviceEndpoint" ;;
       Ok [endpoint])%res.

Definition resolve_sort (data ytcfg : json) (sort_by : Z) : M (list json) :=
  sort_menu <- discover_sort_menu data ytcfg ;;
  lift (select_sort sort_menu sort_by).

(** **** get_comments_from_url: one response batch *)

Definition COMMENT_SECTIONS : list string :=
  ["comments-section";
   "engagement-panel-comments-section";
   "shorts-engagement-panel-comments-section"].

(** The body of [for item in action.get('continuationItems', [])]. *)
Definition discover_item (action item : json) (continuations : list json)
  : result (list json) :=
  (target <- py_getitem action "targetId" ;;
   let continuations :=
     if existsb (fun s => json_is_str s target) COMMENT_SECTIONS
     then search_dict item "continuationEndpoint" ++ continuations
     else continuations in
   target <- py_getitem action "targetId" ;;
   starts <- py_startswith target "comment-replies-item" ;;
   more <- (if starts then py_in "continuationItemRenderer" item
            else Ok false) ;;
   if more then
     match search_dict item "buttonRenderer" with
     | [] => Err RuntimeError
     | button :: _ =>
         command <- py_getitem button "command" ;;
         Ok (continuations ++ [command])
     end
   else Ok continuations)%res.

Definition discover_action (action : json) (continuations : list json)
  : result (list json) :=
  (items <- py_get action "continuationItems" (JList []) ;;
   items <- py_iter items ;;
   rfold (fun conts item => discover_item action item conts)
         items continuations)%res.

(** "Process continuations": the work stack after the actions of
    [response] have been scanned. *)
Definition discover (response : json) (continuations : list json)
  : result (list json) :=
  let actions :=
    search_dict response "reloadContinuationItemsCommand"
    ++ search_dict response "appendContinuationItemsAction" in
  rfold (fun conts action => discover_action action conts)
        actions continuations.

(** [[f(x) for x in xs]] where [f] may raise. *)
Fixpoint rmap {A B} (f : A -> result B) (xs : list A) : result (list B) :=
  match xs with
  | [] => Ok []
  | x :: xs' =>
      (y <- f x ;; ys <- rmap f xs' ;; Ok (y :: ys))%res
  end.

(** "Process payments/memberships". *)
Definition surface_payments (response : json) : result (table json) :=
  rfold (fun payments payload =>
           (chip <- py_in "pdgCommentChip" payload ;;
            if chip then
              key <- py_getitem payload "key" ;;
              table_store payments key
                (py_next (search_dict payload "simpleText") (JStr ""))
            else Ok payments)%res)
        (search_dict response "commentSurfaceEntityPayload") [].

Definition build_payments (response : json) : result (table json) :=
  (payments <- surface_payments response ;;
   match payments with
   | [] => Ok payments
   | _ =>
       view_models <-
         rmap (fun vm => py_getitem vm "commentViewModel")
              (search_dict response "commentViewModel") ;;
       surface_keys <-
         rfold (fun keys vm =>
                  has <- py_in "commentSurfaceKey" vm ;;
                  if has then
                    key <- py_getitem vm "commentSurfaceKey" ;;
                    id <- py_getitem vm "commentId" ;;
                    table_store keys key id
                  else Ok keys)
               view_models [] ;;
       rfold (fun acc kp =>
                known <- table_mem surface_keys (fst kp) ;;
                if known then
                  id <- table_lookup surface_keys (fst kp) ;;
                  table_store acc id (snd kp)
                else Ok acc)
             payments []
   end)%res.

(** "Process toolbar states". *)
Definition build_toolbar_states (response : json) : result (table json) :=
  rfold (fun states payload =>
           (key <- py_getitem payload "key" ;;
            table_store states key payload)%res)
        (search_dict response "engagementToolbarStateEntityPayload") [].

(** [dateparser.parse(time.split('(')[0].strip()).timestamp()]; a missing
    method ([time] is not a string, or [parse] gave [None]) raises
    [AttributeError]; an exception of [parse] or of [timestamp()] is
    raised as it is. *)
Definition parse_time (time : json) : result Q :=
  match time with
  | JStr s =>
      match dateparser_parse (str_strip (str_split_head "("%char s)) with
      | Ok (Moment timestamp) => timestamp
      | Ok NoDate => Err AttributeError
      | Err e => Err e
      end
  | _ => Err AttributeError
  end.

(** The body of the [for comment in reversed(...)] loop up to [yield]. *)
Definition make_record (payments toolbar_states : table json)
    (comment : json) : result comment_record :=
  (properties <- py_getitem comment "properties" ;;
   cid <- py_getitem properties "commentId" ;;
   author <- py_getitem comment "author" ;;
   toolbar <- py_getitem comment "toolbar" ;;
   state_key <- py_getitem properties "toolbarStateKey" ;;
   toolbar_state <- table_lookup toolbar_states state_key ;;
   content <- py_getitem properties "content" ;;
   text <- py_getitem content "content" ;;
   time <- py_getitem properties "publishedTime" ;;
   display_name <- py_getitem author "displayName" ;;
   channel <- py_getitem author "channelId" ;;
   likes <- py_getitem toolbar "likeCountNotliked" ;;
   likes <- py_strip likes ;;
   replies <- py_getitem toolbar "replyCount" ;;
   photo <- py_getitem author "avatarThumbnailUrl" ;;
   heart_state <- py_get toolbar_state "heartState" (JStr "") ;;
   is_reply <- py_in "." cid ;;
   time_parsed <-
     match parse_time time with
     | Ok t => Ok (Some t)
     | Err AttributeError => Ok None        (* except AttributeError: pass *)
     | Err e => Err e
     end ;;
   has_paid <- table_mem payments cid ;;
   paid <- (if has_paid then
              p <- table_lookup payments cid ;; Ok (Some p)
            else Ok None) ;;
   Ok {| cid := cid;
         text := text;
         time := time;
         author := display_name;
         channel := channel;
         votes := if String.eqb likes "" then "0" else likes;
         replies := replies;
         photo := photo;
         heart := json_is_str "TOOLBAR_HEART_STATE_HEARTED" heart_state;
         reply := is_reply;
         time_parsed := time_parsed;
         paid := paid |})%res.

(** The [for comment in ...] loop: build a record, yield it, go on. *)
Fixpoint emit_comments (payments toolbar_states : table json)
    (comments : list json) : M unit :=
  match comments with
  | [] => ret tt
  | comment :: comments' =>
      r <- lift (make_record payments toolbar_states comment) ;;
      emit (EvYield r) ;;;
      emit_comments payments toolbar_states comments'
  end.

(** Lines 162-230: everything done with a truthy response; the value is
    the work stack for the next turn. *)
Definition process_response (response : json) (continuations : list json)
    (sleep : Q) : M (list json) :=
  let error := py_next (search_dict response "externalErrorMessage") JNull in
  if py_truthy error then raise (YouTubeApiError error)
  else
    continuations <- lift (discover response continuations) ;;
    payments <- lift (build_payments response) ;;
    toolbar_states <- lift (build_toolbar_states response) ;;
    emit_comments payments toolbar_states
      (rev (search_dict response "commentEntityPayload")) ;;;
    emit (EvSleep sleep) ;;;
    ret continuations.

(** The [while continuations:] loop, at most [fuel] turns. *)
Fixpoint crawl (fuel : nat) (ytcfg : json) (sleep : Q)
    (continuations : list json) : M crawl_end :=
  match py_pop continuations with
  | None => ret StackEmpty
  | Some (continuations, continuation) =>
      match fuel with
      | O => ret OutOfFuel
      | S fuel' =>
          response <- ajax_request_default continuation ytcfg ;;
          if negb (py_truthy response) then ret NoResponse
          else
            continuations <- process_response response continuations sleep ;;
            crawl fuel' ytcfg sleep continuations
      end
  end.

(** **** get_comments_from_url and get_comments *)

Definition get_comments_from_url (youtube_url : string) (sort_by : Z)
    (language : option string) (sleep : Q) (fuel : nat) : M crawl_end :=
  response <- fetch_page youtube_url ;;
  let html := page_text response in
  ytcfg <- lift (extract_config html language) ;;
  data <- lift (extract_initial_data html) ;;
  lift (check_comments data) ;;;
  continuations <- resolve_sort data ytcfg sort_by ;;
  crawl fuel ytcfg sleep continuations.

Definition get_comments (youtube_id : string) (sort_by : Z)
    (language : option string) (sleep : Q) (fuel : nat) : M crawl_end :=
  get_comments_from_url (YOUTUBE_VIDEO_URL_PREFIX ++ youtube_id)%string
                        sort_by language sleep fuel.

End Downloader.

(* ===================================================================== *)
(** ** Specification-side definitions *)
(* ===================================================================== *)

(** *** What the search is asked to find *)

(** The values of every mapping entry anywhere in [v] whose key is
    [search_key], in document order; the value of a matching entry is
    itself searched. *)
Fixpoint all_entries (search_key : string) (v : json) : list json :=
  match v with
  | JDict items =>
      (fix go (items : list (string * json)) : list json :=
         match items with
         | [] => []
         | (key, value) :: items' =>
             (if String.eqb key search_key
              then value :: all_entries search_key value
              else all_entries search_key value) ++ go items'
         end) items
  | JList l =>
      (fix go (l : list json) : list json :=
         match l with
         | [] => []
         | x :: l' => all_entries search_key x ++ go l'
         end) l
  | _ => []
  end.

(** The same, except that the value of a matching entry is not searched:
    the entries reached without passing through an entry of that key. *)
Fixpoint outer_entries (search_key : string) (v : json) : list json :=
  match v with
  | JDict items =>
      (fix go (items : list (string * json)) : list json :=
         match items with
         | [] => []
         | (key, value) :: items' =>
             (if String.eqb key search_key
              then [value]
              else outer_entries search_key value) ++ go items'
         end) items
  | JList l =>
      (fix go (l : list json) : list json :=
         match l with
         | [] => []
         | x :: l' => outer_entries search_key x ++ go l'
         end) l
  | _ => []
  end.

(** The order in which the stack discipline yields them: the direct
    matches of a mapping first, then its other values last-pushed-first. *)
Fixpoint search_rec (search_key : string) (v : json) : list json :=
  match v with
  | JDict items =>
      dict_yields search_key items ++
      (fix go (items : list (string * json)) : list json :=
         match items with
         | [] => []
         | (key, value) :: items' =>
             go items' ++
             (if String.eqb key search_key then []
              else search_rec search_key value)
         end) items
  | JList l =>
      (fix go (l : list json) : list json :=
         match l with
         | [] => []
         | x :: l' => go l' ++ search_rec search_key x
         end) l
  | _ => []
  end.

(** Induction over documents that reaches inside lists and mappings. *)
Fixpoint json_rect' (P : json -> Prop)
    (Hnull : P JNull) (Hbool : forall b, P (JBool b))
    (Hnum : forall n, P (JNum n)) (Hstr : forall s, P (JStr s))
    (Hlist : forall l, Forall P l -> P (JList l))
    (Hdict : forall items, Forall (fun kv => P (snd kv)) items ->
                           P (JDict items))
    (v : json) : P v :=
  match v with
  | JNull => Hnull
  | JBool b => Hbool b
  | JNum n => Hnum n
  | JStr s => Hstr s
  | JList l =>
      Hlist l
        ((fix go (l : list json) : Forall P l :=
            match l with
            | [] => Forall_nil P
            | x :: l' =>
                Forall_cons x
                  (json_rect' Hnull Hbool Hnum Hstr Hlist Hdict x) (go l')
            end) l)
  | JDict items =>
      Hdict items
        ((fix go (items : list (string * json))
            : Forall (fun kv => P (snd kv)) items :=
            match items with
            | [] => Forall_nil _
            | kv :: items' =>
                Forall_cons kv
                  (json_rect' Hnull Hbool Hnum Hstr Hlist Hdict (snd kv))
                  (go items')
            end) items)
  end.

(** *** Where the tokens of the work stack came from (ghost state) *)

Inductive origin : Type :=
| Seed            (* the endpoint of the chosen sort-menu item *)
| MoreComments    (* a [continuationEndpoint], inserted at the front *)
| MoreReplies.    (* a "show more replies" command, appended at the back *)

Definition tagged : Type := (origin * json)%type.

(** [discover_item] on a stack that remembers origins. *)
Definition discover_item_tagged (action item : json)
    (continuations : list tagged) : result (list tagged) :=
  (target <- py_getitem action "targetId" ;;
   let continuations :=
     if existsb (fun s => json_is_str s target) COMMENT_SECTIONS
     then map (pair MoreComments) (search_dict item "continuationEndpoint")
          ++ continuations
     else continuations in
   target <- py_getitem action "targetId" ;;
   starts <- py_startswith target "comment-replies-item" ;;
   more <- (if starts then py_in "continuationItemRenderer" item
            else Ok false) ;;
   if more then
     match search_dict item "buttonRenderer" with
     | [] => Err RuntimeError
     | button :: _ =>
         command <- py_getitem button "command" ;;
         Ok (continuations ++ [(MoreReplies, command)])
     end
   else Ok continuations)%res.

Definition discover_action_tagged (action : json) (continuations : list tagged)
  : result (list tagged) :=
  (items <- py_get action "continuationItems" (JList []) ;;
   items <- py_iter items ;;
   rfold (fun conts item => discover_item_tagged action item conts)
         items continuations)%res.

Definition discover_tagged (response : json) (continuations : list tagged)
  : result (list tagged) :=
  let actions :=
    search_dict response "reloadContinuationItemsCommand"
    ++ search_dict response "appendContinuationItemsAction" in
  rfold (fun conts action => discover_action_tagged action conts)
        actions continuations.

(** The work stacks the loop can hold at the top of a turn: the seed, and
    whatever a turn leaves after popping a token and scanning some
    response. *)
Inductive reachable : list tagged -> Prop :=
| reach_seed : forall endpoint, reachable [(Seed, endpoint)]
| reach_turn : forall stack rest token response stack',
    reachable stack ->
    py_pop stack = Some (rest, token) ->
    discover_tagged response rest = Ok stack' ->
    reachable stack'.

Definition is_replies (t : tagged) : bool :=
  match fst t with MoreReplies => true | _ => false end.

(** *** What the tables of a batch hold *)

(** What a dictionary filled by storing [entries] one after the other
    holds under [key]: the value stored last under a key equal to it. *)
Fixpoint last_entry {V} (entries : list (json * V)) (key : json)
  : option V :=
  match entries with
  | [] => None
  | (k, v) :: rest =>
      match last_entry rest key with
      | Some w => Some w
      | None => if key_eqb k key then Some v else None
      end
  end.

(** The toolbar states of a batch, each under its own [key]. *)
Definition toolbar_entries (response : json) : list (json * json) :=
  flat_map (fun payload =>
              match py_getitem payload "key" with
              | Ok key => [(key, payload)]
              | Err _ => []
              end)
           (search_dict response "engagementToolbarStateEntityPayload").

(** The paid chips of a batch: the [key] of every surface payload with a
    [pdgCommentChip], and the text of the chip. *)
Definition chip_entries (response : json) : list (json * json) :=
  flat_map (fun payload =>
              match py_in "pdgCommentChip" payload,
                    py_getitem payload "key" with
              | Ok true, Ok key =>
                  [(key, py_next (search_dict payload "simpleText")
                                 (JStr ""))]
              | _, _ => []
              end)
           (search_dict response "commentSurfaceEntityPayload").

(** The view models of a batch that name a surface key: that key, and
    the [commentId] of the view model. *)
Definition surface_key_entries (response : json) : list (json * json) :=
  flat_map (fun outer =>
              match py_getitem outer "commentViewModel" with
              | Ok vm =>
                  match py_in "commentSurfaceKey" vm,
                        py_getitem vm "commentSurfaceKey",
                        py_getitem vm "commentId" with
                  | Ok true, Ok key, Ok id => [(key, id)]
                  | _, _, _ => []
                  end
              | Err _ => []
              end)
           (search_dict response "commentViewModel").

(** The toolbar table is fully built from a batch: under every key it
    holds the toolbar state of the batch that carries that key (the last
    one, if several do), and nothing under any other key. *)
Definition toolbar_built (response : json) (toolbar_states : table json)
  : Prop :=
  forall key,
    table_get toolbar_states key = last_entry (toolbar_entries response) key.

(** The payment table is fully built from a batch: every entry joins a
    chip of the batch with a view model of the batch that names the
    chip's surface key, filed under (a key equal to) that view model's
    comment id; and every chip whose surface key a view model names has
    given an entry under that view model's comment id. *)
Definition payments_built (response : json) (payments : table json)
  : Prop :=
  (forall id text,
      table_get payments id = Some text ->
      exists key id',
        last_entry (chip_entries response) key = Some text
        /\ last_entry (surface_key_entries response) key = Some id'
        /\ key_eqb id' id = true)
  /\ (forall key text id,
        last_entry (chip_entries response) key = Some text ->
        last_entry (surface_key_entries response) key = Some id ->
        table_get payments id <> None).

(* ===================================================================== *)
(** ** Vocabulary of the statements and test data *)
(* ===================================================================== *)

(** What a whole stack yields: its last element first. *)
Fixpoint stack_yields (search_key : string) (stack : list json) : list json :=
  match stack with
  | [] => []
  | x :: stack' => stack_yields search_key stack' ++ search_rec search_key x
  end.

(** A mapping whose ["k"] entry holds another mapping with a ["k"] entry. *)
Definition nested_same_key : json :=
  JDict [("k", JDict [("k", JNum 1)])].

(** An attempt after which the loop sleeps and goes round again: a status
    other than 200, 403 and 413, or a timeout. *)
Definition retried (o : post_outcome) : bool :=
  match o with
  | Responded code _ => negb ((code =? 200) || (code =? 403) || (code =? 413))
  | TimedOut => true
  | Failed _ => false
  end.

(** What [i] such attempts leave in the log: a post and a sleep, each. *)
Fixpoint failed_rounds (i : nat) (url : string) (key data : json) (sleep : Q)
  : log :=
  match i with
  | O => []
  | S i' =>
      EvAjaxPost url key data :: EvSleep sleep
        :: failed_rounds i' url key data sleep
  end.

(** How many comment requests a log holds. *)
Definition count_posts (l : log) : nat :=
  List.length
    (filter (fun ev => match ev with EvAjaxPost _ _ _ => true | _ => false end)
            l).

(** Test data: a continuation endpoint carrying [token], and a client
    configuration. *)
Definition sample_endpoint (token : string) : json :=
  JDict [("commandMetadata",
          JDict [("webCommandMetadata",
                  JDict [("apiUrl", JStr "/youtubei/v1/next")])]);
         ("continuationCommand", JDict [("token", JStr token)])].

Definition sample_ytcfg : json :=
  JDict [("INNERTUBE_API_KEY", JStr "key");
         ("INNERTUBE_CONTEXT", JDict [("client", JDict [("hl", JStr "en")])])].

Definition sample_url : string := "https://www.youtube.com/youtubei/v1/next".

Definition sample_data (token : string) : json :=
  JDict [("context", JDict [("client", JDict [("hl", JStr "en")])]);
         ("continuation", JStr token)].

(** Transports: one that answers 503 once and 403 afterwards, one whose
    connection is refused, one that always answers 500. *)
Definition forbidden_after_one : log -> string -> json -> json -> Q -> post_outcome :=
  fun st _ _ _ _ =>
    match st with
    | [] => Responded 503 (Err JSONDecodeError)
    | _ => Responded 403 (Err JSONDecodeError)
    end.

Definition refusing : log -> string -> json -> json -> Q -> post_outcome :=
  fun _ _ _ _ _ => Failed "ConnectionError".

Definition always_500 : log -> string -> json -> json -> Q -> post_outcome :=
  fun _ _ _ _ _ => Responded 500 (Ok (JDict [])).

(** Test data: an initial page state with a comment section and a sort
    menu of two entries. *)
Definition sample_menu : list json :=
  [JDict [("title", JStr "Top comments");
          ("serviceEndpoint", sample_endpoint "popular")];
   JDict [("title", JStr "Newest first");
          ("serviceEndpoint", sample_endpoint "recent")]].

Definition sample_page_data : json :=
  JDict [("contents",
          JList [JDict [("itemSectionRenderer",
                         JDict [("contents",
                                 JList [JDict [("continuationItemRenderer",
                                                JDict [("trigger", JStr "x")])]])])]]);
         ("header",
          JDict [("sortFilterSubMenuRenderer",
                  JDict [("subMenuItems", JList sample_menu)])])].

(** Stand-ins for [re] and [json] that know two blobs: ["{cfg}"], the
    client configuration, and ["{data}"], the initial page state. *)
Definition toy_re_search (pat : pattern) (text : string) : option string :=
  match pat with
  | YT_CFG_RE =>
      if is_substring "ytcfg.set({cfg});" text then Some "{cfg}" else None
  | YT_INITIAL_DATA_RE =>
      if is_substring "ytInitialData = {data};" text then Some "{data}"
      else None
  | YT_HIDDEN_INPUT_RE => None
  end.

Definition toy_re_findall (pat : pattern) (text : string)
  : list (string * string) := [].

Definition toy_json_loads (s : string) : result json :=
  if String.eqb s "{}" then Ok (JDict [])
  else if String.eqb s "{cfg}" then Ok sample_ytcfg
  else if String.eqb s "{data}" then Ok sample_page_data
  else Err JSONDecodeError.

(** A stand-in for [dateparser.parse]: one relative date it can place in
    time, one absolute date it recognises but whose [timestamp()] raises
    [ValueError] (the year 1 is out of the range of timestamps), and
    nothing else recognised. *)
Definition toy_parse (s : string) : result parsed_date :=
  if String.eqb s "1 day ago" then Ok (Moment (Ok (1700000000 # 1)))
  else if String.eqb s "0001-01-01" then Ok (Moment (Err ValueError))
  else Ok NoDate.

(** A server whose watch page carries the configuration blob but no
    initial-state marker. *)
Definition page_without_data : log -> string -> result page :=
  fun _ url =>
    Ok {| page_url := url;
          page_text := "<script>ytcfg.set({cfg});</script>" |}.

Definition no_consent : log -> string -> list (string * json) -> result page :=
  fun _ _ _ => Err (RequestException "ConnectionError").

(** The records a log shows as yielded, in order. *)
Fixpoint yields_of (l : log) : list comment_record :=
  match l with
  | [] => []
  | EvYield r :: l' => r :: yields_of l'
  | _ :: l' => yields_of l'
  end.

(** The record without its [time_parsed] key. *)
Definition without_time_parsed (r : comment_record) : comment_record :=
  {| cid := cid r; text := text r; time := time r; author := author r;
     channel := channel r; votes := votes r; replies := replies r;
     photo := photo r; heart := heart r; reply := reply r;
     time_parsed := None; paid := paid r |}.

(** Test data: a toolbar-state payload, two comment payloads that refer to
    it and one that refers to a key no payload has. *)
Definition sample_toolbar_state : json :=
  JDict [("key", JStr "state-1");
         ("heartState", JStr "TOOLBAR_HEART_STATE_HEARTED")].

Definition sample_comment (id published state_key : string) : json :=
  JDict [("properties",
          JDict [("commentId", JStr id);
                 ("content", JDict [("content", JStr "hello")]);
                 ("publishedTime", JStr published);
                 ("toolbarStateKey", JStr state_key)]);
         ("author",
          JDict [("displayName", JStr "@someone");
                 ("channelId", JStr "UC123");
                 ("avatarThumbnailUrl", JStr "https://yt3.ggpht.com/a")]);
         ("toolbar",
          JDict [("likeCountNotliked", JStr " ");
                 ("replyCount", JStr "2")])].

Definition sample_record (id published : string) (parsed : option Q)
  : comment_record :=
  {| cid := JStr id; text := JStr "hello"; time := JStr published;
     author := JStr "@someone"; channel := JStr "UC123"; votes := "0";
     replies := JStr "2"; photo := JStr "https://yt3.ggpht.com/a";
     heart := true; reply := is_substring "." id;
     time_parsed := parsed; paid := None |}.

(** Test data: a batch of two comments; the second one names a toolbar
    state that the batch does not carry. *)
Definition mutation (kind : string) (payload : json) : json :=
  JDict [("entityKey", JStr "e"); ("payload", JDict [(kind, payload)])].

Definition batch_with_unmatched_key : json :=
  JDict [("frameworkUpdates",
          JDict [("entityBatchUpdate",
                  JDict [("mutations",
                          JList [mutation "commentEntityPayload"
                                   (sample_comment "abc" "1 day ago" "state-1");
                                 mutation "engagementToolbarStateEntityPayload"
                                   sample_toolbar_state;
                                 mutation "commentEntityPayload"
                                   (sample_comment "abc.def" "1 day ago"
                                      "state-2")])])])].

(** The same batch with both comments on the one toolbar state. *)
Definition batch_two_comments : json :=
  JDict [("frameworkUpdates",
          JDict [("entityBatchUpdate",
                  JDict [("mutations",
                          JList [mutation "commentEntityPayload"
                                   (sample_comment "abc" "1 day ago" "state-1");
                                 mutation "engagementToolbarStateEntityPayload"
                                   sample_toolbar_state;
                                 mutation "commentEntityPayload"
                                   (sample_comment "abc.def" "yesterday"
                                      "state-1")])])])].

Definition serves (response : json)
  : log -> string -> json -> json -> Q -> post_outcome :=
  fun _ _ _ _ _ => Responded 200 (Ok response).

(** Test data: one response that offers both a further page of top-level
    comments (token ["C"]) and a "show more replies" button (token ["R"]). *)
Definition both_kinds_response : json :=
  JDict [("onResponseReceivedEndpoints",
          JList [JDict [("reloadContinuationItemsCommand",
                         JDict [("targetId", JStr "comments-section");
                                ("continuationItems",
                                 JList [JDict [("continuationItemRenderer",
                                                JDict [("continuationEndpoint",
                                                        sample_endpoint "C")])]])])];
                 JDict [("appendContinuationItemsAction",
                         JDict [("targetId", JStr "comment-replies-item-abc");
                                ("continuationItems",
                                 JList [JDict [("continuationItemRenderer",
                                                JDict [("button",
                                                        JDict [("buttonRenderer",
                                                                JDict [("command",
                                                                        sample_endpoint "R")])])])]])])]])].

(** A server that answers the seed token with that response and every
    other token with a page that has neither comments nor continuations. *)
Definition thread_server : log -> string -> json -> json -> Q -> post_outcome :=
  fun _ _ _ data _ =>
    match py_getitem data "continuation" with
    | Ok (JStr "seed") => Responded 200 (Ok both_kinds_response)
    | _ => Responded 200 (Ok (JDict [("responseContext", JDict [])]))
    end.

(** The continuation tokens a log shows as requested, in order. *)
Fixpoint issued (l : log) : list json :=
  match l with
  | [] => []
  | EvAjaxPost _ _ data :: l' =>
      match py_getitem data "continuation" with
      | Ok token => token :: issued l'
      | Err _ => issued l'
      end
  | _ :: l' => issued l'
  end.

(** The stack keeps every "more replies" token behind (nearer the popping
    end than) every other token. *)
Definition replies_at_back (stack : list tagged) : Prop :=
  exists front back,
    stack = front ++ back
    /\ Forall (fun t => is_replies t = false) front
    /\ Forall (fun t => is_replies t = true) back.

(** The stack after the first batch of [thread_server]. *)
Definition both_kinds_stack : list tagged :=
  [(MoreComments, sample_endpoint "C"); (MoreReplies, sample_endpoint "R")].

(* ===================================================================== *)
(** ** Facts about the nested-structure search *)
(* ===================================================================== *)

Lemma stack_yields_app search_key a b :
  stack_yields search_key (a ++ b)
  = stack_yields search_key b ++ stack_yields search_key a.
Proof.
  induction a as [|x a IH]; simpl.
  - rewrite app_nil_r. reflexivity.
  - rewrite IH, app_assoc. reflexivity.
Qed.

Lemma search_rec_list search_key l :
  search_rec search_key (JList l) = stack_yields search_key l.
Proof.
  simpl. induction l as [|x l IH]; simpl; [reflexivity|].
  rewrite IH. reflexivity.
Qed.

Lemma search_rec_dict search_key items :
  search_rec search_key (JDict items)
  = dict_yields search_key items
    ++ stack_yields search_key (dict_pushes search_key items).
Proof.
  simpl. f_equal.
  induction items as [|[k v] items IH]; simpl; [reflexivity|].
  rewrite IH. destruct (String.eqb k search_key); simpl.
  - rewrite app_nil_r. reflexivity.
  - reflexivity.
Qed.

Lemma stack_yields_single search_key x :
  stack_yields search_key [x] = search_rec search_key x.
Proof. reflexivity. Qed.

Lemma search_loop_yields search_key stack :
  search_loop search_key stack = stack_yields search_key stack.
Proof.
  funelim (search_loop search_key stack);
    try match goal with
        | e : py_pop ?st = Some _ |- _ =>
            rewrite (py_pop_some _ e), stack_yields_app,
              stack_yields_single
        end;
    try match goal with
        | IH : search_loop _ _ = stack_yields _ _ |- _ => rewrite IH
        end.
  1-4: reflexivity.
  - rewrite stack_yields_app, search_rec_list. reflexivity.
  - rewrite stack_yields_app, search_rec_dict, <- app_assoc. reflexivity.
  - rewrite (py_pop_none _ e). reflexivity.
Qed.

(** The explicit stack computes the structural recursion. *)
Lemma search_dict_rec partial search_key :
  search_dict partial search_key = search_rec search_key partial.
Proof.
  unfold search_dict. rewrite search_loop_yields. reflexivity.
Qed.

Lemma search_rec_outer search_key v :
  Permutation (search_rec search_key v) (outer_entries search_key v).
Proof.
  induction v as [| | | |l IH|items IH] using json_rect'; simpl; auto.
  - induction IH as [|x l Hx _ IHl]; [constructor|].
    eapply Permutation_trans; [apply Permutation_app_comm|].
    apply Permutation_app; assumption.
  - induction IH as [|[k x] items Hx _ IHl]; simpl; [constructor|].
    destruct (String.eqb k search_key); simpl.
    + apply perm_skip. rewrite app_nil_r. exact IHl.
    + rewrite app_assoc.
      eapply Permutation_trans; [apply Permutation_app_comm|].
      apply Permutation_app; assumption.
Qed.

Lemma outer_incl_all search_key v :
  incl (outer_entries search_key v) (all_entries search_key v).
Proof.
  induction v as [| | | |l IH|items IH] using json_rect'; simpl;
    try apply incl_refl.
  - induction IH as [|x l Hx _ IHl]; [apply incl_refl|].
    apply incl_app_app; assumption.
  - induction IH as [|[k x] items Hx _ IHl]; simpl; [apply incl_refl|].
    apply incl_app_app; [|assumption].
    destruct (String.eqb k search_key).
    + intros y [Hy|[]]. left. exact Hy.
    + exact Hx.
Qed.

(* ===================================================================== *)
(** ** The nested-structure search (C2) *)
(* ===================================================================== *)

(** C2, as stated, fails: the inner entry ["k": 1] is a mapping entry of
    the tree whose key is ["k"], yet the search yields only the outer
    entry's value and never looks inside it. *)
Lemma search_misses_nested_entry :
  In (JNum 1) (all_entries "k" nested_same_key)
  /\ search_dict nested_same_key "k" = [JDict [("k", JNum 1)]]
  /\ ~ Permutation (search_dict nested_same_key "k")
                   (all_entries "k" nested_same_key).
Proof.
  split; [|split].
  - simpl. right. left. reflexivity.
  - vm_compute. reflexivity.
  - intros HP. apply Permutation_length in HP. vm_compute in HP.
    discriminate.
Qed.

(** C2, amended: [search_dict] yields exactly (as a collection, with
    multiplicity) the values of the entries keyed [search_key] that are
    reached without passing through the value of another entry with that
    key, whatever the nesting of mappings and sequences; and it yields
    nothing when the key occurs nowhere in the tree. *)
Theorem search_dict_outer_entries (partial : json) (search_key : string) :
  Permutation (search_dict partial search_key)
              (outer_entries search_key partial)
  /\ (all_entries search_key partial = [] ->
      search_dict partial search_key = []).
Proof.
  rewrite search_dict_rec. split.
  - apply search_rec_outer.
  - intros Habsent.
    pose proof (outer_incl_all search_key partial) as Hincl.
    rewrite Habsent in Hincl.
    apply incl_l_nil in Hincl.
    pose proof (search_rec_outer search_key partial) as HP.
    rewrite Hincl in HP. apply Permutation_sym, Permutation_nil in HP.
    exact HP.
Qed.

Lemma search_dict_outer_entries_witness :
  all_entries "k" (JList [JDict [("a", JNum 3)]; JStr "k"]) = []
  /\ search_dict (JList [JDict [("a", JNum 3)]; JStr "k"]) "k" = [].
Proof.
  split; [reflexivity|].
  apply (proj2 (search_dict_outer_entries
                  (JList [JDict [("a", JNum 3)]; JStr "k"]) "k")).
  reflexivity.
Defined.

(* ===================================================================== *)
(** ** The request client (C3, C4) *)
(* ===================================================================== *)

Section RequestClient.

Variable session_post : log -> string -> json -> json -> Q -> post_outcome.
Variables (url : string) (key data ytcfg : json) (sleep timeout : Q).
Hypothesis Hkey : py_getitem ytcfg "INNERTUBE_API_KEY" = Ok key.

Let rounds (i : nat) : log := failed_rounds i url key data sleep.

(** One turn of the loop on a retried outcome. *)
Lemma ajax_attempts_step n st :
  retried (session_post st url key data timeout) = true ->
  ajax_attempts session_post (S n) url data ytcfg sleep timeout st
  = ajax_attempts session_post n url data ytcfg sleep timeout
      (st ++ rounds 1).
Proof.
  intros Hr. simpl. unfold bind, lift, post, emit. rewrite Hkey.
  destruct (session_post st url key data timeout) as [code body| |name];
    simpl in Hr; try discriminate.
  - destruct (code =? 200); [discriminate|].
    destruct (code =? 403); [discriminate|].
    destruct (code =? 413); [discriminate|]. simpl.
    rewrite <- app_assoc. reflexivity.
  - rewrite <- app_assoc. reflexivity.
Qed.

(** [i] retried attempts in a row use up [i] turns. *)
Lemma ajax_attempts_retry i : forall n st,
  (forall j, (j < i)%nat ->
     retried (session_post (st ++ rounds j) url key data timeout) = true) ->
  ajax_attempts session_post (i + n) url data ytcfg sleep timeout st
  = ajax_attempts session_post n url data ytcfg sleep timeout
      (st ++ rounds i).
Proof.
  induction i as [|i IH]; intros n st Hall.
  - simpl. rewrite app_nil_r. reflexivity.
  - change (S i + n)%nat with (S (i + n)).
    rewrite ajax_attempts_step.
    2:{ specialize (Hall 0%nat). simpl in Hall. rewrite app_nil_r in Hall.
        apply Hall. lia. }
    rewrite IH.
    + rewrite <- app_assoc. reflexivity.
    + intros j Hj. specialize (Hall (S j)).
      rewrite <- app_assoc. apply Hall. lia.
Qed.

End RequestClient.

(** C3: when the [i]-th attempt (after [i] retried ones) is answered with
    403 or 413, [ajax_request] returns the empty document and the log ends
    with that very post: no further attempt is made and no sleep follows
    it.  With [i = 0] (403 on the first attempt) no sleep happens at all. *)
Theorem ajax_request_forbidden_returns_empty :
  forall session_post endpoint ytcfg retries sleep timeout url data key st
         (i : nat) code body,
    endpoint_url endpoint = Ok url ->
    request_data endpoint ytcfg = Ok data ->
    py_getitem ytcfg "INNERTUBE_API_KEY" = Ok key ->
    (i < Z.to_nat retries)%nat ->
    (forall j, (j < i)%nat ->
       retried (session_post (st ++ failed_rounds j url key data sleep)
                             url key data timeout) = true) ->
    session_post (st ++ failed_rounds i url key data sleep)
                 url key data timeout = Responded code body ->
    code = 403 \/ code = 413 ->
    ajax_request session_post endpoint ytcfg retries sleep timeout st
    = (Ok (JDict []),
       st ++ failed_rounds i url key data sleep ++ [EvAjaxPost url key data]).
Proof.
  intros session_post endpoint ytcfg retries sleep timeout url data key st
         i code body Hurl Hdata Hkey Hi Hretried Hresp Hcode.
  unfold ajax_request, bind, lift. rewrite Hurl, Hdata.
  replace (Z.to_nat retries) with (i + S (Z.to_nat retries - S i))%nat by lia.
  rewrite (@ajax_attempts_retry session_post url key data ytcfg sleep timeout Hkey i);
    [|exact Hretried].
  simpl. unfold bind, lift, post, ret. rewrite Hkey, Hresp.
  rewrite <- app_assoc.
  destruct Hcode as [-> | ->]; reflexivity.
Qed.

Lemma ajax_request_forbidden_returns_empty_witness :
  ajax_request forbidden_after_one (sample_endpoint "t") sample_ytcfg 5
               (20 # 1) (60 # 1) []
  = (Ok (JDict []),
     [EvAjaxPost sample_url (JStr "key") (sample_data "t");
      EvSleep (20 # 1);
      EvAjaxPost sample_url (JStr "key") (sample_data "t")]).
Proof.
  apply (@ajax_request_forbidden_returns_empty
           forbidden_after_one (sample_endpoint "t") sample_ytcfg 5
           (20 # 1) (60 # 1) sample_url (sample_data "t") (JStr "key") []
           1%nat 403 (Err JSONDecodeError)).
  - reflexivity.
  - reflexivity.
  - reflexivity.
  - vm_compute. lia.
  - intros j Hj. assert (j = 0%nat) as -> by lia. reflexivity.
  - reflexivity.
  - left. reflexivity.
Defined.

(** C4, as stated, fails: an exception other than a timeout is not
    retried.  With five attempts allowed, a refused connection on the
    first attempt leaves [ajax_request] at once: one post, no sleep, and
    the exception as the outcome instead of "no result". *)
Lemma connection_error_propagates :
  retried (refusing [] sample_url (JStr "key") (sample_data "t") (60 # 1))
  = false
  /\ ajax_request refusing (sample_endpoint "t") sample_ytcfg 5
                  (20 # 1) (60 # 1) []
     = (Err (RequestException "ConnectionError"),
        [EvAjaxPost sample_url (JStr "key") (sample_data "t")])
  /\ fst (ajax_request refusing (sample_endpoint "t") sample_ytcfg 5
                       (20 # 1) (60 # 1) []) <> Ok JNull.
Proof.
  split; [reflexivity|]. split; [vm_compute; reflexivity|].
  vm_compute. discriminate.
Qed.

(** C4, amended: a status other than 200, 403 and 413 is retried exactly
    like a timeout, and when every one of the [retries] attempts ends that
    way [ajax_request] returns no result, having posted and slept
    [retries] times; an exception other than a timeout is not retried: it
    leaves the client on the attempt where it is raised. *)
Theorem ajax_request_retry_policy :
  forall session_post endpoint ytcfg retries sleep timeout url data key st
         (i : nat),
    endpoint_url endpoint = Ok url ->
    request_data endpoint ytcfg = Ok data ->
    py_getitem ytcfg "INNERTUBE_API_KEY" = Ok key ->
    (forall j, (j < i)%nat ->
       retried (session_post (st ++ failed_rounds j url key data sleep)
                             url key data timeout) = true) ->
    (i = Z.to_nat retries ->
       ajax_request session_post endpoint ytcfg retries sleep timeout st
       = (Ok JNull, st ++ failed_rounds i url key data sleep))
    /\ (forall name,
          (i < Z.to_nat retries)%nat ->
          session_post (st ++ failed_rounds i url key data sleep)
                       url key data timeout = Failed name ->
          ajax_request session_post endpoint ytcfg retries sleep timeout st
          = (Err (RequestException name),
             st ++ failed_rounds i url key data sleep
                ++ [EvAjaxPost url key data])).
Proof.
  intros session_post endpoint ytcfg retries sleep timeout url data key st
         i Hurl Hdata Hkey Hretried.
  split.
  - intros Hi. unfold ajax_request, bind, lift. rewrite Hurl, Hdata.
    replace (Z.to_nat retries) with (i + 0)%nat by lia.
    rewrite (@ajax_attempts_retry session_post url key data ytcfg sleep timeout Hkey i);
      [reflexivity|exact Hretried].
  - intros name Hi Hfail. unfold ajax_request, bind, lift.
    rewrite Hurl, Hdata.
    replace (Z.to_nat retries) with (i + S (Z.to_nat retries - S i))%nat
      by lia.
    rewrite (@ajax_attempts_retry session_post url key data ytcfg sleep timeout Hkey i);
      [|exact Hretried].
    simpl. unfold bind, lift, post, raise. rewrite Hkey, Hfail.
    rewrite <- app_assoc. reflexivity.
Qed.

Lemma ajax_request_retry_policy_witness :
  ajax_request always_500 (sample_endpoint "t") sample_ytcfg 2
               (20 # 1) (60 # 1) []
  = (Ok JNull,
     [EvAjaxPost sample_url (JStr "key") (sample_data "t"); EvSleep (20 # 1);
      EvAjaxPost sample_url (JStr "key") (sample_data "t"); EvSleep (20 # 1)]).
Proof.
  refine (proj1 (@ajax_request_retry_policy
           always_500 (sample_endpoint "t") sample_ytcfg 2
           (20 # 1) (60 # 1) sample_url (sample_data "t") (JStr "key") []
           2%nat _ _ _ _) _).
  - reflexivity.
  - reflexivity.
  - reflexivity.
  - intros j _. reflexivity.
  - reflexivity.
Defined.

(* ===================================================================== *)
(** ** Sort resolution (C6, C9) *)
(* ===================================================================== *)

(** C6: when the requested index is at least the length of the discovered
    menu (the page's, or the one fetched by the community-post fallback;
    an empty one included), sort resolution raises [SortingError]; no menu
    entry is selected. *)
Theorem sort_index_out_of_range_raises :
  forall session_post data ytcfg sort_by st menu st' n,
    discover_sort_menu session_post data ytcfg st = (Ok menu, st') ->
    py_len menu = Ok n ->
    n <= sort_by ->
    resolve_sort session_post data ytcfg sort_by st
    = (Err (SortingError sort_by), st').
Proof.
  intros session_post data ytcfg sort_by st menu st' n Hmenu Hlen Hge.
  unfold resolve_sort, bind. rewrite Hmenu. unfold lift, select_sort.
  destruct (negb (py_truthy menu)); [reflexivity|].
  rewrite Hlen. simpl.
  destruct (Z.leb_spec n sort_by); [reflexivity|lia].
Qed.

Lemma sort_index_out_of_range_raises_witness :
  resolve_sort always_500 sample_page_data sample_ytcfg 2 []
  = (Err (SortingError 2), []).
Proof.
  apply (@sort_index_out_of_range_raises
           always_500 sample_page_data sample_ytcfg 2 []
           (JList sample_menu) [] 2).
  - vm_compute. reflexivity.
  - reflexivity.
  - lia.
Defined.

Lemma list_index_negative {A} (l : list A) (i : Z) :
  i < 0 -> Z.abs i < Z.of_nat (List.length l) ->
  list_index l i = nth_error l (List.length l - Z.to_nat (- i))
  /\ exists x, nth_error l (List.length l - Z.to_nat (- i)) = Some x.
Proof.
  intros Hneg Habs. unfold list_index.
  destruct (Z.leb_spec 0 i); [lia|]. simpl.
  destruct (Z.leb_spec (- Z.of_nat (List.length l)) i); [|lia].
  destruct (Z.ltb_spec i 0); [|lia]. simpl.
  replace (Z.to_nat (Z.of_nat (List.length l) + i))
    with (List.length l - Z.to_nat (- i))%nat by lia.
  split; [reflexivity|].
  destruct (nth_error l (List.length l - Z.to_nat (- i))) as [x|] eqn:E.
  - exists x. reflexivity.
  - apply nth_error_None in E. lia.
Qed.

(** C9: a negative index passes the bounds check.  On a menu (a list)
    longer than the index's absolute value, sort resolution does not raise
    [SortingError]: it takes the entry counted from the end ([-1] is the
    last one) and seeds the work stack with that entry's endpoint. *)
Theorem negative_sort_index_counts_from_end :
  forall session_post data ytcfg sort_by st items st',
    discover_sort_menu session_post data ytcfg st = (Ok (JList items), st') ->
    sort_by < 0 ->
    Z.abs sort_by < Z.of_nat (List.length items) ->
    exists item,
      nth_error items (List.length items - Z.to_nat (- sort_by)) = Some item
      /\ resolve_sort session_post data ytcfg sort_by st
         = ((endpoint <- py_getitem item "serviceEndpoint" ;;
             Ok [endpoint])%res, st')
      /\ forall z, fst (resolve_sort session_post data ytcfg sort_by st)
                   <> Err (SortingError z).
Proof.
  intros session_post data ytcfg sort_by st items st' Hmenu Hneg Habs.
  destruct (list_index_negative items Hneg Habs) as [Hidx [item Hitem]].
  exists item. split; [exact Hitem|].
  assert (Hres : resolve_sort session_post data ytcfg sort_by st
                 = ((endpoint <- py_getitem item "serviceEndpoint" ;;
                     Ok [endpoint])%res, st')).
  { unfold resolve_sort, bind. rewrite Hmenu. unfold lift, select_sort.
    destruct items as [|x items]; [simpl in Habs; lia|].
    cbn [py_truthy negb py_len rbind].
    destruct (Z.leb_spec (Z.of_nat (List.length (x :: items))) sort_by);
      [lia|].
    unfold py_index. rewrite Hidx, Hitem. reflexivity. }
  split; [exact Hres|].
  intros z. rewrite Hres. simpl.
  unfold py_getitem. destruct item; simpl; try discriminate.
  destruct (dict_get items0 "serviceEndpoint"); simpl; discriminate.
Qed.

Lemma negative_sort_index_counts_from_end_witness :
  exists item,
    nth_error sample_menu 1 = Some item
    /\ resolve_sort always_500 sample_page_data sample_ytcfg (-1) []
       = ((endpoint <- py_getitem item "serviceEndpoint" ;;
           Ok [endpoint])%res, [])
    /\ forall z, fst (resolve_sort always_500 sample_page_data sample_ytcfg
                                   (-1) [])
                 <> Err (SortingError z).
Proof.
  apply (@negative_sort_index_counts_from_end
           always_500 sample_page_data sample_ytcfg (-1) [] sample_menu []).
  - vm_compute. reflexivity.
  - lia.
  - simpl. lia.
Defined.

(* ===================================================================== *)
(** ** Bootstrap (C7) *)
(* ===================================================================== *)

Lemma fetch_page_log session_get session_post_consent re_findall url st pg st1 :
  fetch_page session_get session_post_consent re_findall url st = (Ok pg, st1) ->
  count_posts st1 = count_posts st.
Proof.
  unfold fetch_page, bind, ret. intros H.
  destruct (session_get st url) as [response|e]; [|discriminate].
  assert (Hget : count_posts (st ++ [EvGet url]) = count_posts st).
  { unfold count_posts. rewrite filter_app, length_app. simpl. lia. }
  destruct (is_substring "consent" (page_url response)).
  - inversion H; subst. unfold count_posts in *.
    rewrite filter_app, length_app. simpl. rewrite Hget. lia.
  - inversion H; subst. exact Hget.
Qed.

(** C7, as stated, fails: the page below has no initial-state marker, yet
    the failure is [CommentsDisabledError], not the configuration
    extraction failure [CommentDownloadError]. *)
Lemma missing_initial_data_is_comments_disabled :
  toy_re_search YT_INITIAL_DATA_RE "<script>ytcfg.set({cfg});</script>" = None
  /\ get_comments_from_url page_without_data no_consent always_500
       toy_re_search toy_re_findall toy_json_loads toy_parse
       "https://www.youtube.com/watch?v=x" SORT_BY_RECENT None (1 # 10) 8 []
     = (Err CommentsDisabledError, [EvGet "https://www.youtube.com/watch?v=x"]).
Proof.
  split; vm_compute; reflexivity.
Qed.

(** C7, amended: for every fetched page whose body lacks the initial-state
    marker, [get_comments_from_url] fails before any comment request is
    posted: with whatever configuration extraction raises
    ([CommentDownloadError] when the configuration blob is absent or
    empty), and with [CommentsDisabledError] once the configuration has
    been extracted. *)
Theorem missing_initial_data_fails_before_requests :
  forall session_get session_post_consent session_post
         re_search re_findall json_loads dateparser_parse
         youtube_url sort_by language sleep fuel st pg st1,
    json_loads "{}" = Ok (JDict []) ->
    fetch_page session_get session_post_consent re_findall youtube_url st
    = (Ok pg, st1) ->
    re_search YT_INITIAL_DATA_RE (page_text pg) = None ->
    get_comments_from_url session_get session_post_consent session_post
      re_search re_findall json_loads dateparser_parse
      youtube_url sort_by language sleep fuel st
    = (match extract_config re_search json_loads (page_text pg) language with
       | Err e => Err e
       | Ok _ => Err CommentsDisabledError
       end, st1)
    /\ count_posts st1 = count_posts st.
Proof.
  intros session_get session_post_consent session_post
         re_search re_findall json_loads dateparser_parse
         youtube_url sort_by language sleep fuel st pg st1
         Hloads Hfetch Hmarker.
  split; [|eapply fetch_page_log; exact Hfetch].
  unfold get_comments_from_url.
  unfold bind at 1. rewrite Hfetch.
  unfold bind at 1. unfold lift at 1.
  destruct (extract_config re_search json_loads (page_text pg) language)
    as [ytcfg|e]; [|reflexivity].
  unfold bind at 1. unfold lift at 1.
  unfold extract_initial_data, regex_search. rewrite Hmarker, Hloads.
  reflexivity.
Qed.

Lemma missing_initial_data_fails_before_requests_witness :
  get_comments_from_url page_without_data no_consent always_500
    toy_re_search toy_re_findall toy_json_loads toy_parse
    "https://www.youtube.com/watch?v=x" 1 (Some "en") (1 # 10) 8 []
  = (Err CommentsDisabledError, [EvGet "https://www.youtube.com/watch?v=x"])
  /\ count_posts [EvGet "https://www.youtube.com/watch?v=x"] = count_posts [].
Proof.
  apply (@missing_initial_data_fails_before_requests
           page_without_data no_consent always_500
           toy_re_search toy_re_findall toy_json_loads toy_parse
           "https://www.youtube.com/watch?v=x" 1 (Some "en") (1 # 10) 8%nat []
           {| page_url := "https://www.youtube.com/watch?v=x";
              page_text := "<script>ytcfg.set({cfg});</script>" |}
           [EvGet "https://www.youtube.com/watch?v=x"]).
  - reflexivity.
  - vm_compute. reflexivity.
  - vm_compute. reflexivity.
Defined.

(* ===================================================================== *)
(** ** Facts about the tables of a batch *)
(* ===================================================================== *)

Lemma key_eqb_sym a b : key_eqb a b = key_eqb b a.
Proof.
  destruct a, b; simpl; try reflexivity.
  - destruct b, b0; reflexivity.
  - apply Z.eqb_sym.
  - apply String.eqb_sym.
Qed.

Lemma key_eqb_trans a b c :
  key_eqb a b = true -> key_eqb b c = true -> key_eqb a c = true.
Proof.
  destruct a, b, c; simpl; try discriminate; try reflexivity;
    repeat match goal with x : bool |- _ => destruct x end;
    simpl; try discriminate; try reflexivity;
    rewrite ?Z.eqb_eq, ?String.eqb_eq; try lia; try congruence.
Qed.

Lemma key_eqb_refl a : py_hashable a = true -> key_eqb a a = true.
Proof.
  destruct a; simpl; try discriminate; intros _; try reflexivity.
  - destruct b; reflexivity.
  - apply Z.eqb_refl.
  - apply String.eqb_refl.
Qed.

Lemma key_eqb_congr a b c :
  key_eqb a b = true -> key_eqb a c = key_eqb b c.
Proof.
  intros Hab. destruct (key_eqb b c) eqn:Hbc.
  - eapply key_eqb_trans; eassumption.
  - destruct (key_eqb a c) eqn:Hac; [|reflexivity].
    rewrite key_eqb_sym in Hab.
    rewrite (key_eqb_trans _ _ _ Hab Hac) in Hbc. discriminate.
Qed.

(** Lookup after a store: the stored value under every equal key, the old
    value elsewhere. *)
Lemma table_get_set {V} (t : table V) key value key' :
  table_get (table_set t key value) key'
  = if key_eqb key key' then Some value else table_get t key'.
Proof.
  induction t as [|[k v] t IH]; simpl.
  - reflexivity.
  - destruct (key_eqb k key) eqn:Hk; simpl.
    + rewrite (key_eqb_congr _ _ key' Hk).
      destruct (key_eqb key key'); reflexivity.
    + rewrite IH. destruct (key_eqb k key') eqn:Hk'; [|reflexivity].
      destruct (key_eqb key key') eqn:Hkk; [|reflexivity].
      rewrite key_eqb_sym in Hkk.
      rewrite (key_eqb_trans _ _ _ Hk' Hkk) in Hk. discriminate.
Qed.

Lemma key_eqb_congr_r a b c :
  key_eqb a b = true -> key_eqb c a = key_eqb c b.
Proof.
  intros H. rewrite (key_eqb_sym c a), (key_eqb_sym c b).
  apply key_eqb_congr. exact H.
Qed.

(** Lookups do not tell equal keys apart. *)
Lemma table_get_congr {V} (t : table V) k k' :
  key_eqb k k' = true -> table_get t k = table_get t k'.
Proof.
  intros H. induction t as [|[k0 v0] t IH]; simpl; [reflexivity|].
  rewrite (key_eqb_congr_r _ _ k0 H), IH. reflexivity.
Qed.

Lemma last_entry_congr {V} (entries : list (json * V)) k k' :
  key_eqb k k' = true -> last_entry entries k = last_entry entries k'.
Proof.
  intros H. induction entries as [|[k0 v0] entries IH]; simpl;
    [reflexivity|].
  rewrite (key_eqb_congr_r _ _ k0 H), IH. reflexivity.
Qed.

Lemma last_entry_in {V} (entries : list (json * V)) key v :
  last_entry entries key = Some v ->
  exists k, In (k, v) entries /\ key_eqb k key = true.
Proof.
  induction entries as [|[k0 v0] entries IH]; simpl; [discriminate|].
  destruct (last_entry entries key) as [w|].
  - intros H. inversion H; subst.
    destruct (IH eq_refl) as [k [Hin Hk]]. exists k. auto.
  - destruct (key_eqb k0 key) eqn:Hk0; [|discriminate].
    intros H. inversion H; subst. exists k0. auto.
Qed.

Lemma last_entry_found {V} (entries : list (json * V)) k v :
  In (k, v) entries -> py_hashable k = true -> last_entry entries k <> None.
Proof.
  intros Hin Hhash.
  induction entries as [|[k0 v0] entries IH]; simpl; [destruct Hin|].
  destruct Hin as [Heq|Hin].
  - inversion Heq; subst. rewrite (key_eqb_refl _ Hhash).
    destruct (last_entry entries k); discriminate.
  - specialize (IH Hin).
    destruct (last_entry entries k); [discriminate|congruence].
Qed.

Lemma table_get_key {V} (t : table V) key v :
  table_get t key = Some v ->
  exists k, In (k, v) t /\ key_eqb k key = true.
Proof.
  induction t as [|[k0 v0] t IH]; simpl; [discriminate|].
  destruct (key_eqb k0 key) eqn:Hk0.
  - intros H. inversion H; subst. exists k0. auto.
  - intros H. destruct (IH H) as [k [Hin Hk]]. exists k. auto.
Qed.

(** The keys of a dictionary are hashable and pairwise different. *)
Fixpoint table_wf {V} (t : table V) : Prop :=
  match t with
  | [] => True
  | (k, _) :: t' =>
      py_hashable k = true /\ table_get t' k = None /\ table_wf t'
  end.

Lemma table_set_wf {V} (t : table V) key value :
  py_hashable key = true -> table_wf t -> table_wf (table_set t key value).
Proof.
  intros Hhash. induction t as [|[k v] t IH]; simpl.
  - auto.
  - intros [Hk [Hnone Hwf]]. destruct (key_eqb k key) eqn:Hkk; simpl.
    + auto.
    + split; [exact Hk|]. split; [|auto].
      rewrite table_get_set, key_eqb_sym, Hkk. exact Hnone.
Qed.

Lemma table_wf_in {V} (t : table V) k v :
  table_wf t -> In (k, v) t ->
  py_hashable k = true /\ table_get t k = Some v.
Proof.
  induction t as [|[k0 v0] t IH]; simpl; [intros _ []|].
  intros [Hk0 [Hnone Hwf]] [Heq|Hin].
  - inversion Heq; subst. rewrite (key_eqb_refl _ Hk0). auto.
  - destruct (IH Hwf Hin) as [Hk Hget]. split; [exact Hk|].
    destruct (key_eqb k0 k) eqn:Hkk; [|exact Hget].
    rewrite (table_get_congr t _ _ Hkk), Hget in Hnone. discriminate.
Qed.

(** Storing entries one after the other. *)
Definition store_all {V} (entries : list (json * V)) (acc : table V)
  : result (table V) :=
  rfold (fun t kv => table_store t (fst kv) (snd kv)) entries acc.

Lemma store_all_app {V} (xs ys : list (json * V)) : forall acc,
  store_all (xs ++ ys) acc
  = rbind (store_all xs acc) (store_all ys).
Proof.
  induction xs as [|x xs IH]; intros acc; [reflexivity|].
  unfold store_all in *. simpl.
  destruct (table_store acc (fst x) (snd x)); simpl; [apply IH|reflexivity].
Qed.

Lemma store_all_get {V} (entries : list (json * V)) : forall acc tb,
  store_all entries acc = Ok tb ->
  forall key,
    table_get tb key
    = match last_entry entries key with
      | Some v => Some v
      | None => table_get acc key
      end.
Proof.
  induction entries as [|[k v] entries IH]; intros acc tb Hrun key.
  - inversion Hrun; subst. reflexivity.
  - unfold store_all in Hrun. simpl in Hrun. unfold table_store in Hrun.
    destruct (py_hashable k); [|discriminate]. cbn [rbind] in Hrun.
    rewrite (IH _ _ Hrun key). simpl.
    destruct (last_entry entries key); [reflexivity|].
    rewrite table_get_set. destruct (key_eqb k key); reflexivity.
Qed.

Lemma store_all_wf {V} (entries : list (json * V)) : forall acc tb,
  store_all entries acc = Ok tb -> table_wf acc ->
  table_wf tb /\ (forall k v, In (k, v) entries -> py_hashable k = true).
Proof.
  induction entries as [|[k v] entries IH]; intros acc tb Hrun Hwf.
  - inversion Hrun; subst. split; [exact Hwf|]. intros k v [].
  - unfold store_all in Hrun. simpl in Hrun. unfold table_store in Hrun.
    destruct (py_hashable k) eqn:Hhash; [|discriminate].
    cbn [rbind] in Hrun.
    destruct (IH _ _ Hrun (table_set_wf _ _ _ Hhash Hwf)) as [Htb Hkeys].
    split; [exact Htb|].
    intros k' v' [Heq|Hin]; [inversion Heq; subst; exact Hhash|].
    eapply Hkeys; eassumption.
Qed.

(** The three loops that fill a table store the entries of their list. *)
Lemma toolbar_fold_store payloads : forall acc toolbar_states,
  rfold (fun states payload =>
           (key <- py_getitem payload "key" ;;
            table_store states key payload)%res) payloads acc
  = Ok toolbar_states ->
  store_all (flat_map (fun payload =>
                         match py_getitem payload "key" with
                         | Ok key => [(key, payload)]
                         | Err _ => []
                         end) payloads) acc
  = Ok toolbar_states.
Proof.
  induction payloads as [|payload payloads IH]; intros acc tb Hrun.
  - exact Hrun.
  - simpl in Hrun. cbn [flat_map].
    destruct (py_getitem payload "key") as [key|]; [|discriminate].
    cbn [rbind] in Hrun. rewrite store_all_app.
    unfold store_all at 1. simpl.
    destruct (table_store acc key payload) as [acc1|]; [|discriminate].
    cbn [rbind] in *. apply IH. exact Hrun.
Qed.

Lemma chips_fold_store payloads : forall acc surface,
  rfold (fun payments payload =>
           (chip <- py_in "pdgCommentChip" payload ;;
            if chip then
              key <- py_getitem payload "key" ;;
              table_store payments key
                (py_next (search_dict payload "simpleText") (JStr ""))
            else Ok payments)%res) payloads acc
  = Ok surface ->
  store_all (flat_map (fun payload =>
                         match py_in "pdgCommentChip" payload,
                               py_getitem payload "key" with
                         | Ok true, Ok key =>
                             [(key, py_next (search_dict payload "simpleText")
                                            (JStr ""))]
                         | _, _ => []
                         end) payloads) acc
  = Ok surface.
Proof.
  induction payloads as [|payload payloads IH]; intros acc tb Hrun.
  - exact Hrun.
  - simpl in Hrun. cbn [flat_map].
    destruct (py_in "pdgCommentChip" payload) as [[|]|];
      cbn [rbind] in Hrun; [| |discriminate].
    + destruct (py_getitem payload "key") as [key|]; [|discriminate].
      cbn [rbind] in Hrun. rewrite store_all_app.
      unfold store_all at 1. simpl.
      destruct (table_store acc key _) as [acc1|]; [|discriminate].
      cbn [rbind] in *. apply IH. exact Hrun.
    + simpl. apply IH. exact Hrun.
Qed.

Lemma surface_keys_fold_store outers : forall view_models acc surface_keys,
  rmap (fun vm => py_getitem vm "commentViewModel") outers
  = Ok view_models ->
  rfold (fun keys vm =>
           (has <- py_in "commentSurfaceKey" vm ;;
            if has then
              key <- py_getitem vm "commentSurfaceKey" ;;
              id <- py_getitem vm "commentId" ;;
              table_store keys key id
            else Ok keys)%res) view_models acc
  = Ok surface_keys ->
  store_all (flat_map (fun outer =>
                         match py_getitem outer "commentViewModel" with
                         | Ok vm =>
                             match py_in "commentSurfaceKey" vm,
                                   py_getitem vm "commentSurfaceKey",
                                   py_getitem vm "commentId" with
                             | Ok true, Ok key, Ok id => [(key, id)]
                             | _, _, _ => []
                             end
                         | Err _ => []
                         end) outers) acc
  = Ok surface_keys.
Proof.
  induction outers as [|outer outers IH]; intros vms acc keys Hvms Hrun.
  - inversion Hvms; subst. exact Hrun.
  - simpl in Hvms. cbn [flat_map].
    destruct (py_getitem outer "commentViewModel") as [vm|]; [|discriminate].
    cbn [rbind] in Hvms.
    destruct (rmap _ outers) as [vms'|] eqn:Hrest; [|discriminate].
    cbn [rbind] in Hvms. inversion Hvms; subst. simpl in Hrun.
    destruct (py_in "commentSurfaceKey" vm) as [[|]|];
      cbn [rbind] in Hrun; [| |discriminate].
    + destruct (py_getitem vm "commentSurfaceKey") as [key|];
        [|discriminate]. cbn [rbind] in Hrun.
      destruct (py_getitem vm "commentId") as [id|]; [|discriminate].
      cbn [rbind] in Hrun. rewrite store_all_app.
      unfold store_all at 1. simpl.
      destruct (table_store acc key id) as [acc1|]; [|discriminate].
      cbn [rbind] in *. eapply IH; [reflexivity|exact Hrun].
    + simpl. eapply IH; [reflexivity|exact Hrun].
Qed.

(** The last loop of the payments: every item of the chip table whose
    key the view models name is stored under the named comment id. *)
Lemma join_fold_store (surface_keys : table json) items : forall acc payments,
  rfold (fun acc kp =>
           (known <- table_mem surface_keys (fst kp) ;;
            if known then
              id <- table_lookup surface_keys (fst kp) ;;
              table_store acc id (snd kp)
            else Ok acc)%res) items acc
  = Ok payments ->
  store_all (flat_map (fun kp : json * json =>
                         match table_get surface_keys (fst kp) with
                         | Some id => [(id, snd kp)]
                         | None => []
                         end) items) acc
  = Ok payments.
Proof.
  induction items as [|kp items IH]; intros acc payments Hrun.
  - exact Hrun.
  - simpl in Hrun. cbn [flat_map]. unfold table_mem, table_lookup in Hrun.
    destruct (py_hashable (fst kp)); cbn [rbind] in Hrun; [|discriminate].
    destruct (table_get surface_keys (fst kp)) as [id|];
      cbn [rbind] in Hrun.
    + rewrite store_all_app. unfold store_all at 1. simpl.
      destruct (table_store acc id (snd kp)) as [acc1|]; [|discriminate].
      cbn [rbind] in *. apply IH. exact Hrun.
    + simpl. apply IH. exact Hrun.
Qed.

(** The toolbar table of a batch holds the toolbar states of the batch. *)
Lemma build_toolbar_states_built response toolbar_states :
  build_toolbar_states response = Ok toolbar_states ->
  toolbar_built response toolbar_states.
Proof.
  intros Hbuild key. unfold build_toolbar_states in Hbuild.
  apply toolbar_fold_store in Hbuild.
  rewrite (store_all_get _ _ Hbuild key). unfold toolbar_entries.
  destruct (last_entry _ key); reflexivity.
Qed.

(** The payment table of a batch joins its chips with its view models. *)
Lemma build_payments_facts response payments :
  build_payments response = Ok payments ->
  payments_built response payments /\ table_wf payments.
Proof.
  intros Hbuild. unfold build_payments in Hbuild.
  destruct (surface_payments response) as [surface|] eqn:Hsurface;
    [|discriminate]. cbn [rbind] in Hbuild.
  unfold surface_payments in Hsurface. apply chips_fold_store in Hsurface.
  fold (chip_entries response) in Hsurface.
  pose proof (store_all_get _ _ Hsurface) as Hchips. simpl in Hchips.
  destruct (store_all_wf _ _ Hsurface I) as [Hwf _].
  assert (Hchip : forall k, table_get surface k
                            = last_entry (chip_entries response) k).
  { intros k. rewrite Hchips. destruct (last_entry _ k); reflexivity. }
  clear Hchips.
  destruct surface as [|entry surface].
  { inversion Hbuild; subst. split; [split|exact I].
    - intros id text H. discriminate H.
    - intros key text id Hc _. rewrite <- Hchip in Hc. discriminate Hc. }
  remember (entry :: surface) as items eqn:Hitems. clear Hitems.
  destruct (rmap _ (search_dict response "commentViewModel"))
    as [view_models|] eqn:Hvms; [|discriminate]. cbn [rbind] in Hbuild.
  match type of Hbuild with
  | context [rfold ?f view_models []] =>
      destruct (rfold f view_models []) as [surface_keys|] eqn:Hkeys;
        [|discriminate]
  end.
  cbn [rbind] in Hbuild.
  pose proof (@surface_keys_fold_store _ _ _ _ Hvms Hkeys) as Hnames.
  fold (surface_key_entries response) in Hnames.
  assert (Hname : forall k, table_get surface_keys k
                            = last_entry (surface_key_entries response) k).
  { intros k. rewrite (store_all_get _ _ Hnames k).
    destruct (last_entry _ k); reflexivity. }
  apply join_fold_store in Hbuild.
  pose proof (store_all_get _ _ Hbuild) as Hpay.
  destruct (store_all_wf _ _ Hbuild I) as [Hfinal Hhash].
  split; [split|exact Hfinal].
  - intros id text Hget. rewrite Hpay in Hget.
    destruct (last_entry _ id) as [w|] eqn:Hlast; [|discriminate].
    inversion Hget; subst w.
    destruct (last_entry_in _ _ Hlast) as [id' [Hin Hid]].
    apply in_flat_map in Hin. destruct Hin as [[k v] [Hitem Hin]].
    cbn [fst snd] in Hin.
    destruct (table_get surface_keys k) as [id0|] eqn:Hk; [|destruct Hin].
    destruct Hin as [Heq|[]]. inversion Heq; subst.
    destruct (table_wf_in _ _ _ Hwf Hitem) as [_ Hv].
    exists k, id'. rewrite <- Hchip, <- Hname. auto.
  - intros key text id Hc Hn. rewrite <- Hchip in Hc.
    destruct (table_get_key _ _ Hc) as [k [Hitem Hk]].
    rewrite <- Hname, <- (table_get_congr surface_keys _ _ Hk) in Hn.
    assert (Hin : In (id, text)
                     (flat_map (fun kp : json * json =>
                                  match table_get surface_keys (fst kp) with
                                  | Some id => [(id, snd kp)]
                                  | None => []
                                  end) items)).
    { apply in_flat_map. exists (k, text). split; [exact Hitem|].
      cbn [fst snd]. rewrite Hn. left. reflexivity. }
    rewrite Hpay.
    pose proof (last_entry_found _ _ _ Hin (Hhash _ _ Hin)) as Hfound.
    destruct (last_entry _ id); [discriminate|congruence].
Qed.

Lemma build_payments_built response payments :
  build_payments response = Ok payments ->
  payments_built response payments.
Proof.
  intros Hbuild. exact (proj1 (build_payments_facts _ Hbuild)).
Qed.

(* ===================================================================== *)
(** ** Emission of a batch (C5, C8, C10) *)
(* ===================================================================== *)

Section Emission.

Variable dateparser_parse : string -> result parsed_date.
Variables payments toolbar_states : table json.

Let record_of := make_record dateparser_parse payments toolbar_states.
Let emit_all := emit_comments dateparser_parse payments toolbar_states.

(** The loop yields the records of a prefix of its list, one after the
    other, and stops at the first payload whose record cannot be built. *)
Lemma emit_comments_trace comments : forall st,
  exists records,
    snd (emit_all comments st) = st ++ map EvYield records
    /\ rmap record_of (firstn (List.length records) comments) = Ok records
    /\ (fst (emit_all comments st) = Ok tt ->
        List.length records = List.length comments).
Proof.
  induction comments as [|c comments IH]; intros st.
  - exists []. simpl. rewrite app_nil_r. auto.
  - unfold emit_all. simpl. unfold bind, lift, emit.
    fold record_of. destruct (record_of c) as [r|e] eqn:Hr.
    + destruct (IH (st ++ [EvYield r])) as [records [Hlog [Hmap Hlen]]].
      exists (r :: records). unfold emit_all in *. split; [|split].
      * rewrite Hlog, <- app_assoc. reflexivity.
      * simpl. rewrite Hr. simpl. rewrite Hmap. reflexivity.
      * intros Hok. simpl. rewrite Hlen; auto.
    + exists []. simpl. rewrite app_nil_r. split; [reflexivity|].
      split; [reflexivity|]. discriminate.
Qed.

(** If the records of [before] can be built and the one of [comment]
    cannot, the loop yields the former and raises at [comment]. *)
Lemma emit_comments_stop before comment after records e : forall st,
  rmap record_of before = Ok records ->
  record_of comment = Err e ->
  emit_all (before ++ comment :: after) st
  = (Err e, st ++ map EvYield records).
Proof.
  revert records. induction before as [|c before IH];
    intros records st Hbefore Hcomment.
  - inversion Hbefore; subst. unfold emit_all. simpl.
    unfold bind, lift. fold record_of. rewrite Hcomment.
    rewrite app_nil_r. reflexivity.
  - simpl in Hbefore. destruct (record_of c) as [r|e'] eqn:Hr;
      [|discriminate]. simpl in Hbefore.
    destruct (rmap record_of before) as [rs|e'] eqn:Hrs; [|discriminate].
    inversion Hbefore; subst. unfold emit_all. simpl.
    unfold bind, lift, emit. fold record_of. rewrite Hr.
    fold emit_all. rewrite (IH rs); auto.
    rewrite <- app_assoc. reflexivity.
Qed.

(** The loop either yields the record of every payload, or yields the
    records of the payloads before the first one whose record cannot be
    built and raises what building that one raises. *)
Lemma emit_comments_cases comments : forall st,
  (exists records,
     rmap record_of comments = Ok records
     /\ emit_all comments st = (Ok tt, st ++ map EvYield records))
  \/ (exists before comment after records e,
        comments = before ++ comment :: after
        /\ rmap record_of before = Ok records
        /\ record_of comment = Err e
        /\ emit_all comments st = (Err e, st ++ map EvYield records)).
Proof.
  induction comments as [|c comments IH]; intros st.
  - left. exists []. simpl. rewrite app_nil_r. auto.
  - unfold emit_all. simpl. unfold bind, lift, emit.
    fold record_of. destruct (record_of c) as [r|e] eqn:Hr.
    + fold emit_all.
      destruct (IH (st ++ [EvYield r]))
        as [[records [Hmap Hrun]]
           |[before [comment [after [records [e [Hsplit [Hmap [He Hrun]]]]]]]]].
      * left. exists (r :: records). rewrite Hrun. split.
        -- simpl. rewrite Hmap. reflexivity.
        -- rewrite <- app_assoc. reflexivity.
      * right. exists (c :: before), comment, after, (r :: records), e.
        rewrite Hrun, Hsplit. repeat split.
        -- simpl. rewrite Hr. cbn [rbind]. rewrite Hmap. reflexivity.
        -- exact He.
        -- rewrite <- app_assoc. reflexivity.
    + right. exists [], c, comments, [], e. simpl. rewrite app_nil_r.
      auto.
Qed.

End Emission.

(** C5: a batch that gets as far as its tables yields, in this order, the
    records of the REVERSED list of [commentEntityPayload] values found
    in the response: all of them, followed by the sleep, when every
    record can be built, and otherwise those before the first payload
    whose record cannot be built, followed by the exception of that
    payload.  Every record is built from the payment table and the
    toolbar table of the whole batch, and both are fully built from the
    batch ([payments_built], [toolbar_built]).  A batch that raises
    before both tables are built yields nothing. *)
Theorem batch_emits_in_reverse_discovery_order :
  forall dateparser_parse response continuations sleep st,
    (exists e,
       process_response dateparser_parse response continuations sleep st
       = (Err e, st)
       /\ (py_truthy (py_next (search_dict response "externalErrorMessage")
                              JNull) = true
           \/ discover response continuations = Err e
           \/ build_payments response = Err e
           \/ build_toolbar_states response = Err e))
    \/ (exists continuations' payments toolbar_states,
          discover response continuations = Ok continuations'
          /\ build_payments response = Ok payments
          /\ payments_built response payments
          /\ build_toolbar_states response = Ok toolbar_states
          /\ toolbar_built response toolbar_states
          /\ ((exists records,
                 rmap (make_record dateparser_parse payments toolbar_states)
                      (rev (search_dict response "commentEntityPayload"))
                 = Ok records
                 /\ process_response dateparser_parse response
                                     continuations sleep st
                    = (Ok continuations',
                       st ++ map EvYield records ++ [EvSleep sleep]))
              \/ (exists before comment after records e,
                    rev (search_dict response "commentEntityPayload")
                    = before ++ comment :: after
                    /\ rmap (make_record dateparser_parse
                                         payments toolbar_states) before
                       = Ok records
                    /\ make_record dateparser_parse payments toolbar_states
                                   comment
                       = Err e
                    /\ process_response dateparser_parse response
                                        continuations sleep st
                       = (Err e, st ++ map EvYield records)))).
Proof.
  intros parse response continuations sleep st.
  unfold process_response.
  destruct (py_truthy (py_next (search_dict response "externalErrorMessage")
                               JNull)) eqn:Herror.
  { left. eexists. split; [reflexivity|]. left. reflexivity. }
  unfold bind, lift.
  destruct (discover response continuations) as [conts|e] eqn:Hdiscover.
  2:{ left. exists e. split; [reflexivity|]. right. left. reflexivity. }
  destruct (build_payments response) as [payments|e] eqn:Hpayments.
  2:{ left. exists e. split; [reflexivity|]. right. right. left.
      reflexivity. }
  destruct (build_toolbar_states response) as [toolbar_states|e]
    eqn:Htoolbar.
  2:{ left. exists e. split; [reflexivity|]. right. right. right.
      reflexivity. }
  right. exists conts, payments, toolbar_states.
  split; [reflexivity|]. split; [reflexivity|].
  split; [apply build_payments_built; exact Hpayments|].
  split; [reflexivity|].
  split; [apply build_toolbar_states_built; exact Htoolbar|].
  destruct (emit_comments_cases parse payments toolbar_states
              (rev (search_dict response "commentEntityPayload")) st)
    as [[records [Hmap Hrun]]
       |[before [comment [after [records [e [Hsplit [Hmap [He Hrun]]]]]]]]].
  - left. exists records. split; [exact Hmap|]. rewrite Hrun.
    unfold emit, ret. rewrite <- app_assoc. reflexivity.
  - right. exists before, comment, after, records, e.
    split; [exact Hsplit|]. split; [exact Hmap|]. split; [exact He|].
    rewrite Hrun. reflexivity.
Qed.

(** The scenario of the specification: two payloads, ["abc"] and
    ["abc.def"], one toolbar state, no payment payloads.  The search finds
    ["abc.def"] first; the records come out in the reverse order. *)
Example batch_two_comments_scenario :
  map (fun c => py_getitem c "properties")
      (search_dict batch_two_comments "commentEntityPayload")
  = map (fun c => py_getitem c "properties")
        [sample_comment "abc.def" "yesterday" "state-1";
         sample_comment "abc" "1 day ago" "state-1"]
  /\ process_response toy_parse batch_two_comments [] (1 # 10) []
     = (Ok [],
        [EvYield (sample_record "abc" "1 day ago" (Some (1700000000 # 1)));
         EvYield (sample_record "abc.def" "yesterday" None);
         EvSleep (1 # 10)]).
Proof.
  split; vm_compute; reflexivity.
Qed.

(** C8, as stated, fails: ["0001-01-01"] is recognised as a date, but the
    date cannot be turned into a timestamp: [timestamp()] raises
    [ValueError], which [except AttributeError] does not catch.  The
    exception leaves the emission loop and the record is not yielded. *)
Lemma out_of_range_time_raises :
  toy_parse (str_strip (str_split_head "("%char "0001-01-01"))
  = Ok (Moment (Err ValueError))
  /\ make_record toy_parse [] [(JStr "state-1", sample_toolbar_state)]
                 (sample_comment "abc" "0001-01-01" "state-1")
     = Err ValueError
  /\ emit_comments toy_parse [] [(JStr "state-1", sample_toolbar_state)]
                   [sample_comment "abc" "0001-01-01" "state-1"] []
     = (Err ValueError, []).
Proof.
  split; [reflexivity|]. split; vm_compute; reflexivity.
Qed.

(** C8, amended: when [dateparser.parse] does not recognise the
    published-time string of a payload as a date (it returns [None]), the
    outcome of building the record is the outcome for a time that parses
    (under any parser that turns the string into a timestamp) with the
    [time_parsed] key left out: the same record otherwise, and no
    exception of its own.  The loop then yields that record. *)
Theorem unparseable_time_still_emits :
  forall dateparser_parse other_parse payments toolbar_states
         comment properties s t,
    py_getitem comment "properties" = Ok properties ->
    py_getitem properties "publishedTime" = Ok (JStr s) ->
    dateparser_parse (str_strip (str_split_head "("%char s)) = Ok NoDate ->
    other_parse (str_strip (str_split_head "("%char s)) = Ok (Moment (Ok t)) ->
    make_record dateparser_parse payments toolbar_states comment
    = match make_record other_parse payments toolbar_states comment with
      | Ok r => Ok (without_time_parsed r)
      | Err e => Err e
      end
    /\ forall r st,
         make_record dateparser_parse payments toolbar_states comment = Ok r ->
         time_parsed r = None
         /\ emit_comments dateparser_parse payments toolbar_states
                          [comment] st
            = (Ok tt, st ++ [EvYield r]).
Proof.
  intros parse other payments toolbar_states comment properties s t
         Hprops Htime Hparse Hother.
  assert (Heq : make_record parse payments toolbar_states comment
                = match make_record other payments toolbar_states comment with
                  | Ok r => Ok (without_time_parsed r)
                  | Err e => Err e
                  end).
  { unfold make_record. rewrite Hprops. cbn [rbind].
    destruct (py_getitem properties "commentId"); [|reflexivity]. cbn [rbind].
    destruct (py_getitem comment "author"); [|reflexivity]. cbn [rbind].
    destruct (py_getitem comment "toolbar"); [|reflexivity]. cbn [rbind].
    destruct (py_getitem properties "toolbarStateKey"); [|reflexivity].
    cbn [rbind].
    destruct (table_lookup toolbar_states _); [|reflexivity]. cbn [rbind].
    destruct (py_getitem properties "content"); [|reflexivity]. cbn [rbind].
    destruct (py_getitem _ "content"); [|reflexivity]. cbn [rbind].
    rewrite Htime. cbn [rbind].
    destruct (py_getitem _ "displayName"); [|reflexivity]. cbn [rbind].
    destruct (py_getitem _ "channelId"); [|reflexivity]. cbn [rbind].
    destruct (py_getitem _ "likeCountNotliked"); [|reflexivity]. cbn [rbind].
    destruct (py_strip _); [|reflexivity]. cbn [rbind].
    destruct (py_getitem _ "replyCount"); [|reflexivity]. cbn [rbind].
    destruct (py_getitem _ "avatarThumbnailUrl"); [|reflexivity]. cbn [rbind].
    destruct (py_get _ "heartState" _); [|reflexivity]. cbn [rbind].
    destruct (py_in "." _); [|reflexivity]. cbn [rbind].
    unfold parse_time. rewrite Hparse, Hother. cbn [rbind].
    destruct (table_mem payments _) as [[|]|]; [|reflexivity|reflexivity].
    cbn [rbind].
    destruct (table_lookup payments _); reflexivity. }
  split; [exact Heq|].
  intros r st Hr. split.
  - rewrite Heq in Hr.
    destruct (make_record other payments toolbar_states comment);
      inversion Hr. reflexivity.
  - simpl. unfold bind, lift, emit, ret. rewrite Hr. reflexivity.
Qed.

Lemma unparseable_time_still_emits_witness :
  make_record toy_parse [] [(JStr "state-1", sample_toolbar_state)]
              (sample_comment "abc" "gibberish" "state-1")
  = Ok (sample_record "abc" "gibberish" None)
  /\ emit_comments toy_parse [] [(JStr "state-1", sample_toolbar_state)]
                   [sample_comment "abc" "gibberish" "state-1"] []
     = (Ok tt, [] ++ [EvYield (sample_record "abc" "gibberish" None)]).
Proof.
  pose proof (@unparseable_time_still_emits
                toy_parse (fun _ => Ok (Moment (Ok (1700000000 # 1))))
                [] [(JStr "state-1", sample_toolbar_state)]
                (sample_comment "abc" "gibberish" "state-1")
                (JDict [("commentId", JStr "abc");
                        ("content", JDict [("content", JStr "hello")]);
                        ("publishedTime", JStr "gibberish");
                        ("toolbarStateKey", JStr "state-1")])
                "gibberish" (1700000000 # 1)
                eq_refl eq_refl eq_refl eq_refl) as [Heq Hemit].
  split; [exact Heq|].
  exact (proj2 (Hemit (sample_record "abc" "gibberish" None) [] Heq)).
Defined.

(** A failed lookup in a mapping is a [KeyError]. *)
Lemma py_getitem_dict_error items key e :
  py_getitem (JDict items) key = Err e -> e = KeyError.
Proof.
  simpl. destruct (dict_get items key); intros H; inversion H; reflexivity.
Qed.

Lemma py_getitem_ok_dict v key x :
  py_getitem v key = Ok x -> exists items, v = JDict items.
Proof.
  destruct v; simpl; try discriminate. intros _. eexists. reflexivity.
Qed.

(** The lookup [toolbar_states[properties['toolbarStateKey']]] is not
    guarded: a key that no toolbar payload has makes the record raise
    [KeyError]. *)
Lemma make_record_unmatched_key dateparser_parse payments toolbar_states
    comment properties key :
  py_getitem comment "properties" = Ok properties ->
  py_getitem properties "toolbarStateKey" = Ok key ->
  py_hashable key = true ->
  table_get toolbar_states key = None ->
  make_record dateparser_parse payments toolbar_states comment = Err KeyError.
Proof.
  intros Hprops Hkey Hhash Hget.
  destruct (py_getitem_ok_dict _ _ Hprops) as [citems ->].
  destruct (py_getitem_ok_dict _ _ Hkey) as [pitems ->].
  unfold make_record. rewrite Hprops. cbn [rbind].
  destruct (py_getitem (JDict pitems) "commentId") eqn:E1.
  2:{ apply py_getitem_dict_error in E1. subst. reflexivity. }
  cbn [rbind].
  destruct (py_getitem (JDict citems) "author") eqn:E2.
  2:{ apply py_getitem_dict_error in E2. subst. reflexivity. }
  cbn [rbind].
  destruct (py_getitem (JDict citems) "toolbar") eqn:E3.
  2:{ apply py_getitem_dict_error in E3. subst. reflexivity. }
  cbn [rbind]. rewrite Hkey. cbn [rbind].
  unfold table_lookup. rewrite Hhash, Hget. reflexivity.
Qed.

(** A response in which the search finds anything is truthy. *)
Lemma search_dict_found_truthy response search_key :
  search_dict response search_key <> [] -> py_truthy response = true.
Proof.
  intros Hfound. destruct response as [| | | |l|items];
    try (exfalso; apply Hfound; vm_compute; reflexivity).
  - destruct l; [exfalso; apply Hfound; vm_compute; reflexivity|reflexivity].
  - destruct items;
      [exfalso; apply Hfound; vm_compute; reflexivity|reflexivity].
Qed.

(** C10: take a batch that gets as far as emission (no reported error, the
    continuations scanned, both tables built) and in it a
    [commentEntityPayload] whose [toolbarStateKey] is the key of no
    [engagementToolbarStateEntityPayload] of the batch.  Once the payloads
    before it (in emission order) have been yielded, the table lookup
    raises [KeyError]; the exception leaves the crawl loop: that record is
    not yielded, no later payload is, and nothing more is requested. *)
Theorem unmatched_toolbar_key_aborts_crawl :
  forall session_post dateparser_parse ytcfg sleep fuel
         stack rest token st0 st response continuations'
         payments toolbar_states before comment after records
         properties key,
    py_pop stack = Some (rest, token) ->
    ajax_request_default session_post token ytcfg st0 = (Ok response, st) ->
    py_truthy (py_next (search_dict response "externalErrorMessage") JNull)
    = false ->
    discover response rest = Ok continuations' ->
    build_payments response = Ok payments ->
    build_toolbar_states response = Ok toolbar_states ->
    rev (search_dict response "commentEntityPayload")
    = before ++ comment :: after ->
    rmap (make_record dateparser_parse payments toolbar_states) before
    = Ok records ->
    py_getitem comment "properties" = Ok properties ->
    py_getitem properties "toolbarStateKey" = Ok key ->
    py_hashable key = true ->
    table_get toolbar_states key = None ->
    crawl session_post dateparser_parse (S fuel) ytcfg sleep stack st0
    = (Err KeyError, st ++ map EvYield records).
Proof.
  intros session_post parse ytcfg sleep fuel stack rest token st0 st response
         continuations' payments toolbar_states before comment after records
         properties key
         Hpop Hajax Herror Hdiscover Hpay Htoolbar Hfound Hbefore
         Hprops Hkey Hhash Hget.
  assert (Htruthy : py_truthy response = true).
  { apply (@search_dict_found_truthy response "commentEntityPayload").
    intros Hnil. rewrite Hnil in Hfound. simpl in Hfound.
    destruct before; discriminate. }
  cbn [crawl]. rewrite Hpop. unfold bind at 1. rewrite Hajax.
  rewrite Htruthy. cbn [negb].
  unfold bind at 1. unfold process_response. rewrite Herror.
  unfold bind at 1. unfold lift at 1. rewrite Hdiscover.
  unfold bind at 1. unfold lift at 1. rewrite Hpay.
  unfold bind at 1. unfold lift at 1. rewrite Htoolbar.
  unfold bind at 1. rewrite Hfound.
  rewrite (@emit_comments_stop parse payments toolbar_states before comment
             after records KeyError st Hbefore).
  - reflexivity.
  - eapply make_record_unmatched_key; eassumption.
Qed.

Lemma unmatched_toolbar_key_aborts_crawl_witness :
  crawl (serves batch_with_unmatched_key) toy_parse 3 sample_ytcfg (1 # 10)
        [sample_endpoint "seed"] []
  = (Err KeyError,
     [EvAjaxPost sample_url (JStr "key") (sample_data "seed")]
       ++ map EvYield [sample_record "abc" "1 day ago"
                         (Some (1700000000 # 1))]).
Proof.
  apply (@unmatched_toolbar_key_aborts_crawl
           (serves batch_with_unmatched_key) toy_parse sample_ytcfg (1 # 10)
           2%nat [sample_endpoint "seed"] [] (sample_endpoint "seed") []
           [EvAjaxPost sample_url (JStr "key") (sample_data "seed")]
           batch_with_unmatched_key []
           [] [(JStr "state-1", sample_toolbar_state)]
           [sample_comment "abc" "1 day ago" "state-1"]
           (sample_comment "abc.def" "1 day ago" "state-2")
           []
           [sample_record "abc" "1 day ago" (Some (1700000000 # 1))]
           (JDict [("commentId", JStr "abc.def");
                   ("content", JDict [("content", JStr "hello")]);
                   ("publishedTime", JStr "1 day ago");
                   ("toolbarStateKey", JStr "state-2")])
           (JStr "state-2")).
  - reflexivity.
  - vm_compute. reflexivity.
  - vm_compute. reflexivity.
  - vm_compute. reflexivity.
  - vm_compute. reflexivity.
  - vm_compute. reflexivity.
  - vm_compute. reflexivity.
  - vm_compute. reflexivity.
  - reflexivity.
  - reflexivity.
  - reflexivity.
  - reflexivity.
Defined.

(* ===================================================================== *)
(** ** The order of the work stack (C1) *)
(* ===================================================================== *)

Lemma rfold_invariant {A B} (f : A -> B -> result A) (P : A -> Prop) :
  (forall acc x acc', P acc -> f acc x = Ok acc' -> P acc') ->
  forall xs acc acc', P acc -> rfold f xs acc = Ok acc' -> P acc'.
Proof.
  intros Hstep. induction xs as [|x xs IH]; intros acc acc' HP Hrun.
  - inversion Hrun; subst. exact HP.
  - simpl in Hrun. destruct (f acc x) as [acc1|e] eqn:E; [|discriminate].
    simpl in Hrun. eapply IH; [|exact Hrun]. eapply Hstep; eassumption.
Qed.

Lemma replies_at_back_front new stack :
  replies_at_back stack ->
  replies_at_back (map (pair MoreComments) new ++ stack).
Proof.
  intros [front [back [-> [Hf Hb]]]].
  exists (map (pair MoreComments) new ++ front), back.
  split; [apply app_assoc|]. split; [|exact Hb].
  apply Forall_app. split; [|exact Hf].
  apply Forall_forall. intros t Ht. apply in_map_iff in Ht.
  destruct Ht as [x [<- _]]. reflexivity.
Qed.

Lemma replies_at_back_append stack command :
  replies_at_back stack ->
  replies_at_back (stack ++ [(MoreReplies, command)]).
Proof.
  intros [front [back [-> [Hf Hb]]]].
  exists front, (back ++ [(MoreReplies, command)]).
  split; [symmetry; apply app_assoc|]. split; [exact Hf|].
  apply Forall_app. split; [exact Hb|]. constructor; [reflexivity|constructor].
Qed.

Lemma replies_at_back_pop stack rest token :
  replies_at_back stack ->
  py_pop stack = Some (rest, token) ->
  replies_at_back rest.
Proof.
  intros [front [back [Hstack [Hf Hb]]]] Hpop.
  apply py_pop_some in Hpop. subst stack.
  induction back as [|last back' _] using rev_ind.
  - rewrite app_nil_r in Hpop. subst front.
    apply Forall_app in Hf. destruct Hf as [Hf _].
    exists rest, []. rewrite app_nil_r. auto.
  - rewrite app_assoc in Hpop. apply app_inj_tail in Hpop.
    destruct Hpop as [<- _].
    apply Forall_app in Hb. destruct Hb as [Hb _].
    exists front, back'. auto.
Qed.

Lemma discover_item_tagged_keeps action item stack stack' :
  replies_at_back stack ->
  discover_item_tagged action item stack = Ok stack' ->
  replies_at_back stack'.
Proof.
  intros Hinv. unfold discover_item_tagged.
  destruct (py_getitem action "targetId") as [target|]; [|discriminate].
  cbn [rbind]. cbv zeta.
  remember (if existsb (fun s => json_is_str s target) COMMENT_SECTIONS
            then map (pair MoreComments)
                     (search_dict item "continuationEndpoint") ++ stack
            else stack) as stack1 eqn:Hstack1.
  assert (H1 : replies_at_back stack1).
  { subst stack1. destruct (existsb _ COMMENT_SECTIONS); [|exact Hinv].
    apply replies_at_back_front. exact Hinv. }
  clear Hstack1.
  destruct (py_startswith target "comment-replies-item") as [starts|];
    [|discriminate]. cbn [rbind].
  destruct (if starts then py_in "continuationItemRenderer" item else Ok false)
    as [[|]|]; cbn [rbind]; try discriminate.
  - destruct (search_dict item "buttonRenderer") as [|button ?];
      [discriminate|].
    destruct (py_getitem button "command") as [command|]; [|discriminate].
    cbn [rbind]. intros H. inversion H; subst.
    apply replies_at_back_append. exact H1.
  - intros H. inversion H; subst. exact H1.
Qed.

Lemma discover_tagged_keeps response stack stack' :
  replies_at_back stack ->
  discover_tagged response stack = Ok stack' ->
  replies_at_back stack'.
Proof.
  unfold discover_tagged. intros Hinv.
  apply rfold_invariant with (P := replies_at_back); [|exact Hinv].
  intros acc action acc' Hacc. unfold discover_action_tagged.
  destruct (py_get action "continuationItems" (JList [])) as [items|];
    [|discriminate]. cbn [rbind].
  destruct (py_iter items) as [its|]; [|discriminate]. cbn [rbind].
  apply rfold_invariant with (P := replies_at_back); [|exact Hacc].
  intros acc1 item acc2. apply discover_item_tagged_keeps.
Qed.

Lemma reachable_replies_at_back stack :
  reachable stack -> replies_at_back stack.
Proof.
  induction 1 as [endpoint|stack rest token response stack' _ IH Hpop Hdisc].
  - exists [(Seed, endpoint)], []. split; [reflexivity|].
    split; constructor; [reflexivity|constructor].
  - eapply discover_tagged_keeps; [|exact Hdisc].
    eapply replies_at_back_pop; eassumption.
Qed.

(** The origins are ghost state: forgetting them gives the stack the code
    computes. *)
Lemma rfold_erase {A A' B} (erase : A' -> A)
    (f : A -> B -> result A) (g : A' -> B -> result A') :
  (forall acc x,
     f (erase acc) x
     = match g acc x with Ok a => Ok (erase a) | Err e => Err e end) ->
  forall xs acc,
    rfold f xs (erase acc)
    = match rfold g xs acc with Ok a => Ok (erase a) | Err e => Err e end.
Proof.
  intros Hstep. induction xs as [|x xs IH]; intros acc; simpl.
  - reflexivity.
  - rewrite Hstep. destruct (g acc x) as [acc1|e]; simpl; [apply IH|].
    reflexivity.
Qed.

Lemma discover_item_erase action item stack :
  discover_item action item (map snd stack)
  = match discover_item_tagged action item stack with
    | Ok stack' => Ok (map snd stack')
    | Err e => Err e
    end.
Proof.
  unfold discover_item, discover_item_tagged.
  destruct (py_getitem action "targetId") as [target|]; [|reflexivity].
  cbn [rbind]. cbv zeta.
  destruct (py_startswith target "comment-replies-item") as [starts|];
    [|reflexivity]. cbn [rbind].
  assert (Hfront :
    (if existsb (fun s => json_is_str s target) COMMENT_SECTIONS
     then search_dict item "continuationEndpoint" ++ map snd stack
     else map snd stack)
    = map snd
        (if existsb (fun s => json_is_str s target) COMMENT_SECTIONS
         then map (pair MoreComments)
                  (search_dict item "continuationEndpoint") ++ stack
         else stack)).
  { destruct (existsb _ COMMENT_SECTIONS); [|reflexivity].
    rewrite map_app, map_map. simpl. rewrite map_id. reflexivity. }
  rewrite Hfront.
  destruct (if starts then py_in "continuationItemRenderer" item else Ok false)
    as [[|]|]; cbn [rbind]; try reflexivity.
  destruct (search_dict item "buttonRenderer") as [|button ?];
    [reflexivity|].
  destruct (py_getitem button "command") as [command|]; [|reflexivity].
  cbn [rbind]. rewrite map_app. reflexivity.
Qed.

Lemma discover_erase response stack :
  discover response (map snd stack)
  = match discover_tagged response stack with
    | Ok stack' => Ok (map snd stack')
    | Err e => Err e
    end.
Proof.
  unfold discover, discover_tagged. apply rfold_erase.
  intros acc action. unfold discover_action, discover_action_tagged.
  destruct (py_get action "continuationItems" (JList [])) as [items|];
    [|reflexivity]. cbn [rbind].
  destruct (py_iter items) as [its|]; [|reflexivity]. cbn [rbind].
  apply rfold_erase. intros acc1 item. apply discover_item_erase.
Qed.

Lemma py_pop_map {A B} (f : A -> B) (l : list A) rest x :
  py_pop l = Some (rest, x) -> py_pop (map f l) = Some (map f rest, f x).
Proof.
  intros H. apply py_pop_some in H. subst l.
  rewrite map_app. simpl. apply py_pop_app.
Qed.

Lemma both_kinds_reachable : reachable both_kinds_stack.
Proof.
  apply (@reach_turn [(Seed, sample_endpoint "seed")] []
           (Seed, sample_endpoint "seed") both_kinds_response).
  - apply reach_seed.
  - reflexivity.
  - vm_compute. reflexivity.
Qed.

(** C1, as stated, fails: the first batch of [thread_server] puts a "more
    comments" token (front) and a "more replies" token (back) on the
    stack together, and the next [pop()] takes the "more replies" one; the
    crawl requests ["R"] before ["C"]. *)
Lemma replies_token_issued_before_comments_token :
  discover_tagged both_kinds_response [] = Ok both_kinds_stack
  /\ discover both_kinds_response [] = Ok (map snd both_kinds_stack)
  /\ reachable both_kinds_stack
  /\ py_pop both_kinds_stack
     = Some ([(MoreComments, sample_endpoint "C")],
             (MoreReplies, sample_endpoint "R"))
  /\ issued (snd (crawl thread_server toy_parse 10 sample_ytcfg (1 # 10)
                        [sample_endpoint "seed"] []))
     = [JStr "seed"; JStr "R"; JStr "C"].
Proof.
  split; [vm_compute; reflexivity|].
  split; [vm_compute; reflexivity|].
  split; [exact both_kinds_reachable|].
  split; [reflexivity|].
  vm_compute. reflexivity.
Qed.

(** C1, amended: whenever the work stack holds a front-inserted "more
    comments" token and a back-appended "more replies" token at the same
    time, the token popped and issued next is a "more replies" token and
    the "more comments" token stays on the stack: every "more replies"
    token is issued strictly before any "more comments" token that shares
    the stack with it. *)
Theorem replies_tokens_are_popped_first :
  forall stack c r,
    reachable stack ->
    In (MoreComments, c) stack ->
    In (MoreReplies, r) stack ->
    exists rest r',
      py_pop stack = Some (rest, (MoreReplies, r'))
      /\ py_pop (map snd stack) = Some (map snd rest, r')
      /\ In (MoreComments, c) rest.
Proof.
  intros stack c r Hreach Hc Hr.
  destruct (reachable_replies_at_back Hreach)
    as [front [back [-> [Hfront Hback]]]].
  assert (Hrback : In (MoreReplies, r) back).
  { apply in_app_or in Hr. destruct Hr as [Hr|Hr]; [|exact Hr].
    rewrite Forall_forall in Hfront. specialize (Hfront _ Hr).
    discriminate. }
  assert (Hcfront : In (MoreComments, c) front).
  { apply in_app_or in Hc. destruct Hc as [Hc|Hc]; [exact Hc|].
    rewrite Forall_forall in Hback. specialize (Hback _ Hc).
    discriminate. }
  induction back as [|last back' _] using rev_ind; [destruct Hrback|].
  apply Forall_app in Hback. destruct Hback as [_ Hlast].
  inversion Hlast as [|? ? Hlast' _]; subst.
  destruct last as [[| |] r']; try discriminate.
  assert (Hpop : py_pop (front ++ back' ++ [(MoreReplies, r')])
                 = Some (front ++ back', (MoreReplies, r'))).
  { rewrite app_assoc. apply py_pop_app. }
  exists (front ++ back'), r'. split; [exact Hpop|].
  split; [exact (py_pop_map snd _ Hpop)|].
  apply in_or_app. left. exact Hcfront.
Qed.

Lemma replies_tokens_are_popped_first_witness :
  exists rest r',
    py_pop both_kinds_stack = Some (rest, (MoreReplies, r'))
    /\ py_pop (map snd both_kinds_stack) = Some (map snd rest, r')
    /\ In (MoreComments, sample_endpoint "C") rest.
Proof.
  apply (@replies_tokens_are_popped_first
           both_kinds_stack (sample_endpoint "C") (sample_endpoint "R")).
  - exact both_kinds_reachable.
  - left. reflexivity.
  - right. left. reflexivity.
Defined.

(** The stacks of the real loop are the erasures of [reachable] stacks:
    a turn of [crawl] that goes on to the next one leaves the stack that
    [discover] computes from the popped one. *)
Lemma process_response_stack dateparser_parse response continuations sleep st
    continuations' :
  fst (process_response dateparser_parse response continuations sleep st)
  = Ok continuations' ->
  discover response continuations = Ok continuations'.
Proof.
  unfold process_response.
  destruct (py_truthy _); [discriminate|].
  unfold bind, lift.
  destruct (discover response continuations) as [conts|]; [|discriminate].
  destruct (build_payments response); [|discriminate].
  destruct (build_toolbar_states response); [|discriminate].
  destruct (emit_comments _ _ _ _ _) as [[[]|] ?]; [|discriminate].
  unfold emit, ret. simpl. intros H. exact H.
Qed.

Lemma crawl_turn_reachable dateparser_parse stack rest token response sleep st
    continuations' :
  reachable stack ->
  py_pop stack = Some (rest, token) ->
  fst (process_response dateparser_parse response (map snd rest) sleep st)
  = Ok continuations' ->
  exists stack', reachable stack' /\ map snd stack' = continuations'.
Proof.
  intros Hreach Hpop Hrun. apply process_response_stack in Hrun.
  rewrite discover_erase in Hrun.
  destruct (discover_tagged response rest) as [stack'|] eqn:Hd;
    [|discriminate].
  inversion Hrun; subst. exists stack'. split; [|reflexivity].
  eapply reach_turn; eassumption.
Qed.


(* ===================================================================== *)
(** * Further properties *)
(* ===================================================================== *)

(* ===================================================================== *)
(** ** The nested-structure search: order of the yields *)
(* ===================================================================== *)

Lemma stack_yields_concat search_key stack :
  stack_yields search_key stack
  = List.concat (rev (map (fun x => search_dict x search_key) stack)).
Proof.
  induction stack as [|x stack IH]; simpl; [reflexivity|].
  rewrite concat_app, IH, search_dict_rec. simpl.
  rewrite app_nil_r. reflexivity.
Qed.

Lemma dict_get_yields items key v :
  dict_get items key = Some v ->
  exists others, dict_yields key items = v :: others.
Proof.
  induction items as [|[k x] items IH]; simpl; [discriminate|].
  destruct (String.eqb k key).
  - intros H. inversion H; subst. eexists. reflexivity.
  - exact IH.
Qed.

(** X1: the search of a mapping that has a direct entry under the key
    yields that entry's value first, so [next(search_dict(d, key), default)]
    is [d[key]] whatever else the mapping nests. *)
Theorem search_dict_direct_entry_first :
  forall items search_key v default,
    dict_get items search_key = Some v ->
    py_next (search_dict (JDict items) search_key) default = v.
Proof.
  intros items search_key v default Hget.
  rewrite search_dict_rec, search_rec_dict.
  destruct (dict_get_yields _ _ Hget) as [others ->]. reflexivity.
Qed.

Lemma search_dict_direct_entry_first_witness :
  py_next (search_dict sample_ytcfg "INNERTUBE_API_KEY") JNull = JStr "key".
Proof.
  apply (@search_dict_direct_entry_first
           [("INNERTUBE_API_KEY", JStr "key");
            ("INNERTUBE_CONTEXT",
             JDict [("client", JDict [("hl", JStr "en")])])]
           "INNERTUBE_API_KEY" (JStr "key") JNull).
  reflexivity.
Defined.

(** X2: how the search composes.  A sequence is searched element by
    element from the last to the first; a mapping yields its own matching
    entries in order and then searches its other values from the last to
    the first; a scalar yields nothing. *)
Theorem search_dict_composes :
  forall search_key,
    (forall l,
       search_dict (JList l) search_key
       = List.concat (rev (map (fun x => search_dict x search_key) l)))
    /\ (forall items,
          search_dict (JDict items) search_key
          = dict_yields search_key items
            ++ List.concat (rev (map (fun x => search_dict x search_key)
                                (dict_pushes search_key items))))
    /\ (forall v,
          (forall l, v <> JList l) -> (forall items, v <> JDict items) ->
          search_dict v search_key = []).
Proof.
  intros search_key. split; [|split].
  - intros l. rewrite search_dict_rec, search_rec_list.
    apply stack_yields_concat.
  - intros items. rewrite search_dict_rec, search_rec_dict.
    rewrite stack_yields_concat. reflexivity.
  - intros v Hl Hd. rewrite search_dict_rec.
    destruct v; try reflexivity.
    + destruct (Hl l eq_refl).
    + destruct (Hd items eq_refl).
Qed.

Lemma search_dict_composes_witness :
  search_dict (JStr "k") "k" = [].
Proof.
  apply (proj2 (proj2 (search_dict_composes "k"))); discriminate.
Defined.

(* ===================================================================== *)
(** ** The request client: success, and what a call may send *)
(* ===================================================================== *)

Definition count_sleeps (l : log) : nat :=
  List.length
    (filter (fun ev => match ev with EvSleep _ => true | _ => false end) l).

(** X3: when the [i]-th attempt (after [i] retried ones) is answered with
    status 200, [ajax_request] returns what [response.json()] gives (the
    decoded body, or the decoding error) and the log ends with that post:
    no sleep follows a success. *)
Theorem ajax_request_ok_returns_body :
  forall session_post endpoint ytcfg retries sleep timeout url data key st
         (i : nat) body,
    endpoint_url endpoint = Ok url ->
    request_data endpoint ytcfg = Ok data ->
    py_getitem ytcfg "INNERTUBE_API_KEY" = Ok key ->
    (i < Z.to_nat retries)%nat ->
    (forall j, (j < i)%nat ->
       retried (session_post (st ++ failed_rounds j url key data sleep)
                             url key data timeout) = true) ->
    session_post (st ++ failed_rounds i url key data sleep)
                 url key data timeout = Responded 200 body ->
    ajax_request session_post endpoint ytcfg retries sleep timeout st
    = (body,
       st ++ failed_rounds i url key data sleep ++ [EvAjaxPost url key data]).
Proof.
  intros session_post endpoint ytcfg retries sleep timeout url data key st
         i body Hurl Hdata Hkey Hi Hretried Hresp.
  unfold ajax_request, bind, lift. rewrite Hurl, Hdata.
  replace (Z.to_nat retries) with (i + S (Z.to_nat retries - S i))%nat by lia.
  rewrite (@ajax_attempts_retry session_post url key data ytcfg sleep timeout
             Hkey i); [|exact Hretried].
  simpl. unfold bind, lift, post. rewrite Hkey, Hresp.
  rewrite <- app_assoc. reflexivity.
Qed.

Lemma ajax_request_ok_returns_body_witness :
  ajax_request (serves batch_two_comments) (sample_endpoint "t") sample_ytcfg
               5 (20 # 1) (60 # 1) []
  = (Ok batch_two_comments,
     [EvAjaxPost sample_url (JStr "key") (sample_data "t")]).
Proof.
  apply (@ajax_request_ok_returns_body
           (serves batch_two_comments) (sample_endpoint "t") sample_ytcfg 5
           (20 # 1) (60 # 1) sample_url (sample_data "t") (JStr "key") []
           0%nat (Ok batch_two_comments)).
  - reflexivity.
  - reflexivity.
  - reflexivity.
  - vm_compute. lia.
  - intros j Hj. lia.
  - reflexivity.
Defined.

Lemma count_posts_app a b :
  count_posts (a ++ b) = (count_posts a + count_posts b)%nat.
Proof. unfold count_posts. rewrite filter_app, length_app. reflexivity. Qed.

Lemma count_sleeps_app a b :
  count_sleeps (a ++ b) = (count_sleeps a + count_sleeps b)%nat.
Proof. unfold count_sleeps. rewrite filter_app, length_app. reflexivity. Qed.

Lemma ajax_attempts_sends session_post url data ytcfg sleep timeout n :
  forall st, exists evs,
    snd (ajax_attempts session_post n url data ytcfg sleep timeout st)
    = st ++ evs
    /\ Forall (fun ev => (exists key, ev = EvAjaxPost url key data)
                         \/ ev = EvSleep sleep) evs
    /\ (count_posts evs <= n)%nat
    /\ (count_sleeps evs <= count_posts evs)%nat.
Proof.
  induction n as [|n IH]; intros st.
  - exists []. simpl. rewrite app_nil_r. repeat split; auto.
  - cbn [ajax_attempts]. unfold bind, lift, post.
    destruct (py_getitem ytcfg "INNERTUBE_API_KEY") as [key|e].
    2:{ exists []. simpl. rewrite app_nil_r. repeat split; auto; unfold count_posts, count_sleeps; simpl; lia. }
    assert (Hone : exists evs,
              st ++ [EvAjaxPost url key data] = st ++ evs
              /\ Forall (fun ev => (exists key, ev = EvAjaxPost url key data)
                                   \/ ev = EvSleep sleep) evs
              /\ (count_posts evs <= S n)%nat
              /\ (count_sleeps evs <= count_posts evs)%nat).
    { exists [EvAjaxPost url key data]. repeat split.
      - constructor; [left; eexists; reflexivity|constructor].
      - unfold count_posts. simpl. lia.
      - unfold count_sleeps, count_posts. simpl. lia. }
    assert (Hmore : exists evs,
              snd (ajax_attempts session_post n url data ytcfg sleep timeout
                     ((st ++ [EvAjaxPost url key data]) ++ [EvSleep sleep]))
              = st ++ evs
              /\ Forall (fun ev => (exists key, ev = EvAjaxPost url key data)
                                   \/ ev = EvSleep sleep) evs
              /\ (count_posts evs <= S n)%nat
              /\ (count_sleeps evs <= count_posts evs)%nat).
    { destruct (IH ((st ++ [EvAjaxPost url key data]) ++ [EvSleep sleep]))
        as [evs [Hlog [Hall [Hposts Hsleeps]]]].
      exists ([EvAjaxPost url key data; EvSleep sleep] ++ evs).
      split; [|split; [|split]].
      - rewrite Hlog, <- !app_assoc. reflexivity.
      - constructor; [left; eexists; reflexivity|].
        constructor; [right; reflexivity|exact Hall].
      - rewrite count_posts_app. unfold count_posts at 1. simpl. lia.
      - rewrite count_posts_app, count_sleeps_app.
        unfold count_posts at 1, count_sleeps at 1. simpl. lia. }
    destruct (session_post st url key data timeout) as [code body| |name].
    + destruct (code =? 200); [exact Hone|].
      destruct ((code =? 403) || (code =? 413)); [exact Hone|].
      unfold emit. exact Hmore.
    + unfold emit. exact Hmore.
    + exact Hone.
Qed.

(** X4: whatever the transport answers, one call of [ajax_request] adds
    to the log only posts of the one request built from the endpoint and
    sleeps of [sleep] seconds: at most [retries] posts, and never more
    sleeps than posts. *)
Theorem ajax_request_sends_at_most_retries :
  forall session_post endpoint ytcfg retries sleep timeout st,
  exists evs,
    snd (ajax_request session_post endpoint ytcfg retries sleep timeout st)
    = st ++ evs
    /\ Forall (fun ev =>
                 (exists url key data,
                    ev = EvAjaxPost url key data
                    /\ endpoint_url endpoint = Ok url
                    /\ request_data endpoint ytcfg = Ok data)
                 \/ ev = EvSleep sleep) evs
    /\ (count_posts evs <= Z.to_nat retries)%nat
    /\ (count_sleeps evs <= count_posts evs)%nat.
Proof.
  intros session_post endpoint ytcfg retries sleep timeout st.
  unfold ajax_request, bind, lift.
  destruct (endpoint_url endpoint) as [url|e] eqn:Hurl.
  2:{ exists []. simpl. rewrite app_nil_r. repeat split; auto; unfold count_posts, count_sleeps; simpl; lia. }
  destruct (request_data endpoint ytcfg) as [data|e] eqn:Hdata.
  2:{ exists []. simpl. rewrite app_nil_r. repeat split; auto; unfold count_posts, count_sleeps; simpl; lia. }
  destruct (ajax_attempts_sends session_post url data ytcfg sleep timeout
              (Z.to_nat retries) st) as [evs [Hlog [Hall [Hposts Hsleeps]]]].
  exists evs. split; [exact Hlog|]. split; [|split; assumption].
  eapply Forall_impl; [|exact Hall].
  intros ev [[key ->] | ->]; [left|right; reflexivity].
  exists url, key, data. auto.
Qed.

(* ===================================================================== *)
(** ** Bootstrap and sort resolution: further cases *)
(* ===================================================================== *)

(** A server whose page carries neither blob. *)
Definition page_without_config : log -> string -> result page :=
  fun _ url => Ok {| page_url := url; page_text := "<html></html>" |}.

(** The last value [pairs] gives for [name], as [dict(pairs)] keeps it. *)
Fixpoint last_value (pairs : list (string * string)) (name : string)
  : option string :=
  match pairs with
  | [] => None
  | (n, v) :: pairs' =>
      match last_value pairs' name with
      | Some v' => Some v'
      | None => if String.eqb n name then Some v else None
      end
  end.

Lemma dict_get_set_same items key value :
  dict_get (dict_set items key value) key = Some value.
Proof.
  induction items as [|[k v] items IH]; simpl.
  - rewrite String.eqb_refl. reflexivity.
  - destruct (String.eqb k key) eqn:E; simpl; rewrite E; [reflexivity|].
    exact IH.
Qed.

Lemma dict_get_set_other items key value key' :
  key' <> key ->
  dict_get (dict_set items key value) key' = dict_get items key'.
Proof.
  intros Hne. induction items as [|[k v] items IH]; simpl.
  - destruct (String.eqb_spec key key'); [congruence|reflexivity].
  - destruct (String.eqb_spec k key) as [->|Hk]; simpl.
    + destruct (String.eqb_spec key key'); [congruence|reflexivity].
    + destruct (String.eqb k key'); [reflexivity|exact IH].
Qed.

(** X5: a page whose configuration blob is absent (or decodes to an empty
    value) makes [get_comments_from_url] raise [CommentDownloadError]
    right after the page fetch, whatever the language and sort index. *)
Theorem missing_config_raises_download_error :
  forall session_get session_post_consent session_post
         re_search re_findall json_loads dateparser_parse
         youtube_url sort_by language sleep fuel st pg st1 cfg,
    fetch_page session_get session_post_consent re_findall youtube_url st
    = (Ok pg, st1) ->
    json_loads (regex_search re_search (page_text pg) YT_CFG_RE "{}")
    = Ok cfg ->
    py_truthy cfg = false ->
    get_comments_from_url session_get session_post_consent session_post
      re_search re_findall json_loads dateparser_parse
      youtube_url sort_by language sleep fuel st
    = (Err CommentDownloadError, st1).
Proof.
  intros session_get session_post_consent session_post
         re_search re_findall json_loads dateparser_parse
         youtube_url sort_by language sleep fuel st pg st1 cfg
         Hfetch Hloads Hfalsy.
  unfold get_comments_from_url.
  unfold bind at 1. rewrite Hfetch.
  unfold bind at 1. unfold lift at 1, extract_config.
  rewrite Hloads. cbn [rbind]. rewrite Hfalsy. reflexivity.
Qed.

Lemma missing_config_raises_download_error_witness :
  get_comments_from_url page_without_config no_consent always_500
    toy_re_search toy_re_findall toy_json_loads toy_parse
    "https://www.youtube.com/watch?v=x" 1 (Some "en") (1 # 10) 8 []
  = (Err CommentDownloadError, [EvGet "https://www.youtube.com/watch?v=x"]).
Proof.
  apply (@missing_config_raises_download_error
           page_without_config no_consent always_500
           toy_re_search toy_re_findall toy_json_loads toy_parse
           "https://www.youtube.com/watch?v=x" 1 (Some "en") (1 # 10) 8%nat []
           {| page_url := "https://www.youtube.com/watch?v=x";
              page_text := "<html></html>" |}
           [EvGet "https://www.youtube.com/watch?v=x"] (JDict [])).
  - vm_compute. reflexivity.
  - vm_compute. reflexivity.
  - reflexivity.
Defined.

(** X6: a non-empty language is written to
    [ytcfg['INNERTUBE_CONTEXT']['client']['hl']] and nothing else at the
    top level of the configuration changes; [None] and the empty string
    leave the configuration as it is. *)
Theorem set_language_sets_locale :
  forall ytcfg lang ytcfg',
    set_language ytcfg (Some lang) = Ok ytcfg' ->
    lang <> EmptyString ->
    (context <- py_getitem ytcfg' "INNERTUBE_CONTEXT" ;;
     client <- py_getitem context "client" ;;
     py_getitem client "hl")%res = Ok (JStr lang)
    /\ (forall key, key <> "INNERTUBE_CONTEXT" ->
          py_getitem ytcfg' key = py_getitem ytcfg key)
    /\ set_language ytcfg None = Ok ytcfg
    /\ set_language ytcfg (Some EmptyString) = Ok ytcfg.
Proof.
  intros ytcfg lang ytcfg' Hset Hlang.
  unfold set_language in Hset.
  destruct (String.eqb_spec lang ""); [contradiction|].
  destruct (py_getitem ytcfg "INNERTUBE_CONTEXT") as [context|] eqn:Hc;
    [|discriminate].
  cbn [rbind] in Hset.
  destruct (py_getitem context "client") as [client|] eqn:Hcl;
    [|discriminate].
  cbn [rbind] in Hset.
  destruct (py_getitem_ok_dict _ _ Hc) as [yitems ->].
  destruct (py_getitem_ok_dict _ _ Hcl) as [citems ->].
  destruct client as [| | | | |litems]; try discriminate.
  simpl in Hset. inversion Hset; subst ytcfg'. clear Hset.
  split; [|split; [|split; reflexivity]].
  - simpl. rewrite dict_get_set_same. simpl.
    rewrite dict_get_set_same. simpl.
    rewrite dict_get_set_same. reflexivity.
  - intros key Hkey. simpl.
    rewrite dict_get_set_other by exact Hkey. reflexivity.
Qed.

Lemma set_language_sets_locale_witness :
  (context <- py_getitem
                (JDict [("INNERTUBE_API_KEY", JStr "key");
                        ("INNERTUBE_CONTEXT",
                         JDict [("client", JDict [("hl", JStr "de")])])])
                "INNERTUBE_CONTEXT" ;;
   client <- py_getitem context "client" ;;
   py_getitem client "hl")%res = Ok (JStr "de").
Proof.
  apply (@set_language_sets_locale sample_ytcfg "de"
           (JDict [("INNERTUBE_API_KEY", JStr "key");
                   ("INNERTUBE_CONTEXT",
                    JDict [("client", JDict [("hl", JStr "de")])])])).
  - reflexivity.
  - discriminate.
Defined.

Lemma fold_dict_set_last pairs : forall d name,
  dict_get (fold_left (fun d nv => dict_set d (fst nv) (JStr (snd nv)))
                      pairs d) name
  = match last_value pairs name with
    | Some v => Some (JStr v)
    | None => dict_get d name
    end.
Proof.
  induction pairs as [|[n v] pairs IH]; intros d name; simpl.
  - reflexivity.
  - rewrite IH. destruct (last_value pairs name); [reflexivity|].
    destruct (String.eqb_spec n name) as [->|Hn].
    + apply dict_get_set_same.
    + apply dict_get_set_other. congruence.
Qed.

(** X7: the form posted to the consent endpoint always carries
    [continue = youtube_url], [set_eom = False], [set_ytc = True] and
    [set_apyt = True], even when the consent page has hidden inputs of
    those names; every other hidden input is passed on with the last
    value the page gives it. *)
Theorem consent_params_fields :
  forall re_findall html youtube_url,
    let params := consent_params re_findall html youtube_url in
    dict_get params "continue" = Some (JStr youtube_url)
    /\ dict_get params "set_eom" = Some (JBool false)
    /\ dict_get params "set_ytc" = Some (JBool true)
    /\ dict_get params "set_apyt" = Some (JBool true)
    /\ forall name,
         name <> "continue" -> name <> "set_eom" ->
         name <> "set_ytc" -> name <> "set_apyt" ->
         dict_get params name
         = option_map JStr
             (last_value (re_findall YT_HIDDEN_INPUT_RE html) name).
Proof.
  intros re_findall html youtube_url params. subst params.
  unfold consent_params. repeat split.
  - rewrite !dict_get_set_other by discriminate. apply dict_get_set_same.
  - rewrite !dict_get_set_other by discriminate. apply dict_get_set_same.
  - rewrite !dict_get_set_other by discriminate. apply dict_get_set_same.
  - apply dict_get_set_same.
  - intros name H1 H2 H3 H4.
    rewrite !dict_get_set_other by assumption.
    rewrite fold_dict_set_last.
    destruct (last_value _ name); reflexivity.
Qed.

Lemma consent_params_fields_witness :
  dict_get (consent_params
              (fun _ _ => [("gl", "DE"); ("continue", "evil"); ("gl", "NL")])
              "form" "https://www.youtube.com/watch?v=x") "gl"
  = option_map JStr
      (last_value [("gl", "DE"); ("continue", "evil"); ("gl", "NL")] "gl").
Proof.
  apply (@consent_params_fields
           (fun _ _ => [("gl", "DE"); ("continue", "evil"); ("gl", "NL")])
           "form" "https://www.youtube.com/watch?v=x");
    discriminate.
Defined.

Lemma list_index_in_range {A} (l : list A) (i : Z) :
  0 <= i < Z.of_nat (List.length l) ->
  list_index l i = nth_error l (Z.to_nat i)
  /\ exists x, nth_error l (Z.to_nat i) = Some x.
Proof.
  intros [Hlo Hhi]. unfold list_index.
  destruct (Z.leb_spec 0 i); [|lia].
  destruct (Z.ltb_spec i (Z.of_nat (List.length l))); [|lia].
  split; [reflexivity|].
  destruct (nth_error l (Z.to_nat i)) as [x|] eqn:E.
  - exists x. reflexivity.
  - apply nth_error_None in E. lia.
Qed.

(** X8: when the page itself carries a sort menu and the index is within
    it, sort resolution makes no network request and seeds the work stack
    with the [serviceEndpoint] of exactly that menu entry (a [KeyError] if
    the entry has none). *)
Theorem valid_sort_index_selects_entry :
  forall session_post data ytcfg sort_by st items,
    sub_menu_items data = Ok (JList items) ->
    0 <= sort_by < Z.of_nat (List.length items) ->
    exists item,
      nth_error items (Z.to_nat sort_by) = Some item
      /\ resolve_sort session_post data ytcfg sort_by st
         = ((endpoint <- py_getitem item "serviceEndpoint" ;;
             Ok [endpoint])%res, st).
Proof.
  intros session_post data ytcfg sort_by st items Hmenu Hrange.
  destruct (list_index_in_range items Hrange) as [Hidx [item Hitem]].
  exists item. split; [exact Hitem|].
  unfold resolve_sort, discover_sort_menu, bind, lift. rewrite Hmenu.
  destruct items as [|x items]; [simpl in Hrange; lia|].
  cbn [py_truthy negb]. unfold ret, select_sort.
  cbn [py_truthy negb py_len rbind].
  destruct (Z.leb_spec (Z.of_nat (List.length (x :: items))) sort_by);
    [lia|].
  unfold py_index. rewrite Hidx, Hitem. reflexivity.
Qed.

Lemma valid_sort_index_selects_entry_witness :
  exists item,
    nth_error sample_menu 1 = Some item
    /\ resolve_sort refusing sample_page_data sample_ytcfg SORT_BY_RECENT []
       = ((endpoint <- py_getitem item "serviceEndpoint" ;;
           Ok [endpoint])%res, []).
Proof.
  apply (@valid_sort_index_selects_entry
           refusing sample_page_data sample_ytcfg SORT_BY_RECENT []
           sample_menu).
  - vm_compute. reflexivity.
  - simpl. unfold SORT_BY_RECENT. lia.
Defined.

(** X9: sort resolution never hands the crawl an empty or a multiple
    seed: when it succeeds the work stack holds exactly one endpoint. *)
Theorem resolve_sort_single_seed :
  forall session_post data ytcfg sort_by st continuations,
    fst (resolve_sort session_post data ytcfg sort_by st) = Ok continuations ->
    exists endpoint, continuations = [endpoint].
Proof.
  intros session_post data ytcfg sort_by st continuations.
  unfold resolve_sort, bind.
  destruct (discover_sort_menu session_post data ytcfg st) as [[menu|e] st'];
    [|discriminate].
  unfold lift, select_sort. simpl.
  destruct (negb (py_truthy menu)); [discriminate|].
  destruct (py_len menu) as [n|]; [|discriminate]. cbn [rbind].
  destruct (n <=? sort_by); [discriminate|].
  destruct (py_index menu sort_by) as [item|]; [|discriminate]. cbn [rbind].
  destruct (py_getitem item "serviceEndpoint") as [endpoint|];
    [|discriminate].
  cbn [rbind]. intros H. inversion H. exists endpoint. reflexivity.
Qed.

Lemma resolve_sort_single_seed_witness :
  exists endpoint, [sample_endpoint "popular"] = [endpoint].
Proof.
  apply (@resolve_sort_single_seed
           refusing sample_page_data sample_ytcfg SORT_BY_POPULAR []
           [sample_endpoint "popular"]).
  vm_compute. reflexivity.
Defined.

(* ===================================================================== *)
(** ** The crawl loop: how it ends and what a batch does *)
(* ===================================================================== *)

(** A response in which the platform reports an error, beside a comment. *)
Definition error_response : json :=
  JDict [("externalErrorMessage", JStr "Region locked");
         ("frameworkUpdates",
          JList [mutation "engagementToolbarStateEntityPayload"
                   sample_toolbar_state;
                 mutation "commentEntityPayload"
                   (sample_comment "abc" "1 day ago" "state-1")])].

(** X10: a 403 or 413 answer to the token just popped ends the whole
    crawl quietly: the loop breaks with no exception, no sleep and no
    retry, and the tokens left on the stack are never requested. *)
Theorem forbidden_response_ends_crawl :
  forall session_post dateparser_parse fuel ytcfg sleep stack rest token st
         url data key code body,
    py_pop stack = Some (rest, token) ->
    endpoint_url token = Ok url ->
    request_data token ytcfg = Ok data ->
    py_getitem ytcfg "INNERTUBE_API_KEY" = Ok key ->
    session_post st url key data (60 # 1) = Responded code body ->
    code = 403 \/ code = 413 ->
    crawl session_post dateparser_parse (S fuel) ytcfg sleep stack st
    = (Ok NoResponse, st ++ [EvAjaxPost url key data]).
Proof.
  intros session_post parse fuel ytcfg sleep stack rest token st
         url data key code body Hpop Hurl Hdata Hkey Hresp Hcode.
  cbn [crawl]. rewrite Hpop.
  unfold bind at 1. unfold ajax_request_default, ajax_request.
  unfold bind at 1. unfold lift at 1. rewrite Hurl.
  unfold bind at 1. unfold lift at 1. rewrite Hdata.
  change (Z.to_nat 5) with 5%nat. cbn [ajax_attempts].
  unfold bind at 1. unfold lift at 1. rewrite Hkey.
  unfold bind at 1. unfold post. rewrite Hresp.
  destruct Hcode as [-> | ->]; reflexivity.
Qed.

Lemma forbidden_response_ends_crawl_witness :
  crawl (fun _ _ _ _ _ => Responded 413 (Err JSONDecodeError)) toy_parse 3
        sample_ytcfg (1 # 10)
        [sample_endpoint "older"; sample_endpoint "t"] []
  = (Ok NoResponse,
     [] ++ [EvAjaxPost sample_url (JStr "key") (sample_data "t")]).
Proof.
  apply (@forbidden_response_ends_crawl
           (fun _ _ _ _ _ => Responded 413 (Err JSONDecodeError)) toy_parse
           2%nat sample_ytcfg (1 # 10)
           [sample_endpoint "older"; sample_endpoint "t"]
           [sample_endpoint "older"] (sample_endpoint "t") []
           sample_url (sample_data "t") (JStr "key") 413
           (Err JSONDecodeError)).
  - reflexivity.
  - reflexivity.
  - reflexivity.
  - reflexivity.
  - reflexivity.
  - right. reflexivity.
Defined.

(** X11: a response (a mapping) with a truthy top-level
    [externalErrorMessage] makes the crawl raise [YouTubeApiError] with
    that message straight after the request: nothing of the batch is
    yielded, even if it carries comments, and there is no sleep. *)
Theorem external_error_raises_api_error :
  forall session_post dateparser_parse fuel ytcfg sleep stack rest token
         st st' items error,
    py_pop stack = Some (rest, token) ->
    ajax_request_default session_post token ytcfg st
    = (Ok (JDict items), st') ->
    dict_get items "externalErrorMessage" = Some error ->
    py_truthy error = true ->
    crawl session_post dateparser_parse (S fuel) ytcfg sleep stack st
    = (Err (YouTubeApiError error), st').
Proof.
  intros session_post parse fuel ytcfg sleep stack rest token st st' items
         error Hpop Hajax Hget Htruthy.
  cbn [crawl]. rewrite Hpop. unfold bind at 1. rewrite Hajax.
  assert (Hresp : py_truthy (JDict items) = true).
  { destruct items; [discriminate|reflexivity]. }
  rewrite Hresp. cbn [negb].
  unfold bind at 1. unfold process_response.
  assert (Hfirst : py_next (search_dict (JDict items) "externalErrorMessage")
                           JNull = error).
  { rewrite search_dict_rec, search_rec_dict.
    destruct (dict_get_yields _ _ Hget) as [others ->]. reflexivity. }
  rewrite Hfirst, Htruthy. reflexivity.
Qed.

Lemma external_error_raises_api_error_witness :
  crawl (serves error_response) toy_parse 3 sample_ytcfg (1 # 10)
        [sample_endpoint "t"] []
  = (Err (YouTubeApiError (JStr "Region locked")),
     [EvAjaxPost sample_url (JStr "key") (sample_data "t")]).
Proof.
  apply (@external_error_raises_api_error
           (serves error_response) toy_parse 2%nat sample_ytcfg (1 # 10)
           [sample_endpoint "t"] [] (sample_endpoint "t") []
           [EvAjaxPost sample_url (JStr "key") (sample_data "t")]
           [("externalErrorMessage", JStr "Region locked");
            ("frameworkUpdates",
             JList [mutation "engagementToolbarStateEntityPayload"
                      sample_toolbar_state;
                    mutation "commentEntityPayload"
                      (sample_comment "abc" "1 day ago" "state-1")])]
           (JStr "Region locked")).
  - reflexivity.
  - vm_compute. reflexivity.
  - reflexivity.
  - reflexivity.
Defined.

Lemma discover_item_keeps action item base stack stack' :
  (exists front back, stack = front ++ base ++ back) ->
  discover_item action item stack = Ok stack' ->
  exists front back, stack' = front ++ base ++ back.
Proof.
  intros [front [back ->]]. unfold discover_item.
  destruct (py_getitem action "targetId") as [target|]; [|discriminate].
  cbn [rbind]. cbv zeta.
  remember (if existsb (fun s => json_is_str s target) COMMENT_SECTIONS
            then search_dict item "continuationEndpoint"
                 ++ front ++ base ++ back
            else front ++ base ++ back) as stack1 eqn:Hstack1.
  assert (H1 : exists front1, stack1 = front1 ++ base ++ back).
  { subst stack1. destruct (existsb _ COMMENT_SECTIONS).
    - exists (search_dict item "continuationEndpoint" ++ front).
      rewrite <- app_assoc. reflexivity.
    - exists front. reflexivity. }
  clear Hstack1. destruct H1 as [front1 ->].
  destruct (py_startswith target "comment-replies-item") as [starts|];
    [|discriminate]. cbn [rbind].
  destruct (if starts then py_in "continuationItemRenderer" item else Ok false)
    as [[|]|]; cbn [rbind]; try discriminate.
  - destruct (search_dict item "buttonRenderer") as [|button ?];
      [discriminate|].
    destruct (py_getitem button "command") as [command|]; [|discriminate].
    cbn [rbind]. intros H. inversion H; subst.
    exists front1, (back ++ [command]). rewrite <- !app_assoc. reflexivity.
  - intros H. inversion H; subst. exists front1, back. reflexivity.
Qed.

(** X12: scanning a response never drops or reorders the tokens already
    on the work stack: the new stack is the old one with tokens added in
    front of it and behind it. *)
Theorem discover_keeps_existing_tokens :
  forall response continuations continuations',
    discover response continuations = Ok continuations' ->
    exists front back, continuations' = front ++ continuations ++ back.
Proof.
  intros response continuations continuations'. unfold discover.
  apply rfold_invariant
    with (P := fun acc => exists front back,
                 acc = front ++ continuations ++ back).
  - intros acc action acc' Hacc. unfold discover_action.
    destruct (py_get action "continuationItems" (JList [])) as [items|];
      [|discriminate]. cbn [rbind].
    destruct (py_iter items) as [its|]; [|discriminate]. cbn [rbind].
    apply rfold_invariant
      with (P := fun acc => exists front back,
                   acc = front ++ continuations ++ back); [|exact Hacc].
    intros acc1 item acc2. apply discover_item_keeps.
  - exists [], []. rewrite app_nil_r. reflexivity.
Qed.

Lemma discover_keeps_existing_tokens_witness :
  exists front back,
    [sample_endpoint "C"; sample_endpoint "old"; sample_endpoint "R"]
    = front ++ [sample_endpoint "old"] ++ back.
Proof.
  apply (@discover_keeps_existing_tokens both_kinds_response
           [sample_endpoint "old"]
           [sample_endpoint "C"; sample_endpoint "old"; sample_endpoint "R"]).
  vm_compute. reflexivity.
Defined.

(** X13: a batch makes no network request of its own; it adds to the log
    the yields of its records and then, only if it completes, exactly one
    sleep of the per-batch duration.  A batch that raises does not sleep. *)
Theorem batch_sleeps_once_when_complete :
  forall dateparser_parse response continuations sleep st,
  exists records,
    match fst (process_response dateparser_parse response
                                continuations sleep st) with
    | Ok _ =>
        snd (process_response dateparser_parse response
                              continuations sleep st)
        = st ++ map EvYield records ++ [EvSleep sleep]
    | Err _ =>
        snd (process_response dateparser_parse response
                              continuations sleep st)
        = st ++ map EvYield records
    end.
Proof.
  intros parse response continuations sleep st.
  destruct (process_response parse response continuations sleep st)
    as [out st'] eqn:Hrun.
  cbn [fst snd]. unfold process_response in Hrun.
  destruct (py_truthy _).
  { inversion Hrun; subst. exists []. simpl. rewrite app_nil_r.
    reflexivity. }
  unfold bind, lift in Hrun.
  destruct (discover response continuations) as [conts|e].
  2:{ inversion Hrun; subst. exists []. simpl. rewrite app_nil_r.
      reflexivity. }
  destruct (build_payments response) as [payments|e].
  2:{ inversion Hrun; subst. exists []. simpl. rewrite app_nil_r.
      reflexivity. }
  destruct (build_toolbar_states response) as [toolbar_states|e].
  2:{ inversion Hrun; subst. exists []. simpl. rewrite app_nil_r.
      reflexivity. }
  destruct (emit_comments_trace parse payments toolbar_states
              (rev (search_dict response "commentEntityPayload")) st)
    as [records [Hlog _]].
  exists records.
  destruct (emit_comments parse payments toolbar_states
              (rev (search_dict response "commentEntityPayload")) st)
    as [[[]|e] st1]; simpl in Hlog; subst st1;
    unfold emit, ret in Hrun; inversion Hrun; subst; clear Hrun.
  - rewrite <- app_assoc. reflexivity.
  - reflexivity.
Qed.

(* ===================================================================== *)
(** ** Comment records: the computed fields *)
(* ===================================================================== *)

(** What a successfully built record says about its payload. *)
Lemma make_record_ok dateparser_parse payments toolbar_states comment r :
  make_record dateparser_parse payments toolbar_states comment = Ok r ->
  exists properties toolbar likes has_paid,
    py_getitem comment "properties" = Ok properties
    /\ py_getitem properties "commentId" = Ok (cid r)
    /\ py_getitem properties "publishedTime" = Ok (time r)
    /\ py_getitem comment "toolbar" = Ok toolbar
    /\ py_getitem toolbar "likeCountNotliked" = Ok (JStr likes)
    /\ votes r = (if String.eqb (str_strip likes) "" then "0"
                  else str_strip likes)
    /\ py_in "." (cid r) = Ok (reply r)
    /\ time_parsed r = match parse_time dateparser_parse (time r) with
                       | Ok t => Some t
                       | Err _ => None
                       end
    /\ table_mem payments (cid r) = Ok has_paid
    /\ paid r = table_get payments (cid r).
Proof.
  unfold make_record.
  destruct (py_getitem comment "properties") as [properties|] eqn:Hprops;
    [|discriminate]. cbn [rbind].
  destruct (py_getitem properties "commentId") as [id|] eqn:Hid;
    [|discriminate].
  cbn [rbind].
  destruct (py_getitem comment "author") as [auth|]; [|discriminate].
  cbn [rbind].
  destruct (py_getitem comment "toolbar") as [toolbar|] eqn:Htoolbar;
    [|discriminate].
  cbn [rbind].
  destruct (py_getitem properties "toolbarStateKey"); [|discriminate].
  cbn [rbind].
  destruct (table_lookup toolbar_states _); [|discriminate]. cbn [rbind].
  destruct (py_getitem properties "content"); [|discriminate]. cbn [rbind].
  destruct (py_getitem _ "content"); [|discriminate]. cbn [rbind].
  destruct (py_getitem properties "publishedTime") as [tm|] eqn:Htm;
    [|discriminate].
  cbn [rbind].
  destruct (py_getitem auth "displayName"); [|discriminate]. cbn [rbind].
  destruct (py_getitem auth "channelId"); [|discriminate]. cbn [rbind].
  destruct (py_getitem toolbar "likeCountNotliked") as [lk|] eqn:Hlk;
    [|discriminate]. cbn [rbind].
  destruct lk as [| | |likes| |]; try discriminate. cbn [py_strip rbind].
  destruct (py_getitem toolbar "replyCount"); [|discriminate]. cbn [rbind].
  destruct (py_getitem auth "avatarThumbnailUrl"); [|discriminate].
  cbn [rbind].
  destruct (py_get _ "heartState" _); [|discriminate]. cbn [rbind].
  destruct (py_in "." id) as [is_reply|] eqn:Hin; [|discriminate].
  cbn [rbind].
  destruct (parse_time dateparser_parse tm) as [t|[]] eqn:Htp;
    cbn [rbind]; try discriminate;
    unfold table_mem, table_lookup;
    (destruct (py_hashable id) eqn:Hhash; [|discriminate]); cbn [rbind];
    destruct (table_get payments id) as [p|] eqn:Hp; cbn [rbind];
    intros H; inversion H; subst; clear H; simpl;
    exists properties, toolbar, likes; eexists; repeat split; auto;
    try (rewrite Htp; reflexivity);
    unfold table_mem; rewrite Hhash; reflexivity.
Qed.

Lemma lstrip_blank s :
  forallb is_space (list_ascii_of_string s) = true -> lstrip s = EmptyString.
Proof.
  induction s as [|c s IH]; simpl; [reflexivity|].
  destruct (is_space c); [exact IH|discriminate].
Qed.

(** X15: the [votes] field of a record is never the empty string: it is
    the like count without surrounding whitespace, and ["0"] when the like
    count is empty or all whitespace. *)
Theorem votes_never_empty :
  forall dateparser_parse payments toolbar_states comment r,
    make_record dateparser_parse payments toolbar_states comment = Ok r ->
    votes r <> EmptyString
    /\ exists toolbar likes,
         py_getitem comment "toolbar" = Ok toolbar
         /\ py_getitem toolbar "likeCountNotliked" = Ok (JStr likes)
         /\ (forallb is_space (list_ascii_of_string likes) = true ->
             votes r = "0")
         /\ (str_strip likes <> EmptyString -> votes r = str_strip likes).
Proof.
  intros parse payments toolbar_states comment r Hr.
  destruct (make_record_ok _ _ _ _ Hr)
    as [properties [toolbar [likes [has [_ [_ [_ [Ht [Hl [Hv _]]]]]]]]]].
  split.
  - rewrite Hv. destruct (String.eqb_spec (str_strip likes) "");
      [discriminate|assumption].
  - exists toolbar, likes. repeat split; auto.
    + intros Hblank. rewrite Hv. unfold str_strip.
      rewrite (lstrip_blank _ Hblank). reflexivity.
    + intros Hne. rewrite Hv.
      destruct (String.eqb_spec (str_strip likes) ""); [contradiction|].
      reflexivity.
Qed.

Lemma votes_never_empty_witness :
  votes (sample_record "abc" "1 day ago" (Some (1700000000 # 1)))
  <> EmptyString.
Proof.
  apply (@votes_never_empty toy_parse []
           [(JStr "state-1", sample_toolbar_state)]
           (sample_comment "abc" "1 day ago" "state-1")
           (sample_record "abc" "1 day ago" (Some (1700000000 # 1)))).
  vm_compute. reflexivity.
Defined.

Lemma is_substring_char c s :
  is_substring (String c EmptyString) s
  = existsb (Ascii.eqb c) (list_ascii_of_string s).
Proof.
  unfold is_substring. induction s as [|b s IH]; simpl; [reflexivity|].
  destruct (Ascii.ascii_dec c b) as [->|Hne].
  - rewrite Ascii.eqb_refl. destruct s; reflexivity.
  - destruct (Ascii.eqb_spec c b); [contradiction|]. simpl.
    rewrite <- IH. destruct (index 0 (String c "") s); reflexivity.
Qed.

(** X16: for a record whose id is a string, [reply] is true exactly when
    the id contains a ['.'] character. *)
Theorem reply_iff_dot_in_cid :
  forall dateparser_parse payments toolbar_states comment r id,
    make_record dateparser_parse payments toolbar_states comment = Ok r ->
    cid r = JStr id ->
    (reply r = true <-> In "."%char (list_ascii_of_string id)).
Proof.
  intros parse payments toolbar_states comment r id Hr Hid.
  destruct (make_record_ok _ _ _ _ Hr)
    as [properties [toolbar [likes [has [_ [_ [_ [_ [_ [_ [Hin _]]]]]]]]]]].
  rewrite Hid in Hin. simpl in Hin. inversion Hin as [Hrep].
  rewrite is_substring_char. split.
  - intros H. apply existsb_exists in H. destruct H as [c [Hc Heq]].
    apply Ascii.eqb_eq in Heq. subst c. exact Hc.
  - intros H. apply existsb_exists. exists "."%char.
    split; [exact H|apply Ascii.eqb_refl].
Qed.

Lemma reply_iff_dot_in_cid_witness :
  reply (sample_record "abc.def" "yesterday" None) = true
  <-> In "."%char (list_ascii_of_string "abc.def").
Proof.
  apply (@reply_iff_dot_in_cid toy_parse []
           [(JStr "state-1", sample_toolbar_state)]
           (sample_comment "abc.def" "yesterday" "state-1")
           (sample_record "abc.def" "yesterday" None) "abc.def").
  - vm_compute. reflexivity.
  - reflexivity.
Defined.

(** X17: a record carries [paid] exactly when its id is a key of the
    batch's payment table, and then with the text stored under that id. *)
Theorem paid_iff_payment_entry :
  forall dateparser_parse payments toolbar_states comment r,
    make_record dateparser_parse payments toolbar_states comment = Ok r ->
    paid r = table_get payments (cid r).
Proof.
  intros parse payments toolbar_states comment r Hr.
  destruct (make_record_ok _ _ _ _ Hr)
    as [properties [toolbar [likes [has
         [_ [_ [_ [_ [_ [_ [_ [_ [_ Hpaid]]]]]]]]]]]]].
  exact Hpaid.
Qed.

Lemma paid_iff_payment_entry_witness :
  paid (sample_record "abc" "1 day ago" (Some (1700000000 # 1)))
  = table_get [(JStr "other", JStr "$5.00")]
              (cid (sample_record "abc" "1 day ago"
                      (Some (1700000000 # 1)))).
Proof.
  apply (@paid_iff_payment_entry toy_parse [(JStr "other", JStr "$5.00")]
           [(JStr "state-1", sample_toolbar_state)]
           (sample_comment "abc" "1 day ago" "state-1")).
  vm_compute. reflexivity.
Defined.

Lemma str_split_head_stops sep s t :
  existsb (Ascii.eqb sep) (list_ascii_of_string s) = false ->
  str_split_head sep (s ++ String sep t) = s
  /\ str_split_head sep s = s.
Proof.
  induction s as [|c s IH]; simpl.
  - rewrite Ascii.eqb_refl. auto.
  - rewrite Ascii.eqb_sym.
    destruct (Ascii.eqb c sep); simpl; [discriminate|].
    intros H. destruct (IH H) as [-> ->]. auto.
Qed.

(** X18: whatever follows the first ['('] of the published-time string
    (an "(edited)" mark, say) plays no part in the parsed time: the
    string is parsed as if it ended before the parenthesis. *)
Theorem parenthetical_ignored_in_time :
  forall dateparser_parse s t,
    existsb (Ascii.eqb "("%char) (list_ascii_of_string s) = false ->
    parse_time dateparser_parse (JStr (s ++ String "("%char t))
    = parse_time dateparser_parse (JStr s).
Proof.
  intros parse s t Hs. unfold parse_time.
  destruct (str_split_head_stops "("%char s t Hs) as [-> ->].
  reflexivity.
Qed.

Lemma parenthetical_ignored_in_time_witness :
  parse_time toy_parse (JStr "1 day ago (edited)")
  = parse_time toy_parse (JStr "1 day ago ").
Proof.
  apply (@parenthetical_ignored_in_time toy_parse "1 day ago " "edited)").
  reflexivity.
Defined.

(* ===================================================================== *)
(** ** The tables of a batch *)
(* ===================================================================== *)

(** A batch with a paid comment: the chip is filed under a surface key,
    and a view model ties that key to the comment id. *)
Definition paid_batch : json :=
  JList [mutation "commentSurfaceEntityPayload"
           (JDict [("key", JStr "surface-1");
                   ("pdgCommentChip",
                    JDict [("chipText", JDict [("simpleText", JStr "$5.00")])])]);
         mutation "commentSurfaceEntityPayload"
           (JDict [("key", JStr "surface-2");
                   ("pdgCommentChip",
                    JDict [("chipText", JDict [("simpleText", JStr "$1.00")])])]);
         JDict [("commentViewModel",
                 JDict [("commentViewModel",
                         JDict [("commentSurfaceKey", JStr "surface-1");
                                ("commentId", JStr "abc")])])]].

Lemma build_toolbar_fold payloads : forall acc toolbar_states,
  rfold (fun states payload =>
           (key <- py_getitem payload "key" ;;
            table_store states key payload)%res) payloads acc
  = Ok toolbar_states ->
  (forall k p, table_get acc k = Some p ->
     exists k', py_getitem p "key" = Ok k' /\ key_eqb k' k = true) ->
  (forall k p, table_get toolbar_states k = Some p ->
     exists k', py_getitem p "key" = Ok k' /\ key_eqb k' k = true)
  /\ (forall k, table_get acc k <> None -> table_get toolbar_states k <> None)
  /\ (forall payload k,
        In payload payloads -> py_getitem payload "key" = Ok k ->
        py_hashable k = true /\ table_get toolbar_states k <> None).
Proof.
  induction payloads as [|payload payloads IH]; intros acc tb Hrun Hacc.
  - inversion Hrun; subst. split; [exact Hacc|]. split; [auto|].
    intros payload k [].
  - simpl in Hrun.
    destruct (py_getitem payload "key") as [key|] eqn:Hkey; [|discriminate].
    cbn [rbind] in Hrun. unfold table_store in Hrun.
    destruct (py_hashable key) eqn:Hhash; [|discriminate].
    cbn [rbind] in Hrun.
    destruct (IH _ _ Hrun) as [Hvals [Hmono Hin]].
    { intros k p. rewrite table_get_set.
      destruct (key_eqb key k) eqn:Hk.
      - intros H. inversion H; subst. exists key. auto.
      - apply Hacc. }
    split; [exact Hvals|]. split.
    + intros k Hk. apply Hmono. rewrite table_get_set.
      destruct (key_eqb key k); [discriminate|exact Hk].
    + intros payload' k [<-|Hp] Hk.
      * rewrite Hkey in Hk. inversion Hk; subst k. split; [exact Hhash|].
        apply Hmono. rewrite table_get_set, (key_eqb_refl _ Hhash).
        discriminate.
      * eapply Hin; eassumption.
Qed.

(** X19: once the toolbar table of a batch is built, the key of every
    toolbar payload of the batch is in it: a comment that names such a key
    gets a toolbar state, and that state is a payload filed under (a key
    equal to) the one asked for. *)
Theorem toolbar_lookup_finds_batch_keys :
  forall response toolbar_states payload key,
    build_toolbar_states response = Ok toolbar_states ->
    In payload (search_dict response "engagementToolbarStateEntityPayload") ->
    py_getitem payload "key" = Ok key ->
    exists state key',
      table_lookup toolbar_states key = Ok state
      /\ py_getitem state "key" = Ok key'
      /\ key_eqb key' key = true.
Proof.
  intros response tb payload key Hbuild Hin Hkey.
  unfold build_toolbar_states in Hbuild.
  destruct (build_toolbar_fold _ _ Hbuild) as [Hvals [_ Hfound]].
  { intros k p H. discriminate. }
  destruct (Hfound _ _ Hin Hkey) as [Hhash Hsome].
  unfold table_lookup. rewrite Hhash.
  destruct (table_get tb key) as [state|] eqn:Hget; [|congruence].
  destruct (Hvals _ _ Hget) as [key' [Hk' Heq]].
  exists state, key'. auto.
Qed.

Lemma toolbar_lookup_finds_batch_keys_witness :
  exists state key',
    table_lookup [(JStr "state-1", sample_toolbar_state)] (JStr "state-1")
    = Ok state
    /\ py_getitem state "key" = Ok key'
    /\ key_eqb key' (JStr "state-1") = true.
Proof.
  apply (@toolbar_lookup_finds_batch_keys batch_two_comments
           [(JStr "state-1", sample_toolbar_state)] sample_toolbar_state
           (JStr "state-1")).
  - vm_compute. reflexivity.
  - vm_compute. left. reflexivity.
  - reflexivity.
Defined.

(** X20: the payment table of a batch is the join of its chips with its
    view models through the surface key.  (1) Every entry comes from a
    chip and a view model of the batch that carry the SAME surface key:
    its value is the text of the chip and its key equals the comment id
    of the view model.  (2) Every chip whose surface key a view model
    names is in the table, under that view model's comment id; the entry
    holds the text of this chip when no other named chip belongs to the
    same comment id.  (3) Chips whose surface key no view model names
    are dropped: a comment id that no named chip belongs to has no
    entry.  (4) The items of the table are what its lookups return. *)
Theorem payments_join_view_models :
  forall response payments,
    build_payments response = Ok payments ->
    (forall id text,
        table_get payments id = Some text ->
        exists key id',
          last_entry (chip_entries response) key = Some text
          /\ last_entry (surface_key_entries response) key = Some id'
          /\ key_eqb id' id = true)
    /\ (forall key text id,
          last_entry (chip_entries response) key = Some text ->
          last_entry (surface_key_entries response) key = Some id ->
          exists text',
            table_get payments id = Some text'
            /\ ((forall key' id',
                    last_entry (chip_entries response) key' <> None ->
                    last_entry (surface_key_entries response) key'
                    = Some id' ->
                    key_eqb id' id = true ->
                    key_eqb key' key = true) ->
                text' = text))
    /\ (forall id,
          (forall key id',
              last_entry (chip_entries response) key <> None ->
              last_entry (surface_key_entries response) key = Some id' ->
              key_eqb id' id = false) ->
          table_get payments id = None)
    /\ (forall id text,
          In (id, text) payments -> table_get payments id = Some text).
Proof.
  intros response payments Hbuild.
  destruct (build_payments_facts _ Hbuild) as [[Hsound Hcomplete] Hwf].
  split; [exact Hsound|]. split; [|split].
  - intros key text id Hchip Hname.
    destruct (table_get payments id) as [text'|] eqn:Hget.
    2:{ destruct (Hcomplete _ _ _ Hchip Hname Hget). }
    exists text'. split; [reflexivity|]. intros Hone.
    destruct (Hsound _ _ Hget) as [key' [id' [Hchip' [Hname' Hid]]]].
    assert (Hkey : key_eqb key' key = true).
    { apply (Hone key' id'); [congruence|exact Hname'|exact Hid]. }
    rewrite (last_entry_congr _ _ _ Hkey) in Hchip'. congruence.
  - intros id Hnone.
    destruct (table_get payments id) as [text|] eqn:Hget; [|reflexivity].
    destruct (Hsound _ _ Hget) as [key [id' [Hchip [Hname Hid]]]].
    rewrite (Hnone key id') in Hid; [discriminate|congruence|exact Hname].
  - intros id text Hin. exact (proj2 (table_wf_in _ _ _ Hwf Hin)).
Qed.

Lemma payments_join_view_models_witness :
  build_payments paid_batch = Ok [(JStr "abc", JStr "$5.00")]
  /\ exists key id',
       last_entry (chip_entries paid_batch) key = Some (JStr "$5.00")
       /\ last_entry (surface_key_entries paid_batch) key = Some id'
       /\ key_eqb id' (JStr "abc") = true.
Proof.
  assert (Hbuild : build_payments paid_batch
                   = Ok [(JStr "abc", JStr "$5.00")])
    by (vm_compute; reflexivity).
  split; [exact Hbuild|].
  destruct (@payments_join_view_models
              paid_batch [(JStr "abc", JStr "$5.00")] Hbuild)
    as [Hsound _].
  apply (Hsound (JStr "abc") (JStr "$5.00")). reflexivity.
Defined.

(** The batch of the example: the chip under ["surface-2"], which no view
    model names, is dropped; the one under ["surface-1"] is filed under
    the comment id ["abc"]. *)
Example paid_batch_join :
  chip_entries paid_batch
  = [(JStr "surface-2", JStr "$1.00"); (JStr "surface-1", JStr "$5.00")]
  /\ surface_key_entries paid_batch = [(JStr "surface-1", JStr "abc")]
  /\ build_payments paid_batch = Ok [(JStr "abc", JStr "$5.00")].
Proof.
  repeat split; vm_compute; reflexivity.
Qed.

(* ===================================================================== *)
(** ** formatters.py and the download loop of cli.main *)
(* ===================================================================== *)

(** constants.JSON_INDENT *)
Definition JSON_INDENT : Z := 4.

(** A Python [str] as the formatter handles it: the sequence of its
    Unicode code points.  [json.dumps(..., ensure_ascii=False)] passes the
    characters of a comment through as they are, so the text is not
    confined to an 8-bit range. *)
Definition unicode : Type := list N.

(** A literal of the source (ASCII): one code point per character. *)
Definition lit (s : string) : unicode :=
  map N_of_ascii (list_ascii_of_string s).

Definition LF : N := 10.
Definition CR : N := 13.
Definition SPACE : N := 32.
Definition QUOTE : N := 34.

(** The characters at which [str.splitlines] ends a line: LF, VT, FF, CR,
    FS, GS, RS, NEL (U+0085), LINE SEPARATOR (U+2028) and PARAGRAPH
    SEPARATOR (U+2029). *)
Definition is_line_break (c : N) : bool :=
  ((c =? 10) || (c =? 11) || (c =? 12) || (c =? 13)
   || (c =? 28) || (c =? 29) || (c =? 30) || (c =? 133)
   || (c =? 8232) || (c =? 8233))%N.

(** [s.splitlines(True)]: the lines of [s] with their line ends kept; CR
    followed by LF is one line end. *)
Fixpoint splitlines (s : unicode) : list unicode :=
  match s with
  | [] => []
  | c :: s' =>
      if (c =? CR)%N then
        match s' with
        | c' :: s'' =>
            if (c' =? LF)%N
            then [CR; LF] :: splitlines s''
            else [c] :: splitlines s'
        | [] => [[c]]
        end
      else if is_line_break c then [c] :: splitlines s'
      else
        match splitlines s' with
        | [] => [[c]]
        | line :: lines => (c :: line) :: lines
        end
  end.

(** [' ' * n] *)
Definition spaces (n : Z) : unicode := repeat SPACE (Z.to_nat n).

Section Formatters.

(** [json.dumps(comment, ensure_ascii=False, indent=indent)] *)
Variable json_dumps : comment_record -> option Z -> unicode.

Definition format_comment_as_json (comment : comment_record)
    (indent : option Z) : unicode :=
  let comment_str := json_dumps comment indent in
  match indent with
  | None => comment_str
  | Some n =>
      let padding := if n =? 0 then [] else spaces (2 * n) in
      List.concat (map (fun line => padding ++ line) (splitlines comment_str))
  end.

(** A [CommentWriter]; [output_file] is the text written to the file so
    far. *)
Record CommentWriter : Type := mkWriter {
  output_file : unicode;
  pretty : bool;
  count : Z
}.

(** [CommentWriter(output_file, pretty)] on a file holding [content]. *)
Definition CommentWriter_init (content : unicode) (pretty : bool)
  : CommentWriter :=
  {| output_file :=
       if pretty then
         content ++ lit "{" ++ [LF] ++ spaces JSON_INDENT
         ++ [QUOTE] ++ lit "comments" ++ [QUOTE] ++ lit ": [" ++ [LF]
       else content;
     pretty := pretty;
     count := 0 |}.

Definition write_comment (w : CommentWriter) (comment : comment_record)
    (has_more : bool) : CommentWriter :=
  let comment_str :=
    format_comment_as_json comment
      (if pretty w then Some JSON_INDENT else None) in
  let comment_str :=
    if pretty w && has_more then comment_str ++ lit ","
    else comment_str in
  {| output_file := output_file w ++ comment_str ++ [LF];
     pretty := pretty w;
     count := count w + 1 |}.

Definition finalize (w : CommentWriter) : CommentWriter :=
  if pretty w then
    {| output_file :=
         output_file w ++ spaces JSON_INDENT ++ lit "]" ++ [LF] ++ lit "}";
       pretty := pretty w;
       count := count w |}
  else w.

(** How the comment generator ends once its records are used up. *)
Inductive generator_end : Type :=
| Exhausted
| Raised (e : exn).

(** The state of the download: the writer and the counts shown by the
    progress line on standard output. *)
Definition download_state : Type := (CommentWriter * list Z)%type.

Definition limit_set (limit : option Z) : bool :=
  match limit with
  | Some n => negb (n =? 0)
  | None => false
  end.

Definition limit_value (limit : option Z) : Z :=
  match limit with
  | Some n => n
  | None => 0
  end.

(** The [while comment:] loop of [main], entered with [comment] in hand
    and [rest] still to come from the generator. *)
Fixpoint write_from (limit : option Z) (st : download_state)
    (comment : comment_record) (rest : list comment_record)
    (ending : generator_end) : result unit * download_state :=
  let (w, progress) := st in
  let has_more :=
    negb (limit_set limit) || (count w <? limit_value limit - 1) in
  let w := write_comment w comment has_more in
  let progress := progress ++ [count w] in
  if limit_set limit && (limit_value limit <=? count w)
  then (Ok tt, (w, progress))
  else
    match rest with
    | [] =>
        match ending with
        | Exhausted => (Ok tt, (w, progress))
        | Raised e => (Err e, (w, progress))
        end
    | comment' :: rest' => write_from limit (w, progress) comment' rest' ending
    end.

(** Lines 89-112 of [main]: open the writer on the emptied file, copy the
    generator's records, finalize.  An exception of the generator leaves
    through [main]'s handlers, the file as it then is. *)
Definition download (limit : option Z) (pretty : bool)
    (comments : list comment_record) (ending : generator_end)
  : result unit * download_state :=
  let w := CommentWriter_init [] pretty in
  match comments with
  | [] =>
      match ending with
      | Exhausted => (Ok tt, (finalize w, []))
      | Raised e => (Err e, (w, []))
      end
  | comment :: rest =>
      match write_from limit (w, []) comment rest ending with
      | (Ok _, (w', progress)) => (Ok tt, (finalize w', progress))
      | (Err e, st) => (Err e, st)
      end
  end.

(** The exit status [main] returns for the download's outcome. *)
Definition exit_status (outcome : result unit) : Z :=
  match outcome with
  | Ok _ => 0
  | Err _ => 1
  end.

End Formatters.

(** A stand-in for [json.dumps]: the record's id alone, followed by a
    Cyrillic letter (U+0445, whose UTF-8 form holds the byte 133), on
    three lines when indented. *)
Definition toy_dumps (r : comment_record) (indent : option Z) : unicode :=
  let id := match cid r with JStr s => lit s | _ => lit "?" end in
  match indent with
  | None => lit "{" ++ id ++ [1093%N] ++ lit "}"
  | Some _ => lit "{" ++ [LF] ++ id ++ [1093%N] ++ [LF] ++ lit "}"
  end.

(** A text without line ends. *)
Definition break_free (s : unicode) : bool :=
  forallb (fun c => negb (is_line_break c)) s.

(** A line end as [splitlines] takes it. *)
Inductive terminator : unicode -> Prop :=
| term_crlf : terminator [CR; LF]
| term_one : forall c, is_line_break c = true -> terminator [c].

(** A list of lines: each a body without line ends followed by one line
    end, except that the last may lack the line end. *)
Inductive line_list : list unicode -> Prop :=
| ll_nil : line_list []
| ll_last : forall l,
    break_free l = true -> l <> [] -> line_list [l]
| ll_cons : forall body t ls,
    break_free body = true -> terminator t -> line_list ls ->
    line_list ((body ++ t) :: ls).

(** The line ends of Python: a letter outside Latin-1 is none, the
    separators U+2028 and U+2029 are. *)
Example splitlines_unicode :
  splitlines [1093; 97; 8232; 98; CR; LF; 99; 133; 100; 8233]%N
  = [[1093; 97; 8232]; [98; CR; LF]; [99; 133]; [100; 8233]]%N.
Proof. reflexivity. Qed.

Lemma unicode_length_ind (P : unicode -> Prop) :
  (forall s, (forall t, (List.length t < List.length s)%nat -> P t) -> P s) ->
  forall s, P s.
Proof.
  intros H s. remember (List.length s) as n eqn:Hn.
  revert s Hn. induction n as [n IH] using lt_wf_ind.
  intros s Hn. apply H. intros t Ht. apply (IH (List.length t)); lia.
Qed.

Lemma splitlines_ordinary c s :
  is_line_break c = false ->
  splitlines (c :: s)
  = match splitlines s with
    | [] => [[c]]
    | line :: lines => (c :: line) :: lines
    end.
Proof.
  intros Hc. cbn [splitlines].
  destruct (N.eqb_spec c CR) as [->|_]; [discriminate|].
  destruct (is_line_break c); [discriminate|reflexivity].
Qed.

Lemma splitlines_concat s : List.concat (splitlines s) = s.
Proof.
  induction s as [s IH] using unicode_length_ind.
  destruct s as [|c s]; [reflexivity|].
  cbn [splitlines].
  destruct (N.eqb_spec c CR) as [->|Hcr].
  - destruct s as [|c' s]; [reflexivity|].
    destruct (N.eqb_spec c' LF) as [->|_].
    + cbn [List.concat]. rewrite IH by (simpl; lia). reflexivity.
    + cbn [List.concat]. rewrite IH by (simpl; lia). reflexivity.
  - destruct (is_line_break c).
    + cbn [List.concat]. rewrite IH by (simpl; lia). reflexivity.
    + specialize (IH s). destruct (splitlines s) as [|line lines].
      * simpl in IH. rewrite <- IH by (simpl; lia). reflexivity.
      * cbn [List.concat] in *. simpl.
        rewrite IH by (simpl; lia). reflexivity.
Qed.

Lemma break_free_cons c s :
  break_free (c :: s) = negb (is_line_break c) && break_free s.
Proof. reflexivity. Qed.

Lemma splitlines_lines s : line_list (splitlines s).
Proof.
  induction s as [s IH] using unicode_length_ind.
  destruct s as [|c s]; [constructor|].
  cbn [splitlines].
  destruct (N.eqb_spec c CR) as [->|Hcr].
  - destruct s as [|c' s].
    + apply (ll_cons []); [reflexivity| |constructor].
      apply term_one. reflexivity.
    + destruct (N.eqb_spec c' LF) as [->|_].
      * apply (ll_cons []); [reflexivity|constructor|].
        apply IH. simpl. lia.
      * apply (ll_cons []); [reflexivity| |].
        -- apply term_one. reflexivity.
        -- apply IH. simpl. lia.
  - destruct (is_line_break c) eqn:Hc.
    + apply (ll_cons []); [reflexivity| |].
      * apply term_one. exact Hc.
      * apply IH. simpl. lia.
    + specialize (IH s). destruct (splitlines s) as [|line lines].
      * apply ll_last; [|discriminate].
        rewrite break_free_cons, Hc. reflexivity.
      * assert (Hll : line_list (line :: lines)) by (apply IH; simpl; lia).
        inversion Hll as [|l Hbf Hne|body t ls Hbf Ht Hls]; subst.
        -- apply ll_last; [|discriminate].
           rewrite break_free_cons, Hc. exact Hbf.
        -- apply (ll_cons (c :: body)); auto.
           rewrite break_free_cons, Hc. exact Hbf.
Qed.

Lemma splitlines_prefix p : forall s line lines,
  break_free p = true ->
  splitlines s = line :: lines ->
  splitlines (p ++ s) = (p ++ line) :: lines.
Proof.
  induction p as [|c p IH]; intros s line lines Hp Hs.
  - exact Hs.
  - rewrite break_free_cons in Hp.
    apply andb_prop in Hp. destruct Hp as [Hc Hp].
    apply negb_true_iff in Hc.
    change ((c :: p) ++ s) with (c :: (p ++ s)).
    rewrite splitlines_ordinary by exact Hc.
    rewrite (IH _ _ _ Hp Hs). reflexivity.
Qed.

Lemma splitlines_break_free p :
  break_free p = true -> p <> [] -> splitlines p = [p].
Proof.
  induction p as [|c p IH]; intros Hp Hne; [congruence|].
  rewrite break_free_cons in Hp.
  apply andb_prop in Hp. destruct Hp as [Hc Hp].
  apply negb_true_iff in Hc. rewrite splitlines_ordinary by exact Hc.
  destruct p as [|c' p]; [reflexivity|].
  rewrite IH by (auto; discriminate). reflexivity.
Qed.

(** A line end at the head of a text is a line of its own, provided a
    lone CR is not followed by LF. *)
Lemma splitlines_terminator t rest :
  terminator t ->
  (forall rest', rest <> LF :: rest') ->
  splitlines (t ++ rest) = t :: splitlines rest.
Proof.
  intros Ht Hrest. destruct Ht as [|c Hc].
  - reflexivity.
  - cbn [app splitlines].
    destruct (N.eqb_spec c CR) as [->|_].
    + destruct rest as [|c' rest]; [reflexivity|].
      destruct (N.eqb_spec c' LF) as [->|_]; [|reflexivity].
      destruct (Hrest rest eq_refl).
    + rewrite Hc. reflexivity.
Qed.

Lemma break_free_app a b :
  break_free (a ++ b) = break_free a && break_free b.
Proof.
  unfold break_free. apply forallb_app.
Qed.

Lemma padded_lines pad ls :
  break_free pad = true -> pad <> [] ->
  line_list ls ->
  splitlines (List.concat (map (fun line => pad ++ line) ls))
  = map (fun line => pad ++ line) ls.
Proof.
  intros Hpad Hne Hls. induction Hls as [|l Hl Hlne|body t ls Hbody Ht Hls IH].
  - reflexivity.
  - simpl. rewrite app_nil_r. apply splitlines_break_free.
    + rewrite break_free_app, Hpad, Hl. reflexivity.
    + destruct pad; [congruence|discriminate].
  - cbn [map List.concat].
    replace ((pad ++ body ++ t)
             ++ List.concat (map (fun line => pad ++ line) ls))
      with ((pad ++ body)
            ++ (t ++ List.concat (map (fun line => pad ++ line) ls))).
    2:{ rewrite <- !app_assoc. reflexivity. }
    assert (Hpb : break_free (pad ++ body) = true)
      by (rewrite break_free_app, Hpad, Hbody; reflexivity).
    rewrite (@splitlines_prefix (pad ++ body) _ t
               (splitlines (List.concat (map (fun line => pad ++ line) ls)))
               Hpb).
    + rewrite IH, <- app_assoc. reflexivity.
    + apply splitlines_terminator; [exact Ht|].
      intros rest' Hrest. destruct ls as [|l ls']; [discriminate|].
      cbn [map List.concat] in Hrest.
      destruct pad as [|c pad]; [congruence|].
      simpl in Hrest. inversion Hrest; subst c.
      rewrite break_free_cons in Hpad. discriminate.
Qed.

Lemma spaces_break_free n : break_free (spaces n) = true.
Proof.
  unfold spaces, break_free.
  induction (Z.to_nat n) as [|k IH]; simpl; [reflexivity|exact IH].
Qed.

(** [write_comment(c, has_more=True)] for each of [comments] in turn. *)
Definition write_all (json_dumps : comment_record -> option Z -> unicode)
    (w : CommentWriter) (comments : list comment_record) : CommentWriter :=
  fold_left (fun w c => write_comment json_dumps w c true) comments w.

(** The progress counts [first + 1 .. first + n]. *)
Definition counts_from (first : Z) (n : nat) : list Z :=
  map (fun i => first + Z.of_nat i) (seq 1 n).

(** X21: without indentation ([indent] is [None], zero or negative)
    [format_comment_as_json] returns the output of [json.dumps] unchanged:
    splitting into lines and joining again loses nothing. *)
Theorem format_without_indent_is_dumps :
  forall json_dumps comment,
    format_comment_as_json json_dumps comment None = json_dumps comment None
    /\ forall n, n <= 0 ->
         format_comment_as_json json_dumps comment (Some n)
         = json_dumps comment (Some n).
Proof.
  intros json_dumps comment. split; [reflexivity|].
  intros n Hn. unfold format_comment_as_json.
  assert (Hpad : (if n =? 0 then [] else spaces (2 * n)) = []).
  { destruct (n =? 0); [reflexivity|]. unfold spaces.
    replace (Z.to_nat (2 * n)) with 0%nat by lia. reflexivity. }
  rewrite Hpad. cbn [app]. rewrite map_id. apply splitlines_concat.
Qed.

Lemma format_without_indent_is_dumps_witness :
  format_comment_as_json toy_dumps (sample_record "abc" "x" None) (Some (-2))
  = toy_dumps (sample_record "abc" "x" None) (Some (-2)).
Proof.
  apply (proj2 (format_without_indent_is_dumps
                  toy_dumps (sample_record "abc" "x" None))).
  lia.
Defined.

(** X22: with a positive [indent], the lines of the formatted comment are
    the lines of the [json.dumps] output, each preceded by [2 * indent]
    spaces; no line is lost, merged or split by the padding. *)
Theorem format_pads_every_line :
  forall json_dumps comment n,
    0 < n ->
    splitlines (format_comment_as_json json_dumps comment (Some n))
    = map (fun line => spaces (2 * n) ++ line)
          (splitlines (json_dumps comment (Some n))).
Proof.
  intros json_dumps comment n Hn. unfold format_comment_as_json.
  destruct (Z.eqb_spec n 0); [lia|].
  apply padded_lines.
  - apply spaces_break_free.
  - unfold spaces. destruct (Z.to_nat (2 * n)) eqn:E; [lia|discriminate].
  - apply splitlines_lines.
Qed.

Lemma format_pads_every_line_witness :
  splitlines (format_comment_as_json toy_dumps
                (sample_record "abc" "x" None) (Some JSON_INDENT))
  = map (fun line => spaces (2 * JSON_INDENT) ++ line)
        (splitlines (toy_dumps (sample_record "abc" "x" None)
                               (Some JSON_INDENT))).
Proof.
  apply (@format_pads_every_line toy_dumps (sample_record "abc" "x" None)
           JSON_INDENT).
  unfold JSON_INDENT. lia.
Defined.

Lemma write_all_count json_dumps comments : forall w,
  count (write_all json_dumps w comments)
  = count w + Z.of_nat (List.length comments)
  /\ pretty (write_all json_dumps w comments) = pretty w.
Proof.
  induction comments as [|c comments IH]; intros w.
  - simpl. split; [lia|reflexivity].
  - unfold write_all in *. cbn [fold_left].
    destruct (IH (write_comment json_dumps w c true)) as [Hc Hp].
    rewrite Hc, Hp. simpl. split; [lia|reflexivity].
Qed.

Lemma counts_from_cons first n :
  counts_from first (S n) = (first + 1) :: counts_from (first + 1) n.
Proof.
  unfold counts_from. cbn [seq map]. f_equal.
  rewrite <- seq_shift, map_map. apply map_ext. intros i. lia.
Qed.

(** The loop while the limit is out of reach: every record is written
    with [has_more=True], and the generator's end decides the outcome. *)
Lemma write_from_unlimited json_dumps limit ending rest :
  forall w progress comment,
    limit_set limit = false
    \/ count w + Z.of_nat (S (List.length rest)) < limit_value limit ->
    write_from json_dumps limit (w, progress) comment rest ending
    = (match ending with Exhausted => Ok tt | Raised e => Err e end,
       (write_all json_dumps w (comment :: rest),
        progress ++ counts_from (count w) (S (List.length rest)))).
Proof.
  induction rest as [|c' rest IH]; intros w progress comment Hlimit.
  - cbn [write_from].
    assert (Hmore : negb (limit_set limit)
                    || (count w <? limit_value limit - 1) = true).
    { destruct Hlimit as [-> | H]; [reflexivity|].
      apply orb_true_iff. right. apply Z.ltb_lt. simpl in H. lia. }
    rewrite Hmore.
    assert (Hstop : limit_set limit
                    && (limit_value limit
                        <=? count (write_comment json_dumps w comment true))
                    = false).
    { destruct Hlimit as [-> | H]; [reflexivity|].
      apply andb_false_iff. right. apply Z.leb_gt. simpl in *. lia. }
    rewrite Hstop. destruct ending; reflexivity.
  - cbn [write_from].
    assert (Hmore : negb (limit_set limit)
                    || (count w <? limit_value limit - 1) = true).
    { destruct Hlimit as [-> | H]; [reflexivity|].
      apply orb_true_iff. right. apply Z.ltb_lt.
      cbn [List.length] in H. lia. }
    rewrite Hmore.
    assert (Hstop : limit_set limit
                    && (limit_value limit
                        <=? count (write_comment json_dumps w comment true))
                    = false).
    { destruct Hlimit as [-> | H]; [reflexivity|].
      apply andb_false_iff. right. apply Z.leb_gt.
      cbn [List.length] in H. simpl. lia. }
    rewrite Hstop, IH.
    + cbn [List.length].
      rewrite (counts_from_cons (count w) (S (List.length rest))).
      rewrite <- app_assoc. reflexivity.
    + destruct Hlimit as [H|H]; [left; exact H|right].
      cbn [List.length] in H. simpl. lia.
Qed.

(** The loop when the limit falls on [comment_l]: the records before it
    are written with [has_more=True], [comment_l] with [has_more=False],
    and the generator is not asked again. *)
Lemma write_from_limited json_dumps l ending before :
  forall w progress comment rest comment_l after,
    comment :: rest = before ++ comment_l :: after ->
    l = count w + Z.of_nat (List.length before) + 1 ->
    0 <= count w ->
    write_from json_dumps (Some l) (w, progress) comment rest ending
    = (Ok tt,
       (write_comment json_dumps (write_all json_dumps w before)
                      comment_l false,
        progress ++ counts_from (count w) (S (List.length before)))).
Proof.
  induction before as [|b before IH];
    intros w progress comment rest comment_l after Hsplit Hl Hcount.
  - simpl in Hsplit. inversion Hsplit; subst comment rest.
    simpl in Hl. destruct after as [|a after]; cbn [write_from limit_set
      limit_value].
    + destruct (Z.eqb_spec l 0); [lia|]. cbn [negb orb].
      destruct (Z.ltb_spec (count w) (l - 1)); [lia|].
      cbn [andb].
      destruct (Z.leb_spec l (count (write_comment json_dumps w comment_l
                                       false))); [reflexivity|].
      simpl in *. lia.
    + destruct (Z.eqb_spec l 0); [lia|]. cbn [negb orb].
      destruct (Z.ltb_spec (count w) (l - 1)); [lia|].
      cbn [andb].
      destruct (Z.leb_spec l (count (write_comment json_dumps w comment_l
                                       false))); [reflexivity|].
      simpl in *. lia.
  - simpl in Hsplit. inversion Hsplit; subst comment rest.
    cbn [List.length] in Hl.
    destruct before as [|b' before].
    + simpl app. cbn [write_from limit_set limit_value].
      destruct (Z.eqb_spec l 0); [lia|]. cbn [negb orb].
      destruct (Z.ltb_spec (count w) (l - 1)); [|simpl in *; lia].
      cbn [andb].
      destruct (Z.leb_spec l (count (write_comment json_dumps w b true)));
        [simpl in *; lia|].
      rewrite (IH (write_comment json_dumps w b true) _ comment_l after
                  comment_l after eq_refl) by (simpl in *; lia).
      rewrite (counts_from_cons (count w) 1). rewrite <- app_assoc.
      reflexivity.
    + simpl app. cbn [write_from limit_set limit_value].
      destruct (Z.eqb_spec l 0); [lia|]. cbn [negb orb].
      destruct (Z.ltb_spec (count w) (l - 1));
        [|cbn [List.length] in *; lia].
      cbn [andb].
      destruct (Z.leb_spec l (count (write_comment json_dumps w b true)));
        [cbn [List.length] in *; simpl in *; lia|].
      rewrite (IH (write_comment json_dumps w b true) _ b'
                  (before ++ comment_l :: after) comment_l after eq_refl)
        by (cbn [List.length] in *; simpl in *; lia).
      rewrite (counts_from_cons (count w) (S (S (List.length before)))).
      rewrite <- app_assoc. reflexivity.
Qed.

Lemma download_unlimited json_dumps limit pretty comments ending :
  limit_set limit = false
  \/ Z.of_nat (List.length comments) < limit_value limit ->
  download json_dumps limit pretty comments ending
  = (match ending with Exhausted => Ok tt | Raised e => Err e end,
     (match ending with
      | Exhausted =>
          finalize (write_all json_dumps (CommentWriter_init [] pretty)
                              comments)
      | Raised _ =>
          write_all json_dumps (CommentWriter_init [] pretty) comments
      end,
      counts_from 0 (List.length comments))).
Proof.
  intros Hlimit. unfold download. destruct comments as [|c rest].
  - destruct ending; reflexivity.
  - rewrite write_from_unlimited.
    + destruct ending; reflexivity.
    + destruct Hlimit as [H|H]; [left; exact H|right].
      cbn [List.length] in H. simpl count. lia.
Qed.

Lemma download_limited json_dumps l pretty before comment after ending :
  l = Z.of_nat (List.length before) + 1 ->
  download json_dumps (Some l) pretty (before ++ comment :: after) ending
  = (Ok tt,
     (finalize
        (write_comment json_dumps
           (write_all json_dumps (CommentWriter_init [] pretty) before)
           comment false),
      counts_from 0 (S (List.length before)))).
Proof.
  intros Hl. unfold download.
  destruct (before ++ comment :: after) as [|c rest] eqn:Hsplit.
  - destruct before; discriminate.
  - rewrite (@write_from_limited json_dumps l ending before
               (CommentWriter_init [] pretty) [] c rest comment after
               (eq_sym Hsplit)).
    + reflexivity.
    + simpl count. lia.
    + simpl. lia.
Qed.

(** X23: with no limit ([None] or 0), or a limit larger than the number
    of records the generator yields, the download writes every record, in
    order, with [has_more=True], and reports the counts 1..n.  If the
    generator ends normally the writer is finalized and the exit status is
    0; if it raises, the file is left without [finalize] and the exit
    status is 1. *)
Theorem download_writes_every_comment :
  forall json_dumps limit pretty comments ending,
    limit_set limit = false
    \/ Z.of_nat (List.length comments) < limit_value limit ->
    download json_dumps limit pretty comments ending
    = (match ending with Exhausted => Ok tt | Raised e => Err e end,
       (match ending with
        | Exhausted =>
            finalize (write_all json_dumps (CommentWriter_init [] pretty)
                                comments)
        | Raised _ =>
            write_all json_dumps (CommentWriter_init [] pretty) comments
        end,
        counts_from 0 (List.length comments)))
    /\ exit_status (fst (download json_dumps limit pretty comments ending))
       = match ending with Exhausted => 0 | Raised _ => 1 end.
Proof.
  intros json_dumps limit pretty comments ending Hlimit.
  rewrite (@download_unlimited json_dumps limit pretty comments ending
             Hlimit).
  split; [reflexivity|]. destruct ending; reflexivity.
Qed.

Lemma download_writes_every_comment_witness :
  exit_status
    (fst (download toy_dumps (Some 0) true
            [sample_record "a" "x" None; sample_record "b" "x" None]
            (Raised KeyError)))
  = 1.
Proof.
  apply (@download_writes_every_comment toy_dumps (Some 0) true
           [sample_record "a" "x" None; sample_record "b" "x" None]
           (Raised KeyError)).
  left. reflexivity.
Defined.

Lemma finalize_count w : count (finalize w) = count w.
Proof. unfold finalize. destruct (pretty w); reflexivity. Qed.

(** X24: when the generator has at least [limit] records (limit >= 1),
    exactly [limit] of them are written: the first [limit - 1] with
    [has_more=True] and the last with [has_more=False], then the writer
    is finalized.  The generator is not asked for more, so neither its
    further records nor an exception it would raise later matter. *)
Theorem download_stops_at_limit :
  forall json_dumps l pretty before comment after ending,
    l = Z.of_nat (List.length before) + 1 ->
    download json_dumps (Some l) pretty (before ++ comment :: after) ending
    = (Ok tt,
       (finalize
          (write_comment json_dumps
             (write_all json_dumps (CommentWriter_init [] pretty) before)
             comment false),
        counts_from 0 (S (List.length before))))
    /\ count (fst (snd (download json_dumps (Some l) pretty
                          (before ++ comment :: after) ending))) = l.
Proof.
  intros json_dumps l pretty before comment after ending Hl.
  rewrite (@download_limited json_dumps l pretty before comment after ending
             Hl).
  split; [reflexivity|]. cbn [fst snd].
  destruct (write_all_count json_dumps before (CommentWriter_init [] pretty))
    as [Hcount _].
  rewrite finalize_count. simpl count. rewrite Hcount. simpl. lia.
Qed.

Lemma download_stops_at_limit_witness :
  count (fst (snd (download toy_dumps (Some 2) true
                     ([sample_record "a" "x" None]
                        ++ sample_record "b" "x" None
                        :: [sample_record "c" "x" None])
                     (Raised KeyError)))) = 2.
Proof.
  apply (@download_stops_at_limit toy_dumps 2 true
           [sample_record "a" "x" None] (sample_record "b" "x" None)
           [sample_record "c" "x" None] (Raised KeyError)).
  reflexivity.
Defined.

Lemma write_all_lines json_dumps comments : forall w,
  pretty w = false ->
  output_file (write_all json_dumps w comments)
  = output_file w
    ++ List.concat (map (fun c => json_dumps c None ++ [LF]) comments).
Proof.
  induction comments as [|c comments IH]; intros w Hw.
  - simpl. rewrite app_nil_r. reflexivity.
  - unfold write_all in *. cbn [fold_left map List.concat].
    rewrite IH by (simpl; exact Hw).
    unfold write_comment at 1.
    rewrite Hw. cbn [andb output_file format_comment_as_json].
    rewrite <- !app_assoc. reflexivity.
Qed.

(** X25: a writer that is not in pretty mode produces line-delimited
    JSON: the file holds, after what it held before, the [json.dumps]
    output of each comment followed by a newline, in the order written;
    [has_more] plays no part, [finalize] adds nothing, and [count] is the
    number of comments written. *)
Theorem plain_writer_is_line_delimited :
  forall json_dumps content comments,
    let w := write_all json_dumps (CommentWriter_init content false)
                       comments in
    output_file (finalize w)
    = content
      ++ List.concat (map (fun c => json_dumps c None ++ [LF]) comments)
    /\ count w = Z.of_nat (List.length comments)
    /\ forall c,
         write_comment json_dumps w c false
         = write_comment json_dumps w c true.
Proof.
  intros json_dumps content comments w. subst w.
  destruct (write_all_count json_dumps comments
              (CommentWriter_init content false)) as [Hcount Hpretty].
  split; [|split].
  - unfold finalize. rewrite Hpretty. simpl pretty. cbv iota.
    rewrite write_all_lines by reflexivity. reflexivity.
  - rewrite Hcount. simpl. lia.
  - intros c. unfold write_comment. rewrite Hpretty. reflexivity.
Qed.

Lemma write_all_app json_dumps w a b :
  write_all json_dumps w (a ++ b)
  = write_all json_dumps (write_all json_dumps w a) b.
Proof. unfold write_all. apply fold_left_app. Qed.

(** X26: in pretty mode the comment written last is followed by a comma,
    straight before the closing bracket, whenever the generator runs out
    before a limit is reached (no limit at all included); it is written
    without the comma only when the limit falls exactly on it. *)
Theorem pretty_last_comment_comma :
  forall json_dumps before comment,
    let body :=
      output_file (write_all json_dumps (CommentWriter_init [] true) before) in
    let text := format_comment_as_json json_dumps comment (Some JSON_INDENT) in
    let closing := spaces JSON_INDENT ++ lit "]" ++ [LF] ++ lit "}" in
    (forall limit,
       limit_set limit = false
       \/ Z.of_nat (List.length (before ++ [comment])) < limit_value limit ->
       output_file
         (fst (snd (download json_dumps limit true (before ++ [comment])
                             Exhausted)))
       = body ++ (text ++ lit ",") ++ [LF] ++ closing)
    /\ output_file
         (fst (snd (download json_dumps
                      (Some (Z.of_nat (List.length before) + 1)) true
                      (before ++ [comment]) Exhausted)))
       = body ++ text ++ [LF] ++ closing.
Proof.
  intros json_dumps before comment body text closing.
  destruct (write_all_count json_dumps before (CommentWriter_init [] true))
    as [_ Hpretty].
  change (pretty (CommentWriter_init [] true)) with true in Hpretty.
  split.
  - intros limit Hlimit.
    rewrite (@download_unlimited json_dumps limit true (before ++ [comment])
               Exhausted Hlimit).
    cbn [fst snd]. rewrite write_all_app.
    unfold write_all at 1. cbn [fold_left].
    unfold finalize, write_comment. cbn [pretty output_file].
    rewrite Hpretty. cbn [pretty andb output_file].
    subst body text closing. rewrite <- ?app_assoc. reflexivity.
  - rewrite (@download_limited json_dumps _ true before comment []
               Exhausted eq_refl).
    cbn [fst snd].
    unfold finalize, write_comment. cbn [pretty output_file].
    rewrite Hpretty. cbn [pretty andb output_file].
    subst body text closing. rewrite <- ?app_assoc. reflexivity.
Qed.

Lemma pretty_last_comment_comma_witness :
  output_file
    (fst (snd (download toy_dumps None true
                 ([sample_record "a" "x" None] ++ [sample_record "b" "x" None])
                 Exhausted)))
  = output_file (write_all toy_dumps (CommentWriter_init [] true)
                           [sample_record "a" "x" None])
     ++ (format_comment_as_json toy_dumps (sample_record "b" "x" None)
                                (Some JSON_INDENT) ++ lit ",")
     ++ [LF]
     ++ spaces JSON_INDENT ++ lit "]" ++ [LF] ++ lit "}".
Proof.
  apply (proj1 (@pretty_last_comment_comma toy_dumps
                  [sample_record "a" "x" None] (sample_record "b" "x" None))
               None).
  left. reflexivity.
Defined.

(** X27: a negative limit behaves like a limit of one: at most one
    comment is written, with [has_more=False]. *)
Theorem negative_limit_is_one :
  forall json_dumps l pretty comments ending,
    l < 0 ->
    download json_dumps (Some l) pretty comments ending
    = download json_dumps (Some 1) pretty comments ending.
Proof.
  intros json_dumps l pretty comments ending Hl. unfold download.
  destruct comments as [|c rest]; [reflexivity|].
  assert (Hone : forall lim st,
            lim <> 0 -> lim <= 1 ->
            write_from json_dumps (Some lim)
                       (CommentWriter_init [] pretty, st) c rest ending
            = (Ok tt,
               (write_comment json_dumps (CommentWriter_init [] pretty)
                              c false,
                st ++ [1]))).
  { intros lim st Hne Hle.
    assert (Hset : limit_set (Some lim) = true).
    { simpl. destruct (Z.eqb_spec lim 0); [contradiction|reflexivity]. }
    assert (Hmore : (count (CommentWriter_init [] pretty)
                     <? limit_value (Some lim) - 1) = false).
    { apply Z.ltb_ge. simpl. lia. }
    assert (Hstop : forall b,
              (limit_value (Some lim)
               <=? count (write_comment json_dumps
                            (CommentWriter_init [] pretty) c b)) = true).
    { intros b. apply Z.leb_le. simpl. lia. }
    destruct rest as [|c' rest]; cbn [write_from];
      rewrite Hset, Hmore, Hstop; reflexivity. }
  rewrite (Hone l) by lia. rewrite (Hone 1) by lia. reflexivity.
Qed.

Lemma negative_limit_is_one_witness :
  download toy_dumps (Some (-3)) false
           [sample_record "a" "x" None; sample_record "b" "x" None]
           (Raised KeyError)
  = download toy_dumps (Some 1) false
             [sample_record "a" "x" None; sample_record "b" "x" None]
             (Raised KeyError).
Proof.
  apply (@negative_limit_is_one toy_dumps (-3) false
           [sample_record "a" "x" None; sample_record "b" "x" None]
           (Raised KeyError)).
  lia.
Defined.

(* ===================================================================== *)
(** ** The crawl loop: pacing of the requests *)
(* ===================================================================== *)

(** A stretch of log is [polite] when no comment request follows another
    without a sleep in between; [slept] tells whether a sleep has happened
    since the last request before the stretch. *)
Fixpoint polite (slept : bool) (evs : log) : bool :=
  match evs with
  | [] => true
  | EvAjaxPost _ _ _ :: evs' => slept && polite false evs'
  | EvSleep _ :: evs' => polite true evs'
  | _ :: evs' => polite slept evs'
  end.

Fixpoint slept_after (slept : bool) (evs : log) : bool :=
  match evs with
  | [] => slept
  | EvAjaxPost _ _ _ :: evs' => slept_after false evs'
  | EvSleep _ :: evs' => slept_after true evs'
  | _ :: evs' => slept_after slept evs'
  end.

Lemma polite_app slept a b :
  polite slept (a ++ b) = polite slept a && polite (slept_after slept a) b.
Proof.
  revert slept. induction a as [|ev a IH]; intros slept; simpl.
  - reflexivity.
  - destruct ev; simpl; rewrite IH; try reflexivity.
    rewrite andb_assoc. reflexivity.
Qed.

Lemma slept_after_app slept a b :
  slept_after slept (a ++ b) = slept_after (slept_after slept a) b.
Proof.
  revert slept. induction a as [|ev a IH]; intros slept; simpl.
  - reflexivity.
  - destruct ev; simpl; apply IH.
Qed.

Lemma yields_polite records : forall slept,
  polite slept (map EvYield records) = true
  /\ slept_after slept (map EvYield records) = slept.
Proof.
  induction records as [|r records IH]; intros slept; simpl; auto.
Qed.

Lemma ajax_attempts_polite session_post url data ytcfg sleep timeout n :
  forall st, exists evs,
    snd (ajax_attempts session_post n url data ytcfg sleep timeout st)
    = st ++ evs
    /\ polite true evs = true.
Proof.
  induction n as [|n IH]; intros st.
  - exists []. simpl. rewrite app_nil_r. auto.
  - cbn [ajax_attempts]. unfold bind, lift, post.
    destruct (py_getitem ytcfg "INNERTUBE_API_KEY") as [key|e].
    2:{ exists []. simpl. rewrite app_nil_r. auto. }
    assert (Hone : exists evs,
              st ++ [EvAjaxPost url key data] = st ++ evs
              /\ polite true evs = true).
    { exists [EvAjaxPost url key data]. auto. }
    assert (Hmore : exists evs,
              snd (ajax_attempts session_post n url data ytcfg sleep timeout
                     ((st ++ [EvAjaxPost url key data]) ++ [EvSleep sleep]))
              = st ++ evs
              /\ polite true evs = true).
    { destruct (IH ((st ++ [EvAjaxPost url key data]) ++ [EvSleep sleep]))
        as [evs [Hlog Hpolite]].
      exists ([EvAjaxPost url key data; EvSleep sleep] ++ evs). split.
      - rewrite Hlog, <- !app_assoc. reflexivity.
      - simpl. exact Hpolite. }
    destruct (session_post st url key data timeout) as [code body| |name].
    + destruct (code =? 200); [exact Hone|].
      destruct ((code =? 403) || (code =? 413)); [exact Hone|].
      unfold emit. exact Hmore.
    + unfold emit. exact Hmore.
    + exact Hone.
Qed.

Lemma ajax_request_polite session_post endpoint ytcfg retries sleep timeout st :
  exists evs,
    snd (ajax_request session_post endpoint ytcfg retries sleep timeout st)
    = st ++ evs
    /\ polite true evs = true.
Proof.
  unfold ajax_request, bind, lift.
  destruct (endpoint_url endpoint) as [url|e].
  2:{ exists []. simpl. rewrite app_nil_r. auto. }
  destruct (request_data endpoint ytcfg) as [data|e].
  2:{ exists []. simpl. rewrite app_nil_r. auto. }
  apply ajax_attempts_polite.
Qed.

Lemma process_response_polite dateparser_parse response continuations sleep
    st :
  exists evs,
    snd (process_response dateparser_parse response continuations sleep st)
    = st ++ evs
    /\ (forall slept, polite slept evs = true)
    /\ (forall slept c,
          fst (process_response dateparser_parse response continuations
                                sleep st) = Ok c ->
          slept_after slept evs = true).
Proof.
  destruct (process_response dateparser_parse response continuations sleep st)
    as [out st'] eqn:Hrun.
  cbn [fst snd]. unfold process_response in Hrun.
  assert (Hnone : st' = st -> (forall c, out <> Ok c) ->
            exists evs, st' = st ++ evs
              /\ (forall slept, polite slept evs = true)
              /\ (forall slept c, out = Ok c -> slept_after slept evs = true)).
  { intros -> Hout. exists []. rewrite app_nil_r.
    split; [reflexivity|]. split; [reflexivity|].
    intros slept c Hc. destruct (Hout c Hc). }
  destruct (py_truthy _).
  { inversion Hrun; subst. apply Hnone; [reflexivity|discriminate]. }
  unfold bind, lift in Hrun.
  destruct (discover response continuations) as [conts|e].
  2:{ inversion Hrun; subst. apply Hnone; [reflexivity|discriminate]. }
  destruct (build_payments response) as [payments|e].
  2:{ inversion Hrun; subst. apply Hnone; [reflexivity|discriminate]. }
  destruct (build_toolbar_states response) as [toolbar_states|e].
  2:{ inversion Hrun; subst. apply Hnone; [reflexivity|discriminate]. }
  clear Hnone.
  destruct (emit_comments_trace dateparser_parse payments toolbar_states
              (rev (search_dict response "commentEntityPayload")) st)
    as [records [Hlog _]].
  destruct (emit_comments dateparser_parse payments toolbar_states
              (rev (search_dict response "commentEntityPayload")) st)
    as [[[]|e] st1]; simpl in Hlog; subst st1;
    unfold emit, ret in Hrun; inversion Hrun; subst; clear Hrun.
  - exists (map EvYield records ++ [EvSleep sleep]).
    split; [rewrite app_assoc; reflexivity|]. split.
    + intros slept. rewrite polite_app.
      rewrite (proj1 (yields_polite records slept)). reflexivity.
    + intros slept c _. rewrite slept_after_app. reflexivity.
  - exists (map EvYield records). split; [reflexivity|]. split.
    + intros slept. apply yields_polite.
    + intros slept c Hc. discriminate Hc.
Qed.

(** X28: the crawl loop never sends two comment requests without a sleep
    between them: after a failed attempt it sleeps before retrying, and
    after a batch it sleeps before requesting the next token. *)
Theorem crawl_sleeps_between_requests :
  forall session_post dateparser_parse fuel ytcfg sleep continuations st,
  exists evs,
    snd (crawl session_post dateparser_parse fuel ytcfg sleep continuations st)
    = st ++ evs
    /\ polite true evs = true.
Proof.
  intros session_post parse fuel ytcfg sleep.
  induction fuel as [|fuel IH]; intros continuations st.
  - exists []. cbn [crawl].
    destruct (py_pop continuations) as [[rest token]|]; simpl;
      rewrite app_nil_r; auto.
  - cbn [crawl]. destruct (py_pop continuations) as [[rest token]|].
    2:{ exists []. simpl. rewrite app_nil_r. auto. }
    unfold bind at 1.
    destruct (ajax_request_polite session_post token ytcfg 5 (20 # 1)
                (60 # 1) st) as [evs1 [Hlog1 Hpolite1]].
    unfold ajax_request_default.
    destruct (ajax_request session_post token ytcfg 5 (20 # 1) (60 # 1) st)
      as [[response|e] st1]; simpl in Hlog1; subst st1.
    2:{ exists evs1. auto. }
    destruct (negb (py_truthy response)).
    { exists evs1. auto. }
    unfold bind.
    destruct (process_response_polite parse response rest sleep (st ++ evs1))
      as [evs2 [Hlog2 [Hpolite2 Hslept2]]].
    destruct (process_response parse response rest sleep (st ++ evs1))
      as [[conts|e] st2]; simpl in Hlog2; subst st2.
    + destruct (IH conts ((st ++ evs1) ++ evs2)) as [evs3 [Hlog3 Hpolite3]].
      exists (evs1 ++ evs2 ++ evs3). split.
      * rewrite Hlog3, <- !app_assoc. reflexivity.
      * rewrite !polite_app, Hpolite1, Hpolite2.
        rewrite (Hslept2 _ conts eq_refl). exact Hpolite3.
    + exists (evs1 ++ evs2). split.
      * rewrite <- app_assoc. reflexivity.
      * rewrite polite_app, Hpolite1, Hpolite2. reflexivity.
Qed.
